(** * Dream11 team predictor: scoring, role classification and constrained selection

    A shallow embedding of [Backend/team.py] (class [Dream11Predictor]).

    Modelling conventions.
    - Python [float]/[int] scores and credits are exact rationals ([Q]); NaN and
      infinities are outside the model.
    - [self] is the record [Dream11Predictor]; every method takes it and returns
      the updated record next to its result.
    - [self.player_scores] is an association list in insertion order (the order
      of a Python dict, which [sorted] relies on for ties); the other
      dictionaries are only read by key and are [gmap]s.
    - The JSON caches are typed as the loader delivers them: a per-player record
      with optional keys, head-to-head entries as JSON values.
    - What pandas and [float()] compute from text is taken as a parameter
      (record [Externals]); the formulas applied to the parsed cells are the
      source's. *)

From Stdlib Require Import QArith Qminmax Permutation Ascii String.
From stdpp Require Import base list strings gmap.

Local Open Scope string_scope.
Local Open Scope list_scope.

(** ** Strings *)

(** Python [sub in s] on [str]. *)
Fixpoint str_in (sub s : string) : bool :=
  String.prefix sub s ||
  match s with
  | EmptyString => false
  | String _ s' => str_in sub s'
  end.

(** The relation [str_in] decides: [sub] occurs somewhere inside [s]. *)
Definition occurs_in (sub s : string) : Prop :=
  ∃ pre post, s = pre +:+ sub +:+ post.

Definition lower_ascii (c : Ascii.ascii) : Ascii.ascii :=
  let n := Ascii.nat_of_ascii c in
  if (65 <=? n)%nat && (n <=? 90)%nat then Ascii.ascii_of_nat (n + 32) else c.

(** [str.lower()] on the ASCII letters. *)
Fixpoint lower (s : string) : string :=
  match s with
  | EmptyString => EmptyString
  | String c s' => String (lower_ascii c) (lower s')
  end.

(** The characters [str.strip()] removes (ASCII white space). *)
Definition is_ws (c : Ascii.ascii) : bool :=
  let n := Ascii.nat_of_ascii c in
  (n =? 32)%nat || ((9 <=? n)%nat && (n <=? 13)%nat) ||
  ((28 <=? n)%nat && (n <=? 31)%nat).

Fixpoint lstrip (s : string) : string :=
  match s with
  | EmptyString => EmptyString
  | String c s' => if is_ws c then lstrip s' else s
  end.

Definition rstrip (s : string) : string := String.rev (lstrip (String.rev s)).

Definition strip (s : string) : string := rstrip (lstrip s).

(** [s.split('(', 1)]: [None] when there is no parenthesis (a one-element
    list), else the text before the first one and the text after it. *)
Fixpoint split_paren (s : string) : string * option string :=
  match s with
  | EmptyString => (EmptyString, None)
  | String c s' =>
      if Ascii.eqb c "("%char then (EmptyString, Some s')
      else let '(a, b) := split_paren s' in (String c a, b)
  end.

(** [s.endswith(')')] and [s[:-1]]. *)
Definition endswith_rparen (s : string) : bool :=
  match String.rev s with
  | String c _ => Ascii.eqb c ")"%char
  | EmptyString => false
  end.

Definition drop_last (s : string) : string :=
  match String.rev s with
  | String _ r => String.rev r
  | EmptyString => EmptyString
  end.

(** ** Data model *)

(** Values of the JSON caches. *)
#[warnings="-register-all"]
Inductive Json : Type :=
| JNull
| JBool (b : bool)
| JNum (q : Q)
| JStr (s : string)
| JList (l : list Json)
| JDict (d : list (string * Json)).

(** [d.get(key, dflt)] on a JSON object and [key in d].  A loaded object
    holds each key once, so the first binding is the binding. *)
Fixpoint jdict_find (d : list (string * Json)) (key : string) : option Json :=
  match d with
  | [] => None
  | (k, v) :: d' => if String.eqb k key then Some v else jdict_find d' key
  end.

Definition jdict_get (d : list (string * Json)) (key : string) (dflt : Json) : Json :=
  default dflt (jdict_find d key).

Definition jdict_has (d : list (string * Json)) (key : string) : bool :=
  bool_decide (is_Some (jdict_find d key)).

(** One player's entry of [batter_data] / [bowler_data]; a key the JSON object
    lacks is [None]. *)
Record PlayerStats := {
  head_to_head : option (gmap string Json);
  venue : option (gmap string string);
  recent_form : option (list (list string));
}.

(** A row of a squad CSV. *)
Record SquadRow := {
  Name : string;
  Role : string;
  Credits : Q;
  Foreign_Player : bool;
}.

(** The strings [_simplify_role] returns. *)
Inductive RoleCategory := WK | BAT | ALL | BOWL.

Global Instance RoleCategory_eq_dec : EqDecision RoleCategory.
Proof. solve_decision. Defined.

Definition RoleCategory_to_nat (r : RoleCategory) : nat :=
  match r with WK => 0 | BAT => 1 | ALL => 2 | BOWL => 3 end.

Definition RoleCategory_of_nat (n : nat) : option RoleCategory :=
  match n with
  | 0 => Some WK | 1 => Some BAT | 2 => Some ALL | 3 => Some BOWL
  | _ => None
  end.

Global Instance RoleCategory_countable : Countable RoleCategory.
Proof.
  apply (inj_countable RoleCategory_to_nat RoleCategory_of_nat).
  by intros [].
Defined.

Record Dream11Predictor := {
  batter_data : gmap string PlayerStats;
  bowler_data : gmap string PlayerStats;
  teams_data : list (string * list SquadRow);
  player_scores : list (string * Q);
  selected_team : list (string * Q);
  player_roles : gmap string string;
  player_credits : gmap string Q;
  player_is_foreign : gmap string bool;
  player_teams : gmap string string;
  team_counts : gmap string nat;
  role_team_counts : gmap string (gmap RoleCategory nat);
}.

(** [key in d] for the dictionaries. *)
Definition has_key {V} (d : gmap string V) (key : string) : bool :=
  bool_decide (is_Some (d !! key)).

(** ** Role classification *)

(** [self.player_roles.get(player, "Unknown")] *)
Definition role_text (self : Dream11Predictor) (player : string) : string :=
  default "Unknown" (player_roles self !! player).

Definition _simplify_role (self : Dream11Predictor) (player : string) : RoleCategory :=
  let role := role_text self player in
  if str_in "WK" role then WK
  else if str_in "Bowler" role then BOWL
  else if str_in "All-Rounder" role || str_in "Allrounder" role then ALL
  else if str_in "Batter" role || str_in "Batsman" role then BAT
  else BAT.

(** The four lists [categorize_players] fills. *)
Inductive Category := Batsmen | Bowlers | AllRounders | WicketKeepers.

Global Instance Category_eq_dec : EqDecision Category.
Proof. solve_decision. Defined.

Record Categorized := {
  batsmen : list (string * Q);
  bowlers : list (string * Q);
  all_rounders : list (string * Q);
  wicket_keepers : list (string * Q);
}.

Definition wk_names : list string :=
  ["MS Dhoni"; "Rishabh Pant"; "KL Rahul"; "Sanju Samson"; "Ishan Kishan";
   "Nicholas Pooran"; "Josh Inglis"; "Prabhsimran Singh"].

(** The if/elif chain of the loop body of [categorize_players]: the list the
    player is appended to. *)
Definition category_of (self : Dream11Predictor) (player : string) : Category :=
  let role := role_text self player in
  if str_in "WK" role then WicketKeepers
  else if str_in "Bowler" role then Bowlers
  else if str_in "All-Rounder" role || str_in "Allrounder" role
          || str_in "All-rounder" role || str_in "All Rounder" role then AllRounders
  else if str_in "Batter" role || str_in "Batsman" role then Batsmen
  else
    if has_key (batter_data self) player && negb (has_key (bowler_data self) player) then
      if bool_decide (player ∈ wk_names) then WicketKeepers else Batsmen
    else if has_key (bowler_data self) player && negb (has_key (batter_data self) player) then
      Bowlers
    else AllRounders.

Definition categorized_append (c : Categorized) (cat : Category) (entry : string * Q)
  : Categorized :=
  match cat with
  | Batsmen => {| batsmen := batsmen c ++ [entry]; bowlers := bowlers c;
                  all_rounders := all_rounders c; wicket_keepers := wicket_keepers c |}
  | Bowlers => {| batsmen := batsmen c; bowlers := bowlers c ++ [entry];
                  all_rounders := all_rounders c; wicket_keepers := wicket_keepers c |}
  | AllRounders => {| batsmen := batsmen c; bowlers := bowlers c;
                      all_rounders := all_rounders c ++ [entry];
                      wicket_keepers := wicket_keepers c |}
  | WicketKeepers => {| batsmen := batsmen c; bowlers := bowlers c;
                        all_rounders := all_rounders c;
                        wicket_keepers := wicket_keepers c ++ [entry] |}
  end.

Definition categorize_players (self : Dream11Predictor)
    (sorted_players : list (string * Q)) : Categorized :=
  fold_left
    (fun acc entry => categorized_append acc (category_of self entry.1) entry)
    sorted_players
    {| batsmen := []; bowlers := []; all_rounders := []; wicket_keepers := [] |}.

(** The list of a category inside the result. *)
Definition category_list (c : Categorized) (cat : Category) : list (string * Q) :=
  match cat with
  | Batsmen => batsmen c
  | Bowlers => bowlers c
  | AllRounders => all_rounders c
  | WicketKeepers => wicket_keepers c
  end.

(** ** The score dictionary

    [self.player_scores]: a dict, iterated in insertion order. *)

Fixpoint dict_get (d : list (string * Q)) (key : string) : option Q :=
  match d with
  | [] => None
  | (k, v) :: d' => if String.eqb k key then Some v else dict_get d' key
  end.

(** [d[key] = v]: an existing key keeps its place, a new one goes last. *)
Fixpoint dict_set (d : list (string * Q)) (key : string) (v : Q) : list (string * Q) :=
  match d with
  | [] => [(key, v)]
  | (k, w) :: d' =>
      if String.eqb k key then (k, v) :: d' else (k, w) :: dict_set d' key v
  end.

Definition dict_has (d : list (string * Q)) (key : string) : bool :=
  bool_decide (is_Some (dict_get d key)).

(** [if key not in d: d[key] = 0] *)
Definition dict_setdefault0 (d : list (string * Q)) (key : string) : list (string * Q) :=
  if dict_has d key then d else dict_set d key 0%Q.

(** [d[key] += x].  On a missing key Python raises KeyError: inside
    [analyze_venue_performance] the enclosing [except Exception] swallows it
    and the dict is unchanged; at the other call sites the key has just been
    initialised (lemma [dict_setdefault0_has]). *)
Definition dict_add (d : list (string * Q)) (key : string) (x : Q) : list (string * Q) :=
  match dict_get d key with
  | Some v => dict_set d key (v + x)%Q
  | None => d
  end.

(** A dict has each key once. *)
Definition dict_wf (d : list (string * Q)) : Prop := NoDup (d.*1).

(** ** Setters for the fields of [self] *)

Definition set_player_scores (self : Dream11Predictor) (v : list (string * Q))
  : Dream11Predictor :=
  {| batter_data := batter_data self; bowler_data := bowler_data self;
     teams_data := teams_data self; player_scores := v;
     selected_team := selected_team self; player_roles := player_roles self;
     player_credits := player_credits self;
     player_is_foreign := player_is_foreign self;
     player_teams := player_teams self; team_counts := team_counts self;
     role_team_counts := role_team_counts self |}.

Definition set_player_roles_field (self : Dream11Predictor) (v : gmap string string)
  : Dream11Predictor :=
  {| batter_data := batter_data self; bowler_data := bowler_data self;
     teams_data := teams_data self; player_scores := player_scores self;
     selected_team := selected_team self; player_roles := v;
     player_credits := player_credits self;
     player_is_foreign := player_is_foreign self;
     player_teams := player_teams self; team_counts := team_counts self;
     role_team_counts := role_team_counts self |}.

Definition set_player_credits (self : Dream11Predictor) (v : gmap string Q)
  : Dream11Predictor :=
  {| batter_data := batter_data self; bowler_data := bowler_data self;
     teams_data := teams_data self; player_scores := player_scores self;
     selected_team := selected_team self; player_roles := player_roles self;
     player_credits := v;
     player_is_foreign := player_is_foreign self;
     player_teams := player_teams self; team_counts := team_counts self;
     role_team_counts := role_team_counts self |}.

Definition set_player_is_foreign (self : Dream11Predictor) (v : gmap string bool)
  : Dream11Predictor :=
  {| batter_data := batter_data self; bowler_data := bowler_data self;
     teams_data := teams_data self; player_scores := player_scores self;
     selected_team := selected_team self; player_roles := player_roles self;
     player_credits := player_credits self;
     player_is_foreign := v;
     player_teams := player_teams self; team_counts := team_counts self;
     role_team_counts := role_team_counts self |}.

Definition set_player_teams (self : Dream11Predictor) (v : gmap string string)
  : Dream11Predictor :=
  {| batter_data := batter_data self; bowler_data := bowler_data self;
     teams_data := teams_data self; player_scores := player_scores self;
     selected_team := selected_team self; player_roles := player_roles self;
     player_credits := player_credits self;
     player_is_foreign := player_is_foreign self;
     player_teams := v; team_counts := team_counts self;
     role_team_counts := role_team_counts self |}.

(** The three fields [select_dream11_team] assigns. *)
Definition set_selection (self : Dream11Predictor) (team : list (string * Q))
    (tc : gmap string nat) (rtc : gmap string (gmap RoleCategory nat))
  : Dream11Predictor :=
  {| batter_data := batter_data self; bowler_data := bowler_data self;
     teams_data := teams_data self; player_scores := player_scores self;
     selected_team := team; player_roles := player_roles self;
     player_credits := player_credits self;
     player_is_foreign := player_is_foreign self;
     player_teams := player_teams self; team_counts := tc;
     role_team_counts := rtc |}.

(** ** What the libraries compute from text *)

(** The outcome of reading a venue table and keeping the rows whose [venue]
    column contains the target venue ([pd.read_csv] on [StringIO(text)], then
    [df[df['venue'].str.contains(venue, case=False)]]). *)
Inductive VenueLookup :=
| PdRaise                                  (* any exception while parsing or matching *)
| PdEmpty                                  (* [venue_row.empty] *)
| PdRow (cell : string → option Q).        (* [venue_row[col].values[0]]; [None]: the
                                              column is missing or the cell is no number *)

(** A parsed form table: for a column name, [None] when it is not among
    [form_df.columns], else the result of [.mean()] ([None]: it raised). *)
Definition FormTable := string → option (option Q).

Record Externals := {
  (** [float(s)] on a [str]; [None] is ValueError. *)
  float_of_str : string → option Q;
  read_venue_row : string → string → VenueLookup;
  (** [pd.read_csv(buffer, sep=r'\s{2,}', engine='python')]; [None]: it raised. *)
  read_form_csv : string → option FormTable;
}.

(** [pd.StringIO(text)].  pandas has no attribute [StringIO] (the module
    imports [io.StringIO] under the name [StringIO], which
    [analyze_venue_performance] uses): evaluating [pd.StringIO] raises
    AttributeError before the text is read.  [None] is that exception. *)
Definition pd_StringIO (text : string) : option string := None.

(** ** Score Aggregator *)

(** A JSON value used as an operand of [/], [*], [+], [-] with numbers: numbers
    and booleans compute, anything else ends in TypeError ([None]). *)
Definition as_number (v : Json) : option Q :=
  match v with
  | JNum q => Some q
  | JBool b => Some (if b then 1 else 0)%Q
  | _ => None
  end.

Section Scoring.
Context (E : Externals).

(** [float(v)]: TypeError or ValueError is [None]. *)
Definition py_float (v : Json) : option Q :=
  match v with
  | JNum q => Some q
  | JBool b => Some (if b then 1 else 0)%Q
  | JStr s => float_of_str E s
  | _ => None
  end.

(** The batter branch for one stored entry [h2h_data]: the amount added to
    the batter's score, [None] when nothing is added (entry skipped, or
    TypeError caught). *)
Definition batting_h2h_score (h2h_data : Json) : option Q :=
  let h2h_data :=
    match h2h_data with
    | JList (first :: _) => first
    | _ => h2h_data
    end in
  match h2h_data with
  | JDict d =>
      if jdict_has d "Message" then None
      else
        strike_rate ← as_number (jdict_get d "Strike Rate" (JNum 0));
        avg ← as_number (jdict_get d "Average" (JNum 0));
        boundary_pct ← as_number (jdict_get d "Boundary %" (JNum 0));
        dismissals ← as_number (jdict_get d "Dismissals" (JNum 0));
        Some ((strike_rate / 100) * 2 + (avg / 10) + (boundary_pct / 10)
              - (dismissals * 2))%Q
  | _ => None
  end.

(** The bowler branch for one stored entry. *)
Definition bowling_h2h_score (h2h_data : Json) : option Q :=
  match h2h_data with
  | JDict d =>
      dismissals ← py_float (jdict_get d "Dismissals" (JNum 0));
      economy ← py_float (jdict_get d "Econ" (JNum 15));
      Some ((dismissals * 5) + (10 - Qmin economy 10))%Q
  | _ => None
  end.

(** [stats.get('head_to_head', {})] *)
Definition h2h_of (stats : PlayerStats) : gmap string Json :=
  default ∅ (head_to_head stats).

(** Body of the inner loop over the opponents, for a fixed [player]. *)
Definition h2h_inner (score_of : Json → option Q) (stats : PlayerStats)
    (player : string) (scores : list (string * Q)) (opponent : string)
  : list (string * Q) :=
  match h2h_of stats !! opponent with
  | Some h2h_data =>
      match score_of h2h_data with
      | Some x => dict_add scores player x
      | None => scores
      end
  | None => scores
  end.

(** Body of the first outer loop ([for batter in team1_players]). *)
Definition h2h_batter (self : Dream11Predictor) (team2_players : list string)
    (scores : list (string * Q)) (batter : string) : list (string * Q) :=
  let scores := dict_setdefault0 scores batter in
  match batter_data self !! batter with
  | Some stats =>
      fold_left (h2h_inner batting_h2h_score stats batter) team2_players scores
  | None => scores
  end.

(** Body of the second outer loop ([for bowler in team2_players]). *)
Definition h2h_bowler (self : Dream11Predictor) (team1_players : list string)
    (scores : list (string * Q)) (bowler : string) : list (string * Q) :=
  let scores := dict_setdefault0 scores bowler in
  match bowler_data self !! bowler with
  | Some stats =>
      fold_left (h2h_inner bowling_h2h_score stats bowler) team1_players scores
  | None => scores
  end.

Definition analyze_head_to_head (self : Dream11Predictor)
    (team1_players team2_players : list string) : Dream11Predictor :=
  let scores := fold_left (h2h_batter self team2_players) team1_players
                  (player_scores self) in
  let scores := fold_left (h2h_bowler self team1_players) team2_players scores in
  set_player_scores self scores.

(** [venue_data and label in venue_data], then [venue_data[label]]. *)
Definition venue_table (stats : PlayerStats) (label : string) : option string :=
  default ∅ (venue stats) !! label.

(** The two [try] blocks of [analyze_venue_performance]. *)
Definition venue_batting_try (venue_name : string) (text : string)
    (scores : list (string * Q)) (player : string) : list (string * Q) :=
  match read_venue_row E text venue_name with
  | PdRow cell =>
      match cell "Average", cell "Strike Rate" with
      | Some avg, Some strike_rate =>
          dict_add scores player ((avg / 20) + (strike_rate / 100))%Q
      | _, _ => scores
      end
  | _ => scores
  end.

Definition venue_bowling_try (venue_name : string) (text : string)
    (scores : list (string * Q)) (player : string) : list (string * Q) :=
  match read_venue_row E text venue_name with
  | PdRow cell =>
      match cell "Wickets", cell "Economy" with
      | Some wickets, Some economy =>
          dict_add scores player ((wickets * 3) + (10 - Qmin economy 10))%Q
      | _, _ => scores
      end
  | _ => scores
  end.

Definition venue_player (self : Dream11Predictor) (venue_name : string)
    (scores : list (string * Q)) (player : string) : list (string * Q) :=
  let scores :=
    match batter_data self !! player with
    | Some stats =>
        match venue_table stats "Batting" with
        | Some text => venue_batting_try venue_name text scores player
        | None => scores
        end
    | None => scores
    end in
  match bowler_data self !! player with
  | Some stats =>
      match venue_table stats "Bowling" with
      | Some text => venue_bowling_try venue_name text scores player
      | None => scores
      end
  | None => scores
  end.

Definition analyze_venue_performance (self : Dream11Predictor) (venue_name : string)
    (players : list string) : Dream11Predictor :=
  set_player_scores self
    (fold_left (venue_player self venue_name) players (player_scores self)).

(** The [try] block of the batting form: each [+=] takes effect as soon as
    it is reached; an exception ([None]) abandons the rest. *)
Definition batting_form_try (text : string) (scores : list (string * Q))
    (player : string) : list (string * Q) :=
  match pd_StringIO text with
  | None => scores
  | Some buffer =>
      match read_form_csv E buffer with
      | None => scores
      | Some form_df =>
          match form_df "Runs" with
          | Some None => scores
          | runs =>
              let scores :=
                match runs with
                | Some (Some avg_runs) => dict_add scores player (avg_runs / 10)%Q
                | _ => scores
                end in
              match form_df "Strike Rate" with
              | Some (Some avg_sr) => dict_add scores player (avg_sr / 100)%Q
              | _ => scores
              end
          end
      end
  end.

Definition bowling_form_try (text : string) (scores : list (string * Q))
    (player : string) : list (string * Q) :=
  match pd_StringIO text with
  | None => scores
  | Some buffer =>
      match read_form_csv E buffer with
      | None => scores
      | Some form_df =>
          match form_df "Wickets" with
          | Some None => scores
          | wickets =>
              let scores :=
                match wickets with
                | Some (Some avg_wickets) => dict_add scores player (avg_wickets * 5)%Q
                | _ => scores
                end in
              match form_df "Economy" with
              | Some (Some avg_economy) =>
                  dict_add scores player (10 - Qmin avg_economy 10)%Q
              | _ => scores
              end
          end
      end
  end.

(** Body of [for form_data in recent_form] with the label tested. *)
Definition form_entry (label : string)
    (try_block : string → list (string * Q) → string → list (string * Q))
    (player : string) (scores : list (string * Q)) (form_data : list string)
  : list (string * Q) :=
  match form_data with
  | first :: text :: _ =>
      if String.eqb first label then try_block text scores player else scores
  | _ => scores
  end.

Definition form_player (self : Dream11Predictor) (scores : list (string * Q))
    (player : string) : list (string * Q) :=
  let scores := dict_setdefault0 scores player in
  let scores :=
    match batter_data self !! player with
    | Some stats =>
        match recent_form stats with
        | Some forms =>
            fold_left (form_entry "Batting Match-wise" batting_form_try player)
              forms scores
        | None => scores
        end
    | None => scores
    end in
  match bowler_data self !! player with
  | Some stats =>
      match recent_form stats with
      | Some forms =>
          fold_left (form_entry "Bowling Match-wise" bowling_form_try player)
            forms scores
      | None => scores
      end
  | None => scores
  end.

Definition analyze_recent_form (self : Dream11Predictor) (players : list string)
  : Dream11Predictor :=
  set_player_scores self (fold_left (form_player self) players (player_scores self)).

End Scoring.

(** ** Constrained Team Selector *)

Definition MAX_TEAM_PLAYERS : nat := 6.

Definition MAX_ROLE_PER_TEAM (r : RoleCategory) : nat :=
  match r with WK => 2 | BAT => 3 | ALL => 3 | BOWL => 3 end.

Definition max_foreign : nat := 4.
Definition max_credits : Q := 100.

(** [self.player_credits.get(player, 7.0)] and its siblings. *)
Definition credits_of (self : Dream11Predictor) (player : string) : Q :=
  default 7%Q (player_credits self !! player).

Definition is_foreign_of (self : Dream11Predictor) (player : string) : bool :=
  default false (player_is_foreign self !! player).

Definition team_of (self : Dream11Predictor) (player : string) : string :=
  default "Unknown" (player_teams self !! player).

(** Insertion of [x] into a list sorted by descending score, before the first
    entry whose score is not above that of [x]. *)
Fixpoint insert_desc (x : string * Q) (l : list (string * Q)) : list (string * Q) :=
  match l with
  | [] => [x]
  | y :: l' => if Qle_bool y.2 x.2 then x :: l else y :: insert_desc x l'
  end.

(** [sorted(items, key=lambda x: x[1], reverse=True)]: descending by score,
    entries of equal score in their original order. *)
Definition sorted_desc (items : list (string * Q)) : list (string * Q) :=
  foldr insert_desc [] items.

(** The local variables of the selection loop, with the two counters the
    loop keeps in [self]. *)
Record SelState := {
  sel_players : list (string * Q);
  sel_total_credits : Q;
  sel_foreign_count : nat;
  sel_team_counts : gmap string nat;
  sel_role_team_counts : gmap string (gmap RoleCategory nat);
}.

Definition sel_init : SelState :=
  {| sel_players := []; sel_total_credits := 0; sel_foreign_count := 0;
     sel_team_counts := ∅; sel_role_team_counts := ∅ |}.

(** Reading [counts[team]] of a [defaultdict(int)]: the value, 0 for a new
    key, which the read also stores. *)
Definition team_count (tc : gmap string nat) (team : string) : nat :=
  default 0 (tc !! team).

Definition role_team_count (rtc : gmap string (gmap RoleCategory nat))
    (team : string) (r : RoleCategory) : nat :=
  default 0 (default ∅ (rtc !! team) !! r).

Definition role_team_store (rtc : gmap string (gmap RoleCategory nat))
    (team : string) (r : RoleCategory) (v : nat)
  : gmap string (gmap RoleCategory nat) :=
  <[team := <[r := v]> (default ∅ (rtc !! team))]> rtc.

(** The loop [for player, score in sorted_players] from state [st]. *)
Fixpoint select_loop (self : Dream11Predictor) (sorted_players : list (string * Q))
    (st : SelState) : SelState :=
  match sorted_players with
  | [] => st
  | (player, score) :: rest =>
      let credits := credits_of self player in
      let is_foreign := is_foreign_of self player in
      let team := team_of self player in
      let role_category := _simplify_role self player in
      let n_team := team_count (sel_team_counts st) team in
      let tc := <[team := n_team]> (sel_team_counts st) in
      if (MAX_TEAM_PLAYERS <=? n_team)%nat then
        select_loop self rest
          {| sel_players := sel_players st;
             sel_total_credits := sel_total_credits st;
             sel_foreign_count := sel_foreign_count st;
             sel_team_counts := tc;
             sel_role_team_counts := sel_role_team_counts st |}
      else
        let n_role := role_team_count (sel_role_team_counts st) team role_category in
        let rtc := role_team_store (sel_role_team_counts st) team role_category n_role in
        let skipped :=
          {| sel_players := sel_players st;
             sel_total_credits := sel_total_credits st;
             sel_foreign_count := sel_foreign_count st;
             sel_team_counts := tc;
             sel_role_team_counts := rtc |} in
        if (MAX_ROLE_PER_TEAM role_category <=? n_role)%nat then
          select_loop self rest skipped
        else if negb (Qle_bool (sel_total_credits st + credits) max_credits) then
          select_loop self rest skipped
        else if is_foreign && (max_foreign <=? sel_foreign_count st)%nat then
          select_loop self rest skipped
        else
          let st' :=
            {| sel_players := sel_players st ++ [(player, score)];
               sel_total_credits := (sel_total_credits st + credits)%Q;
               sel_foreign_count :=
                 if is_foreign then sel_foreign_count st + 1
                 else sel_foreign_count st;
               sel_team_counts := <[team := n_team + 1]> tc;
               sel_role_team_counts :=
                 role_team_store rtc team role_category (n_role + 1) |} in
          if (length (sel_players st') =? 11)%nat then st'
          else select_loop self rest st'
  end.

(** What [select_dream11_team] returns. *)
Record Selection := {
  team : list (string * Q);
  captain : option string;
  vice_captain : option string;
  total_credits : Q;
  foreign_count : nat;
}.

Definition select_dream11_team (self : Dream11Predictor)
  : Selection * Dream11Predictor :=
  let sorted_players := sorted_desc (player_scores self) in
  let st := select_loop self sorted_players sel_init in
  let self := set_selection self (sel_players st) (sel_team_counts st)
                (sel_role_team_counts st) in
  match selected_team self with
  | c :: v :: _ =>
      ({| team := selected_team self; captain := Some c.1; vice_captain := Some v.1;
          total_credits := sel_total_credits st;
          foreign_count := sel_foreign_count st |}, self)
  | _ =>
      ({| team := selected_team self; captain := None; vice_captain := None;
          total_credits := sel_total_credits st;
          foreign_count := sel_foreign_count st |}, self)
  end.

(** ** The pre-pass [ensure_minimum_requirements] *)

(** The inner loop over one category, from the running
    [(selected_players, total_credits, foreign_count)]; it stops at the first
    player it appends. *)
Fixpoint reserve_one (self : Dream11Predictor) (category : list (string * Q))
    (st : list (string * Q) * Q * nat) : list (string * Q) * Q * nat :=
  match category with
  | [] => st
  | (player, score) :: rest =>
      let '(selected_players, total, foreign) := st in
      if (0 <? length (List.filter (fun p => String.eqb p.1 player) selected_players))%nat
      then reserve_one self rest st
      else
        let credits := credits_of self player in
        let is_foreign := is_foreign_of self player in
        if Qle_bool (total + credits) 100 &&
           (negb is_foreign || (foreign <? 4)%nat)
        then (selected_players ++ [(player, score)], (total + credits)%Q,
              if is_foreign then foreign + 1 else foreign)
        else reserve_one self rest st
  end.

Definition ensure_minimum_requirements (self : Dream11Predictor)
    (categorized_players : Categorized) (total_credits : Q) (foreign_count : nat)
  : list (string * Q) * Q * nat :=
  fold_left
    (fun st category_name => reserve_one self (category_list categorized_players category_name) st)
    [WicketKeepers; Batsmen; AllRounders; Bowlers]
    ([], total_credits, foreign_count).

(** ** Player Registry *)

Record CsvInfo := {
  info_role : string;
  info_credits : Q;
  info_foreign : bool;
  info_team : string;
}.

(** [team_df['Name'].str.strip().str.lower() == player_name.strip().lower()] *)
Definition name_matches (player_name : string) (row : SquadRow) : bool :=
  String.eqb (lower (strip (Name row))) (lower (strip player_name)).

(** The loop over [self.teams_data.items()]: the first squad with a matching
    row, and the first such row. *)
Fixpoint find_player_row (teams : list (string * list SquadRow)) (player_name : string)
  : option (string * SquadRow) :=
  match teams with
  | [] => None
  | (team_name, team_df) :: rest =>
      match List.filter (name_matches player_name) team_df with
      | player_info :: _ => Some (team_name, player_info)
      | [] => find_player_row rest player_name
      end
  end.

Definition get_player_info_from_csv (self : Dream11Predictor) (player_name : string)
  : option CsvInfo * Dream11Predictor :=
  match find_player_row (teams_data self) player_name with
  | Some (team_name, player_info) =>
      (Some {| info_role := Role player_info;
               info_credits := Credits player_info;
               info_foreign := Foreign_Player player_info;
               info_team := team_name |},
       set_player_teams self (<[player_name := team_name]> (player_teams self)))
  | None => (None, self)
  end.

(** Exceptions that leave a method. *)
Inductive PyExc := KeyError (key : string).

Inductive Result (A : Type) :=
| Ok (a : A)
| Raise (e : PyExc).
Arguments Ok {A} a.
Arguments Raise {A} e.

Definition bind {A B} (r : Result A) (k : A → Result B) : Result B :=
  match r with
  | Ok a => k a
  | Raise e => Raise e
  end.

(** Body of the loop of [set_player_roles] for one entry of the playing XI. *)
Definition set_player_role (self : Dream11Predictor) (player_info : string)
  : Result Dream11Predictor :=
  let '(first, second) := split_paren (strip player_info) in
  let '(player_name, self) :=
    match second with
    | Some second =>
        let player_name := strip first in
        let role_part := strip second in
        (player_name,
         if endswith_rparen role_part then
           let role := strip (drop_last role_part) in
           set_player_roles_field self (<[player_name := role]> (player_roles self))
         else self)
    | None =>
        let player_name := strip player_info in
        (player_name,
         set_player_roles_field self (<[player_name := "Unknown"]> (player_roles self)))
    end in
  let '(csv_info, self) := get_player_info_from_csv self player_name in
  match csv_info with
  | Some csv_info =>
      match player_roles self !! player_name with
      | None => Raise (KeyError player_name)
      | Some current =>
          let self :=
            if String.eqb current "Unknown" then
              set_player_roles_field self
                (<[player_name := info_role csv_info]> (player_roles self))
            else self in
          let self :=
            set_player_credits self
              (<[player_name := info_credits csv_info]> (player_credits self)) in
          Ok (set_player_is_foreign self
                (<[player_name := info_foreign csv_info]> (player_is_foreign self)))
      end
  | None =>
      let self :=
        set_player_credits self (<[player_name := 7%Q]> (player_credits self)) in
      Ok (set_player_is_foreign self
            (<[player_name := false]> (player_is_foreign self)))
  end.

Fixpoint set_player_roles (self : Dream11Predictor) (players_with_roles : list string)
  : Result Dream11Predictor :=
  match players_with_roles with
  | [] => Ok self
  | player_info :: rest =>
      bind (set_player_role self player_info) (fun self => set_player_roles self rest)
  end.

(** ** The pipeline *)

(** [p.split('(')[0].strip()] *)
Definition bare_name (p : string) : string := strip (split_paren p).1.

Record Prediction := {
  selection : Selection;
  out_team1 : string;
  out_team2 : string;
  out_venue : string;
}.

Section Pipeline.
Context (E : Externals).

(** The four analysis calls of [predict_dream11], from an empty score dict. *)
Definition score_players (self : Dream11Predictor) (venue_name : string)
    (team1_players team2_players : list string) : Dream11Predictor :=
  let all_players := team1_players ++ team2_players in
  let self := set_player_scores self [] in
  let self := analyze_head_to_head E self team1_players team2_players in
  let self := analyze_head_to_head E self team2_players team1_players in
  let self := analyze_venue_performance E self venue_name all_players in
  analyze_recent_form E self all_players.

Definition predict_dream11 (self : Dream11Predictor) (team1 team2 venue_name : string)
    (team1_playing11 team2_playing11 : list string)
  : Result (Prediction * Dream11Predictor) :=
  let playing11 := team1_playing11 ++ team2_playing11 in
  bind (set_player_roles self playing11) (fun self =>
    let team1_players := bare_name <$> team1_playing11 in
    let team2_players := bare_name <$> team2_playing11 in
    let self := score_players self venue_name team1_players team2_players in
    let '(sel, self) := select_dream11_team self in
    Ok ({| selection := sel; out_team1 := team1; out_team2 := team2;
           out_venue := venue_name |}, self)).

End Pipeline.


(** ** What [display_team] computes before printing

    The console text is not modelled; the grouping of the team and the two
    distributions printed under "Team Constraints Verification" are. *)

(** One line of a group: player, score, label, credits, foreign flag. *)
Definition DisplayLine : Type := string * Q * RoleCategory * Q * bool.

Record DisplayGroups := {
  wk : list DisplayLine;
  bat : list DisplayLine;
  ar : list DisplayLine;
  bowl : list DisplayLine;
}.

(** Body of the loop [for player, score in team] of [display_team]. *)
Definition display_group_step (self : Dream11Predictor) (g : DisplayGroups)
    (entry : string * Q) : DisplayGroups :=
  let '(player, score) := entry in
  let role := role_text self player in
  let credits := credits_of self player in
  let is_foreign := is_foreign_of self player in
  let to_wk := {| wk := wk g ++ [(player, score, WK, credits, is_foreign)];
                  bat := bat g; ar := ar g; bowl := bowl g |} in
  let to_bat := {| wk := wk g;
                   bat := bat g ++ [(player, score, BAT, credits, is_foreign)];
                   ar := ar g; bowl := bowl g |} in
  let to_ar := {| wk := wk g; bat := bat g;
                  ar := ar g ++ [(player, score, ALL, credits, is_foreign)];
                  bowl := bowl g |} in
  let to_bowl := {| wk := wk g; bat := bat g; ar := ar g;
                    bowl := bowl g ++ [(player, score, BOWL, credits, is_foreign)] |} in
  if str_in "WK" role then to_wk
  else if str_in "Bowler" role then to_bowl
  else if str_in "All-Rounder" role || str_in "Allrounder" role
          || str_in "All-rounder" role || str_in "All Rounder" role then to_ar
  else if str_in "Batter" role || str_in "Batsman" role then to_bat
  else
    if has_key (batter_data self) player && negb (has_key (bowler_data self) player) then
      if bool_decide (player ∈ wk_names) then to_wk else to_bat
    else if has_key (bowler_data self) player && negb (has_key (batter_data self) player) then
      to_bowl
    else to_ar.

Definition display_groups (self : Dream11Predictor) (team : list (string * Q))
  : DisplayGroups :=
  fold_left (display_group_step self) team
    {| wk := []; bat := []; ar := []; bowl := [] |}.

(** [team_dist] and [role_dist] of [display_team]: two [defaultdict]s
    incremented once per player of the team. *)
Definition display_team_dist (self : Dream11Predictor) (team : list (string * Q))
  : gmap string nat :=
  fold_left
    (fun team_dist entry =>
       let team_name := team_of self entry.1 in
       <[team_name := team_count team_dist team_name + 1]> team_dist)
    team ∅.

Definition display_role_dist (self : Dream11Predictor) (team : list (string * Q))
  : gmap string (gmap RoleCategory nat) :=
  fold_left
    (fun role_dist entry =>
       let team_name := team_of self entry.1 in
       let role := _simplify_role self entry.1 in
       role_team_store role_dist team_name role
         (role_team_count role_dist team_name role + 1))
    team ∅.

(** ** The export of [main]

    The rows [main] writes to [fantasy_team.json] for a predicted team. *)

Record TeamDataRow := {
  td_name : string;
  td_team : string;
  td_role : string;
  td_credit : Q;
}.

(** The abbreviation chain; the last branch is [player_team[:2]]. *)
Definition team_abbr_of (player_team : string) : string :=
  if str_in "Sunrisers" player_team then "SRH"
  else if str_in "Delhi" player_team then "DC"
  else if str_in "Chennai" player_team then "CSK"
  else if str_in "Mumbai" player_team then "MI"
  else if str_in "Kolkata" player_team then "KKR"
  else if str_in "Punjab" player_team then "PBKS"
  else if str_in "Rajasthan" player_team then "RR"
  else if str_in "Bangalore" player_team || str_in "Bengaluru" player_team then "RCB"
  else if str_in "Gujarat" player_team then "GT"
  else if str_in "Lucknow" player_team then "LSG"
  else String.substring 0 2 player_team.

Definition display_role_of (role : string) : string :=
  if str_in "WK" role then "Wicketkeeper"
  else if str_in "Bowler" role then "Bowler"
  else if str_in "All-Rounder" role || str_in "Allrounder" role then "All-Rounder"
  else "Batsman".

(** The match side [main] attributes a player to. *)
Definition player_team_of (team1 team2 : string)
    (team1_playing11 team2_playing11 : list string) (player : string) : string :=
  if bool_decide (player ∈ bare_name <$> team1_playing11) then team1
  else if bool_decide (player ∈ bare_name <$> team2_playing11) then team2
  else "Unknown".

Definition main_team_data (predictor : Dream11Predictor) (team1 team2 : string)
    (team1_playing11 team2_playing11 : list string) (team : list (string * Q))
  : list TeamDataRow :=
  (fun entry =>
     let player := entry.1 in
     let role := role_text predictor player in
     let credits := credits_of predictor player in
     let player_team :=
       player_team_of team1 team2 team1_playing11 team2_playing11 player in
     {| td_name := player; td_team := team_abbr_of player_team;
        td_role := display_role_of role; td_credit := credits |}) <$> team.
(** ** Vocabulary of the statements *)

(** The role text contains none of the tokens any classifier tests. *)
Definition no_role_token (role : string) : Prop :=
  ¬ occurs_in "WK" role ∧ ¬ occurs_in "Bowler" role ∧
  ¬ occurs_in "All-Rounder" role ∧ ¬ occurs_in "Allrounder" role ∧
  ¬ occurs_in "All-rounder" role ∧ ¬ occurs_in "All Rounder" role ∧
  ¬ occurs_in "Batter" role ∧ ¬ occurs_in "Batsman" role.

(** The player has no record in a stats cache, or a record with no
    head-to-head entries, no venue table with a row for the venue, and no
    recent-form tables. *)
Definition lacks_history (E : Externals) (venue_name : string)
    (data : gmap string PlayerStats) (player : string) : Prop :=
  match data !! player with
  | None => True
  | Some stats =>
      h2h_of stats = ∅ ∧
      (∀ label text, venue_table stats label = Some text →
                     read_venue_row E text venue_name = PdEmpty) ∧
      default [] (recent_form stats) = []
  end.

(** What the initialisation [if p not in scores: scores[p] = 0] does to the
    entry of [p]. *)
Definition init0 (o : option Q) : option Q := Some (default 0%Q o).

(** Aggregates of a team, computed from the team list and the registry. *)
Definition sum_credits (self : Dream11Predictor) (players : list (string * Q)) : Q :=
  foldr (fun e acc => credits_of self e.1 + acc)%Q 0%Q players.

Definition count_foreign (self : Dream11Predictor) (players : list (string * Q)) : nat :=
  length (List.filter (fun e => is_foreign_of self e.1) players).

Definition count_team (self : Dream11Predictor) (players : list (string * Q))
    (T : string) : nat :=
  length (List.filter (fun e => bool_decide (team_of self e.1 = T)) players).

Definition count_team_role (self : Dream11Predictor) (players : list (string * Q))
    (T : string) (R : RoleCategory) : nat :=
  length (List.filter
            (fun e => bool_decide (team_of self e.1 = T ∧ _simplify_role self e.1 = R))
            players).

(** The four checks of the greedy pass on a candidate, in a selection state. *)
Definition passes_checks (self : Dream11Predictor) (st : SelState) (player : string)
  : Prop :=
  (team_count (sel_team_counts st) (team_of self player) < MAX_TEAM_PLAYERS)%nat ∧
  (role_team_count (sel_role_team_counts st) (team_of self player)
    (_simplify_role self player) < MAX_ROLE_PER_TEAM (_simplify_role self player))%nat ∧
  (sel_total_credits st + credits_of self player <= max_credits)%Q ∧
  (is_foreign_of self player = true → (sel_foreign_count st < max_foreign)%nat).

(** [x] occurs at an earlier position of [l] than [y]. *)
Definition occurs_before {A} (x y : A) (l : list A) : Prop :=
  ∃ l1 l2 l3, l = l1 ++ x :: l2 ++ y :: l3.

(** The loop invariant of the selection: the running counters are the
    aggregates of the players selected so far, and within the caps. *)
Record sel_inv (self : Dream11Predictor) (st : SelState) : Prop := {
  inv_credits : (sel_total_credits st == sum_credits self (sel_players st))%Q;
  inv_foreign : sel_foreign_count st = count_foreign self (sel_players st);
  inv_team : ∀ T, team_count (sel_team_counts st) T = count_team self (sel_players st) T;
  inv_role : ∀ T R, role_team_count (sel_role_team_counts st) T R
                    = count_team_role self (sel_players st) T R;
  inv_budget : (sel_total_credits st <= max_credits)%Q;
  inv_fcap : (sel_foreign_count st ≤ max_foreign)%nat;
  inv_tcap : ∀ T, (team_count (sel_team_counts st) T ≤ MAX_TEAM_PLAYERS)%nat;
  inv_rcap : ∀ T R, (role_team_count (sel_role_team_counts st) T R ≤ MAX_ROLE_PER_TEAM R)%nat;
}.

(** [passes_checks] as the loop computes it. *)
Definition passes_checksb (self : Dream11Predictor) (st : SelState) (player : string)
  : bool :=
  negb (MAX_TEAM_PLAYERS <=? team_count (sel_team_counts st) (team_of self player))%nat &&
  negb (MAX_ROLE_PER_TEAM (_simplify_role self player) <=?
        role_team_count (sel_role_team_counts st) (team_of self player)
          (_simplify_role self player))%nat &&
  Qle_bool (sel_total_credits st + credits_of self player) max_credits &&
  negb (is_foreign_of self player && (max_foreign <=? sel_foreign_count st)%nat).

(** The state after a rejected candidate: nothing the counters say changes. *)
Definition same_selection (st st' : SelState) : Prop :=
  sel_players st' = sel_players st ∧
  sel_total_credits st' = sel_total_credits st ∧
  sel_foreign_count st' = sel_foreign_count st ∧
  (∀ T, team_count (sel_team_counts st') T = team_count (sel_team_counts st) T) ∧
  (∀ T R, role_team_count (sel_role_team_counts st') T R
          = role_team_count (sel_role_team_counts st) T R).

(** The state after an accepted candidate. *)
Definition accepted (self : Dream11Predictor) (st : SelState) (player : string)
    (score : Q) (st' : SelState) : Prop :=
  sel_players st' = sel_players st ++ [(player, score)] ∧
  sel_total_credits st' = (sel_total_credits st + credits_of self player)%Q ∧
  sel_foreign_count st' =
    (if is_foreign_of self player then sel_foreign_count st + 1
     else sel_foreign_count st) ∧
  (∀ T, team_count (sel_team_counts st') T =
        if decide (team_of self player = T)
        then team_count (sel_team_counts st) T + 1
        else team_count (sel_team_counts st) T) ∧
  (∀ T R, role_team_count (sel_role_team_counts st') T R =
          if decide (team_of self player = T ∧ _simplify_role self player = R)
          then role_team_count (sel_role_team_counts st) T R + 1
          else role_team_count (sel_role_team_counts st) T R).

(** The invariant of the pre-pass, started with [total0] credits and
    [foreign0] foreign players: the names reserved are distinct, every
    reserved player passed the budget test and the foreign test in the state
    it was considered in, and the running totals are those of the reserved
    list. *)
Definition prepass_inv (self : Dream11Predictor) (total0 : Q) (foreign0 : nat)
    (st : list (string * Q) * Q * nat) : Prop :=
  let '(reserved, total, foreign) := st in
  NoDup reserved.*1 ∧
  (∀ pre player score post,
     reserved = pre ++ (player, score) :: post →
     (total0 + sum_credits self pre + credits_of self player <= 100)%Q ∧
     (is_foreign_of self player = true →
      (foreign0 + count_foreign self pre < 4)%nat)) ∧
  (total == total0 + sum_credits self reserved)%Q ∧
  foreign = (foreign0 + count_foreign self reserved)%nat.

(** The tests the pre-pass puts a candidate to, with [reserved] the players
    reserved so far: the name is not reserved yet, the credits fit the budget
    of 100 and, for a foreign player, fewer than four foreign players are
    counted.  Nothing here looks at the origin team or the role. *)
Definition prepass_fits (self : Dream11Predictor) (total0 : Q) (foreign0 : nat)
    (reserved : list (string * Q)) (player : string) : Prop :=
  (player ∉ reserved.*1) ∧
  (total0 + sum_credits self reserved + credits_of self player <= 100)%Q ∧
  (is_foreign_of self player = true →
   (foreign0 + count_foreign self reserved < 4)%nat).

(** The visit of one category: [pick] is the first candidate of the list
    that passes the tests, every candidate before it fails them; without a
    pick every candidate of the list fails them. *)
Definition first_fit (self : Dream11Predictor) (total0 : Q) (foreign0 : nat)
    (reserved category : list (string * Q)) (pick : option (string * Q)) : Prop :=
  match pick with
  | Some e =>
      ∃ skipped later,
        category = skipped ++ e :: later ∧
        (∀ x, x ∈ skipped → ¬ prepass_fits self total0 foreign0 reserved x.1) ∧
        prepass_fits self total0 foreign0 reserved e.1
  | None => ∀ x, x ∈ category → ¬ prepass_fits self total0 foreign0 reserved x.1
  end.

(** *** The registry seen one player at a time

    [set_player_role] touches the four registry dictionaries at one key, the
    name the entry parses to.  The definitions below describe what an entry
    does to the value stored under its name in each dictionary. *)

(** The name an entry of the playing XI parses to. *)
Definition entry_name (player_info : string) : string :=
  let '(first, second) := split_paren (strip player_info) in
  match second with
  | Some _ => strip first
  | None => strip player_info
  end.

(** The role the entry itself stores ([None]: an opening parenthesis without
    the closing one stores nothing). *)
Definition entry_role (player_info : string) : option string :=
  let '(first, second) := split_paren (strip player_info) in
  match second with
  | Some second =>
      if endswith_rparen (strip second)
      then Some (strip (drop_last (strip second))) else None
  | None => Some "Unknown"
  end.

(** The role a squad row leaves in place of [current]. *)
Definition csv_role_update (row : SquadRow) (current : string) : string :=
  if String.eqb current "Unknown" then Role row else current.

Definition role_op (teams : list (string * list SquadRow)) (player_info : string)
    (current : option string) : Result (option string) :=
  let stored :=
    match entry_role player_info with
    | Some r => Some r
    | None => current
    end in
  match find_player_row teams (entry_name player_info) with
  | Some (_, row) =>
      match stored with
      | Some c => Ok (Some (csv_role_update row c))
      | None => Raise (KeyError (entry_name player_info))
      end
  | None => Ok stored
  end.

Definition credits_op (teams : list (string * list SquadRow)) (player_info : string)
    (current : option Q) : Result (option Q) :=
  match find_player_row teams (entry_name player_info) with
  | Some (_, row) => Ok (Some (Credits row))
  | None => Ok (Some 7%Q)
  end.

Definition foreign_op (teams : list (string * list SquadRow)) (player_info : string)
    (current : option bool) : Result (option bool) :=
  match find_player_row teams (entry_name player_info) with
  | Some (_, row) => Ok (Some (Foreign_Player row))
  | None => Ok (Some false)
  end.

Definition teams_op (teams : list (string * list SquadRow)) (player_info : string)
    (current : option string) : Result (option string) :=
  match find_player_row teams (entry_name player_info) with
  | Some (team_name, _) => Ok (Some team_name)
  | None => Ok current
  end.

(** The entries of [l] named [k], applied in order to the value under [k]. *)
Fixpoint key_run {V} (op : string → V → Result V) (k : string) (l : list string)
    (v : V) : Result V :=
  match l with
  | [] => Ok v
  | e :: l' =>
      if decide (entry_name e = k) then bind (op e v) (key_run op k l')
      else key_run op k l' v
  end.

(** Two predictors with the same caches, squads and registry. *)
Definition same_registry (s s' : Dream11Predictor) : Prop :=
  batter_data s = batter_data s' ∧ bowler_data s = bowler_data s' ∧
  teams_data s = teams_data s' ∧ player_roles s = player_roles s' ∧
  player_credits s = player_credits s' ∧
  player_is_foreign s = player_is_foreign s' ∧
  player_teams s = player_teams s'.

(** The fields a prediction run computes. *)
Definition same_results (s s' : Dream11Predictor) : Prop :=
  player_scores s = player_scores s' ∧ selected_team s = selected_team s' ∧
  team_counts s = team_counts s' ∧ role_team_counts s = role_team_counts s'.


(** *** Vocabulary of the further properties *)

(** A list of scored players in descending order of score. *)
Definition descending (l : list (string * Q)) : Prop :=
  ∀ a b, occurs_before a b l → (b.2 <= a.2)%Q.

(** The label [main] exports for a role category. *)
Definition role_label (r : RoleCategory) : string :=
  match r with
  | WK => "Wicketkeeper"
  | BOWL => "Bowler"
  | ALL => "All-Rounder"
  | BAT => "Batsman"
  end.

(** One selection state is behind another: no counter is larger. *)
Definition sel_le (st st' : SelState) : Prop :=
  (sel_total_credits st <= sel_total_credits st')%Q ∧
  (sel_foreign_count st ≤ sel_foreign_count st')%nat ∧
  (∀ T, (team_count (sel_team_counts st) T ≤ team_count (sel_team_counts st') T)%nat) ∧
  (∀ T R, (role_team_count (sel_role_team_counts st) T R
           ≤ role_team_count (sel_role_team_counts st') T R)%nat).

(** The distinct elements of a list in order of first appearance. *)
Fixpoint first_seen (l : list string) : list string :=
  match l with
  | [] => []
  | x :: l' => x :: List.filter (fun y => negb (String.eqb y x)) (first_seen l')
  end.

(** What [if k not in d: d[k] = 0] does to the key list of a dict. *)
Definition add_key (keys : list string) (k : string) : list string :=
  if bool_decide (k ∈ keys) then keys else keys ++ [k].

(** The head-to-head contribution of one stored pairing (0 when there is no
    record for the player, no entry for the opponent, or the entry is
    skipped), and its sum over a list of opponents. *)
Definition pair_score (score_of : Json → option Q) (data : gmap string PlayerStats)
    (player opponent : string) : Q :=
  match data !! player with
  | Some stats =>
      match h2h_of stats !! opponent with
      | Some entry => default 0%Q (score_of entry)
      | None => 0%Q
      end
  | None => 0%Q
  end.

Definition h2h_sum (score_of : Json → option Q) (data : gmap string PlayerStats)
    (player : string) (opponents : list string) : Q :=
  foldr (fun o acc => pair_score score_of data player o + acc)%Q 0%Q opponents.

(** *** Strings as character lists *)

Definition chars (s : string) : list Ascii.ascii := list_ascii_of_string s.

Fixpoint lstripL (l : list Ascii.ascii) : list Ascii.ascii :=
  match l with
  | [] => []
  | c :: l' => if is_ws c then lstripL l' else l
  end.

Definition rstripL (l : list Ascii.ascii) : list Ascii.ascii := rev (lstripL (rev l)).

Definition stripL (l : list Ascii.ascii) : list Ascii.ascii := rstripL (lstripL l).

Fixpoint splitL (l : list Ascii.ascii)
  : list Ascii.ascii * option (list Ascii.ascii) :=
  match l with
  | [] => ([], None)
  | c :: l' =>
      if Ascii.eqb c "("%char then ([], Some l')
      else let '(a, b) := splitL l' in (c :: a, b)
  end.

(** The last character is a closing parenthesis. *)
Definition endsL (l : list Ascii.ascii) : bool :=
  match rev l with
  | c :: _ => Ascii.eqb c ")"%char
  | [] => false
  end.

(** An entry of the playing XI at which [set_player_roles] stops: the first
    entry of its name, with an opening parenthesis but no closing one at the
    end, naming a player of a squad file who has no role in the registry. *)
Definition raising_entry (s : Dream11Predictor) (before : list string) (e : string)
  : Prop :=
  (∀ e', e' ∈ before → entry_name e' ≠ entry_name e) ∧
  str_in "(" e = true ∧
  endswith_rparen (strip e) = false ∧
  is_Some (find_player_row (teams_data s) (entry_name e)) ∧
  player_roles s !! entry_name e = None.

(** The line [display_team] keeps for an entry of the team under a label. *)
Definition display_line (self : Dream11Predictor) (label : RoleCategory)
    (entry : string * Q) : DisplayLine :=
  (entry.1, entry.2, label, credits_of self entry.1, is_foreign_of self entry.1).

(** The groups of [display_team] hold the lines of the four lists of
    [categorize_players]. *)
Definition groups_of (self : Dream11Predictor) (g : DisplayGroups) (c : Categorized)
  : Prop :=
  wk g = display_line self WK <$> wicket_keepers c ∧
  bat g = display_line self BAT <$> batsmen c ∧
  ar g = display_line self ALL <$> all_rounders c ∧
  bowl g = display_line self BOWL <$> bowlers c.
(** ** Concrete inputs used by the examples *)

Definition empty_predictor : Dream11Predictor :=
  {| batter_data := ∅; bowler_data := ∅; teams_data := []; player_scores := [];
     selected_team := []; player_roles := ∅; player_credits := ∅;
     player_is_foreign := ∅; player_teams := ∅; team_counts := ∅;
     role_team_counts := ∅ |}.

Definition no_stats : PlayerStats :=
  {| head_to_head := None; venue := None; recent_form := None |}.

(** Externals that parse nothing: every conversion raises. *)
Definition no_externals : Externals :=
  {| float_of_str := fun _ => None;
     read_venue_row := fun _ _ => PdRaise;
     read_form_csv := fun _ => None |}.

(** Two players whose role texts differ only in letter case. *)
Definition casing_predictor : Dream11Predictor :=
  set_player_roles_field empty_predictor
    (<["Lower" := "wk-batter"]> (<["Canon" := "WK-Batter"]>
     (<["Upper" := "BOWLER"]> (<["Spin" := "Bowler"]> ∅)))).

(** A squad of four with no usable role text: "MS Dhoni" and "Bat" have
    batting data only, "Both" has both, "Pace" has bowling data only, "None"
    has neither. *)
Definition unknown_roles_predictor : Dream11Predictor :=
  {| batter_data := <["MS Dhoni" := no_stats]> (<["Bat" := no_stats]>
                     (<["Both" := no_stats]> ∅));
     bowler_data := <["Both" := no_stats]> (<["Pace" := no_stats]> ∅);
     teams_data := []; player_scores := []; selected_team := [];
     player_roles := <["Pace" := "Unknown"]> ∅; player_credits := ∅;
     player_is_foreign := ∅; player_teams := ∅; team_counts := ∅;
     role_team_counts := ∅ |}.

(** Head-to-head data of one batter and two bowlers.  The batter's entry is a
    list of two encounters; the entry of "Bowl" is a one-element list; the
    entry of "Flag" is a record that carries a "Message" next to a dismissal
    count. *)
Definition h2h_batter_stats : PlayerStats :=
  {| head_to_head := Some {[ "Bowl" :=
       JList [JDict [("Strike Rate", JNum 150); ("Average", JNum 30);
                     ("Boundary %", JNum 20); ("Dismissals", JNum 1)];
              JDict [("Strike Rate", JNum 400); ("Average", JNum 90);
                     ("Boundary %", JNum 80); ("Dismissals", JNum 0)]] ]};
     venue := None; recent_form := None |}.

Definition h2h_list_stats : PlayerStats :=
  {| head_to_head := Some {[ "Bat" :=
       JList [JDict [("Dismissals", JNum 1); ("Econ", JNum 6)]] ]};
     venue := None; recent_form := None |}.

Definition h2h_flag_stats : PlayerStats :=
  {| head_to_head := Some {[ "Bat" :=
       JDict [("Message", JStr "No data available"); ("Dismissals", JNum 2)] ]};
     venue := None; recent_form := None |}.

Definition h2h_predictor : Dream11Predictor :=
  {| batter_data := {[ "Bat" := h2h_batter_stats ]};
     bowler_data := {[ "Bowl" := h2h_list_stats; "Flag" := h2h_flag_stats ]};
     teams_data := []; player_scores := []; selected_team := [];
     player_roles := ∅; player_credits := ∅; player_is_foreign := ∅;
     player_teams := ∅; team_counts := ∅; role_team_counts := ∅ |}.

(** A batter with one recent-form table, and externals that read it as mean
    runs 50 and mean strike rate 150. *)
Definition form_stats : PlayerStats :=
  {| head_to_head := None; venue := None;
     recent_form := Some [["Batting Match-wise"; "Runs  Strike Rate  50  150.0"];
                          ["Bowling Match-wise"; "Wickets  Economy  2  7.5"]] |}.

Definition form_predictor : Dream11Predictor :=
  {| batter_data := {[ "Bat" := form_stats ]};
     bowler_data := {[ "Bat" := form_stats ]};
     teams_data := []; player_scores := []; selected_team := [];
     player_roles := ∅; player_credits := ∅; player_is_foreign := ∅;
     player_teams := ∅; team_counts := ∅; role_team_counts := ∅ |}.

Definition form_externals : Externals :=
  {| float_of_str := fun _ => None;
     read_venue_row := fun _ _ => PdEmpty;
     read_form_csv := fun text =>
       Some (fun column =>
         if String.eqb column "Runs" then Some (Some 50%Q)
         else if String.eqb column "Strike Rate" then Some (Some 150%Q)
         else if String.eqb column "Wickets" then Some (Some 2%Q)
         else if String.eqb column "Economy" then Some (Some (15 # 2))
         else None) |}.

(** A match in which "Ghost" is absent from both caches while "Bat" and
    "Bowl" have head-to-head data. *)
Definition ghost_team1 : list string := ["Bat"; "Ghost"].
Definition ghost_team2 : list string := ["Bowl"; "Flag"].

(** Twelve scored players of three origin teams: ten above 10.0, then "A" and
    "B" tied at 10.0, "A" inserted first.  Every player costs the default 7
    credits and is domestic. *)
Definition tie_predictor : Dream11Predictor :=
  {| batter_data := ∅; bowler_data := ∅; teams_data := [];
     player_scores :=
       [("P1", 20%Q); ("P2", 19%Q); ("P3", 18%Q); ("P4", 17%Q); ("P5", 16%Q);
        ("P6", 15%Q); ("P7", 14%Q); ("P8", 13%Q); ("P9", 12%Q); ("P10", 11%Q);
        ("A", 10%Q); ("B", 10%Q)];
     selected_team := [];
     player_roles :=
       list_to_map
         [("P1", "WK-Batter"); ("P2", "Batter"); ("P3", "Batter"); ("P4", "Bowler");
          ("P5", "Bowler"); ("P6", "WK-Batter"); ("P7", "Batter"); ("P8", "Batter");
          ("P9", "Bowler"); ("P10", "Bowler"); ("A", "Batter"); ("B", "Batter")];
     player_credits := ∅; player_is_foreign := ∅;
     player_teams :=
       list_to_map
         [("P1", "Mumbai"); ("P2", "Mumbai"); ("P3", "Mumbai"); ("P4", "Mumbai");
          ("P5", "Mumbai"); ("P6", "Delhi"); ("P7", "Delhi"); ("P8", "Delhi");
          ("P9", "Delhi"); ("P10", "Delhi"); ("A", "Chennai"); ("B", "Chennai")];
     team_counts := ∅; role_team_counts := ∅ |}.

(** Four candidates of [unknown_roles_predictor], one per list of
    [categorize_players]; for the selector all four are BAT players of the
    origin team "Unknown". *)
Definition prepass_candidates : list (string * Q) :=
  [("MS Dhoni", 4%Q); ("Bat", 3%Q); ("Both", 2%Q); ("Pace", 1%Q)].

(** Categories with more candidates than the pre-pass needs: "W1" costs
    more than the whole budget, "W2" is listed as wicket-keeper and as
    batsman, there is no all-rounder, and "F1" is foreign. *)
Definition crowded_predictor : Dream11Predictor :=
  set_player_is_foreign
    (set_player_credits empty_predictor (<["W1" := 101%Q]> ∅))
    (<["F1" := true]> ∅).

Definition crowded_categories : Categorized :=
  {| batsmen := [("W2", 8%Q); ("B1", 6%Q); ("B2", 5%Q)];
     bowlers := [("F1", 5%Q); ("D1", 4%Q)];
     all_rounders := [];
     wicket_keepers := [("W1", 9%Q); ("W2", 8%Q); ("W3", 7%Q)] |}.

(** A predictor with two squads on file and the head-to-head cache of
    [h2h_predictor], and a match between three players of each side. *)
Definition squad_predictor : Dream11Predictor :=
  {| batter_data := {[ "Bat" := h2h_batter_stats ]};
     bowler_data := {[ "Bowl" := h2h_list_stats; "Flag" := h2h_flag_stats ]};
     teams_data :=
       [("Mumbai Indians",
         [{| Name := "Bat"; Role := "Batter"; Credits := 9; Foreign_Player := false |};
          {| Name := " ghost "; Role := "WK-Batter"; Credits := 8;
             Foreign_Player := true |}]);
        ("Delhi Capitals",
         [{| Name := "Bowl"; Role := "Bowler"; Credits := 17 # 2;
             Foreign_Player := false |}])];
     player_scores := []; selected_team := [];
     player_roles := ∅; player_credits := ∅; player_is_foreign := ∅;
     player_teams := ∅; team_counts := ∅; role_team_counts := ∅ |}.

Definition squad_team1 : list string := ["Bat"; "Ghost (WK-Batter)"; "Bat(Batter"].
Definition squad_team2 : list string := ["Bowl(Unknown)"; "Flag"; "Flag (All Rounder)"].


(** [unknown_roles_predictor] with the four candidates scored: the greedy
    pass takes three of them and rejects "Pace". *)
Definition short_predictor : Dream11Predictor :=
  set_player_scores unknown_roles_predictor prepass_candidates.

(** A player with a batting and a bowling venue table, and a reader that
    finds one row in each: average 40 at strike rate 150, 2 wickets at
    economy 8. *)
Definition venue_stats (label text : string) : PlayerStats :=
  {| head_to_head := None; venue := Some {[ label := text ]}; recent_form := None |}.

Definition venue_predictor : Dream11Predictor :=
  {| batter_data := {[ "Both" := venue_stats "Batting" "batting table" ]};
     bowler_data := {[ "Both" := venue_stats "Bowling" "bowling table" ]};
     teams_data := []; player_scores := [("Both", 1%Q)]; selected_team := [];
     player_roles := ∅; player_credits := ∅; player_is_foreign := ∅;
     player_teams := ∅; team_counts := ∅; role_team_counts := ∅ |}.

Definition venue_externals : Externals :=
  {| float_of_str := fun _ => None;
     read_venue_row := fun text _ =>
       if String.eqb text "batting table" then
         PdRow (fun column =>
           if String.eqb column "Average" then Some 40%Q
           else if String.eqb column "Strike Rate" then Some 150%Q else None)
       else
         PdRow (fun column =>
           if String.eqb column "Wickets" then Some 2%Q
           else if String.eqb column "Economy" then Some 8%Q else None);
     read_form_csv := fun _ => None |}.
(** * Properties *)

(** ** Substring test *)

Lemma prefix_occurs (p s : string) :
  String.prefix p s = true ↔ ∃ post, s = p +:+ post.
Proof.
  revert s. induction p as [|a p IH]; intros s; simpl.
  - destruct s; split; eauto.
  - destruct s as [|b s].
    + split; [done | intros [post H]; discriminate].
    + simpl. destruct (ascii_dec a b) as [->|Hne].
      * rewrite IH. split; intros [post H]; exists post.
        -- simpl. by rewrite H.
        -- simpl in H. by injection H.
      * split; [done | intros [post H]; simpl in H; by injection H].
Qed.

Lemma str_in_nil (sub : string) : str_in sub "" = String.prefix sub "".
Proof. unfold str_in. by rewrite orb_false_r. Qed.

Lemma str_in_cons (sub : string) (c : Ascii.ascii) (s : string) :
  str_in sub (String c s) = String.prefix sub (String c s) || str_in sub s.
Proof. done. Qed.

Lemma str_in_occurs (sub s : string) :
  str_in sub s = true ↔ occurs_in sub s.
Proof.
  split.
  - induction s as [|c s IH].
    + rewrite str_in_nil. intros H.
      apply prefix_occurs in H as [post H]. by exists "", post.
    + rewrite str_in_cons, orb_true_iff. intros [H|H].
      * apply prefix_occurs in H as [post H]. by exists "", post.
      * destruct (IH H) as (pre & post & ->). by exists (String c pre), post.
  - intros (pre & post & ->). induction pre as [|c pre IH].
    + change ("" +:+ sub +:+ post) with (sub +:+ post).
      assert (Hp : String.prefix sub (sub +:+ post) = true)
        by (apply prefix_occurs; eauto).
      destruct (sub +:+ post) as [|c r].
      * by rewrite str_in_nil.
      * by rewrite str_in_cons, Hp.
    + change (String c pre +:+ sub +:+ post) with (String c (pre +:+ sub +:+ post)).
      rewrite str_in_cons, IH. apply orb_true_r.
Qed.

Lemma str_in_not_occurs (sub s : string) :
  str_in sub s = false ↔ ¬ occurs_in sub s.
Proof. rewrite <- str_in_occurs. by destruct (str_in sub s). Qed.

(** ** Role classification *)

Lemma categorized_append_list (c : Categorized) (cat cat' : Category) (e : string * Q) :
  category_list (categorized_append c cat e) cat' =
  if decide (cat = cat') then category_list c cat' ++ [e] else category_list c cat'.
Proof. by destruct cat, cat'. Qed.

(** Each list of [categorize_players] holds, in order, the entries the
    if/elif chain sends to it. *)
Lemma categorize_players_list (self : Dream11Predictor) (l : list (string * Q))
    (cat : Category) :
  category_list (categorize_players self l) cat =
  List.filter (fun e => bool_decide (category_of self e.1 = cat)) l.
Proof.
  unfold categorize_players.
  set (c0 := {| batsmen := []; bowlers := []; all_rounders := []; wicket_keepers := [] |}).
  assert (Hgen : ∀ c,
    category_list (fold_left
      (fun acc entry => categorized_append acc (category_of self entry.1) entry) l c) cat
    = category_list c cat ++
      List.filter (fun e => bool_decide (category_of self e.1 = cat)) l).
  { induction l as [|e l IH]; intros c; simpl.
    - by rewrite app_nil_r.
    - rewrite IH, categorized_append_list.
      destruct (decide (category_of self e.1 = cat)) as [Heq|Hne].
      + rewrite bool_decide_eq_true_2 by done. by rewrite <- app_assoc.
      + by rewrite bool_decide_eq_false_2 by done. }
  rewrite Hgen. by destruct cat.
Qed.

Lemma categorize_players_In (self : Dream11Predictor) (l : list (string * Q))
    (cat : Category) (player : string) (score : Q) :
  In (player, score) (category_list (categorize_players self l) cat) ↔
  In (player, score) l ∧ category_of self player = cat.
Proof.
  rewrite categorize_players_list, filter_In. simpl.
  by rewrite bool_decide_eq_true.
Qed.

(** C2, as stated, fails: role texts that differ only in letter case are
    classified differently.  "wk-batter" and "WK-Batter" have the same
    lower-case form, yet the selector's [_simplify_role] gives BAT for the
    first and WK for the second, and [categorize_players] files only the
    second under the wicketkeepers; likewise "BOWLER" is not a bowler. *)
Lemma role_match_is_case_sensitive :
  lower "wk-batter" = lower "WK-Batter" ∧
  _simplify_role casing_predictor "Canon" = WK ∧
  _simplify_role casing_predictor "Lower" = BAT ∧
  category_of casing_predictor "Canon" = WicketKeepers ∧
  category_of casing_predictor "Lower" = AllRounders ∧
  lower "BOWLER" = lower "Bowler" ∧
  _simplify_role casing_predictor "Spin" = BOWL ∧
  _simplify_role casing_predictor "Upper" = BAT.
Proof. repeat split; vm_compute; reflexivity. Qed.

(** C2 (amended): role classification is a case-sensitive substring match of
    the role text against the tokens as spelled in the code, tested in the
    order "WK", then "Bowler", then the all-rounder spellings, then
    "Batter"/"Batsman".  [_simplify_role] and [categorize_players] agree on
    "WK", "Bowler", "All-Rounder", "Allrounder", "Batter" and "Batsman";
    [categorize_players] also takes "All-rounder" and "All Rounder" as
    all-rounder spellings. *)
Theorem role_classification_priority (self : Dream11Predictor) (player : string) :
  let role := role_text self player in
  (occurs_in "WK" role →
     _simplify_role self player = WK ∧ category_of self player = WicketKeepers) ∧
  (¬ occurs_in "WK" role → occurs_in "Bowler" role →
     _simplify_role self player = BOWL ∧ category_of self player = Bowlers) ∧
  (¬ occurs_in "WK" role → ¬ occurs_in "Bowler" role →
   occurs_in "All-Rounder" role ∨ occurs_in "Allrounder" role →
     _simplify_role self player = ALL ∧ category_of self player = AllRounders) ∧
  (¬ occurs_in "WK" role → ¬ occurs_in "Bowler" role →
   occurs_in "All-rounder" role ∨ occurs_in "All Rounder" role →
     category_of self player = AllRounders) ∧
  (¬ occurs_in "WK" role → ¬ occurs_in "Bowler" role →
   ¬ occurs_in "All-Rounder" role → ¬ occurs_in "Allrounder" role →
   ¬ occurs_in "All-rounder" role → ¬ occurs_in "All Rounder" role →
   occurs_in "Batter" role ∨ occurs_in "Batsman" role →
     _simplify_role self player = BAT ∧ category_of self player = Batsmen).
Proof.
  intros role. unfold _simplify_role, category_of. fold role.
  repeat split; intros.
  all: repeat match goal with
         | H : occurs_in _ _ |- _ => apply str_in_occurs in H
         | H : ¬ occurs_in _ _ |- _ => apply str_in_not_occurs in H
         | H : _ ∨ _ |- _ => destruct H
         end.
  all: repeat match goal with
         | H : str_in _ _ = _ |- _ => rewrite H; clear H
         end; simpl; try reflexivity.
  all: repeat match goal with
         | |- context [str_in ?t ?r] => destruct (str_in t r); simpl; try reflexivity
         end.
Qed.

Lemma role_classification_priority_witness :
  _simplify_role casing_predictor "Spin" = BOWL ∧
  category_of casing_predictor "Spin" = Bowlers.
Proof.
  apply (proj1 (proj2 (role_classification_priority casing_predictor "Spin"))).
  - apply str_in_not_occurs. vm_compute. reflexivity.
  - apply str_in_occurs. vm_compute. reflexivity.
Defined.

(** C3, as stated, fails on both classifiers.  The selector classifies with
    [_simplify_role], which has no content-based fallback: "Pace", with role
    text "Unknown" and bowling data only, is BAT.  In [categorize_players] a
    player with neither batting nor bowling data ("None") falls into the
    all-rounders, not the batters. *)
Lemma fallback_inference_fails :
  role_text unknown_roles_predictor "Pace" = "Unknown" ∧
  has_key (bowler_data unknown_roles_predictor) "Pace" = true ∧
  has_key (batter_data unknown_roles_predictor) "Pace" = false ∧
  _simplify_role unknown_roles_predictor "Pace" = BAT ∧
  has_key (bowler_data unknown_roles_predictor) "None" = false ∧
  has_key (batter_data unknown_roles_predictor) "None" = false ∧
  all_rounders (categorize_players unknown_roles_predictor [("None", 0%Q)])
    = [("None", 0%Q)] ∧
  batsmen (categorize_players unknown_roles_predictor [("None", 0%Q)]) = [].
Proof. repeat split; vm_compute; reflexivity. Qed.

(** C3 (amended): the content-based fallback lives in [categorize_players]
    only.  For a player whose role text contains none of the tokens, that
    function files the player by the data present: batting data only, under
    the wicketkeepers when the name is on the hard-coded list and under the
    batsmen otherwise; bowling data only, under the bowlers; both, under the
    all-rounders.  The selector's [_simplify_role] does not look at the data:
    such a player is BAT. *)
Theorem fallback_classification (self : Dream11Predictor)
    (sorted_players : list (string * Q)) (player : string) (score : Q) :
  In (player, score) sorted_players →
  no_role_token (role_text self player) →
  let filed cat :=
    In (player, score) (category_list (categorize_players self sorted_players) cat) in
  _simplify_role self player = BAT ∧
  (is_Some (batter_data self !! player) → bowler_data self !! player = None →
     ∀ cat, filed cat ↔
       cat = (if bool_decide (player ∈ wk_names) then WicketKeepers else Batsmen)) ∧
  (is_Some (bowler_data self !! player) → batter_data self !! player = None →
     ∀ cat, filed cat ↔ cat = Bowlers) ∧
  (is_Some (batter_data self !! player) → is_Some (bowler_data self !! player) →
     ∀ cat, filed cat ↔ cat = AllRounders).
Proof.
  intros Hin (H1 & H2 & H3 & H4 & H5 & H6 & H7 & H8) filed.
  apply str_in_not_occurs in H1, H2, H3, H4, H5, H6, H7, H8.
  assert (Hcat : ∀ cat, filed cat ↔ category_of self player = cat).
  { intros cat. unfold filed. rewrite categorize_players_In. tauto. }
  split.
  { unfold _simplify_role. by rewrite H1, H2, H3, H4, H7, H8. }
  unfold category_of in Hcat.
  rewrite H1, H2, H3, H4, H5, H6, H7, H8 in Hcat. simpl in Hcat.
  unfold has_key in Hcat.
  split; [|split]; intros Ha Hb cat; rewrite Hcat.
  - rewrite (bool_decide_eq_true_2 _ Ha), Hb.
    rewrite bool_decide_eq_false_2 by (by intros [? ?]). simpl.
    destruct (bool_decide (player ∈ wk_names)); split; congruence.
  - rewrite (bool_decide_eq_true_2 _ Ha), Hb.
    rewrite bool_decide_eq_false_2 by (by intros [? ?]). simpl.
    split; congruence.
  - rewrite (bool_decide_eq_true_2 _ Ha), (bool_decide_eq_true_2 _ Hb). simpl.
    split; congruence.
Qed.

Lemma fallback_classification_witness :
  _simplify_role unknown_roles_predictor "MS Dhoni" = BAT ∧
  In ("MS Dhoni", 0%Q)
    (wicket_keepers (categorize_players unknown_roles_predictor [("MS Dhoni", 0%Q)])).
Proof.
  assert (Hin : In ("MS Dhoni", 0%Q) [("MS Dhoni", 0%Q)]) by (left; reflexivity).
  assert (Htok : no_role_token (role_text unknown_roles_predictor "MS Dhoni")).
  { repeat split; apply str_in_not_occurs; vm_compute; reflexivity. }
  destruct (fallback_classification unknown_roles_predictor
              [("MS Dhoni", 0%Q)] "MS Dhoni" 0%Q Hin Htok) as (Hs & Hbat & _).
  split; [exact Hs|].
  apply (Hbat ltac:(vm_compute; eauto) ltac:(vm_compute; reflexivity) WicketKeepers).
  vm_compute. reflexivity.
Defined.

(** ** The score dictionary *)

Lemma dict_get_set_eq (d : list (string * Q)) (k : string) (v : Q) :
  dict_get (dict_set d k v) k = Some v.
Proof.
  induction d as [|[k' w] d IH]; simpl.
  - by rewrite String.eqb_refl.
  - destruct (String.eqb_spec k' k) as [->|Hne]; simpl.
    + by rewrite String.eqb_refl.
    + by apply String.eqb_neq in Hne as ->.
Qed.

Lemma dict_get_set_ne (d : list (string * Q)) (k k' : string) (v : Q) :
  k ≠ k' → dict_get (dict_set d k v) k' = dict_get d k'.
Proof.
  intros Hne. induction d as [|[k0 w] d IH]; simpl.
  - by apply String.eqb_neq in Hne as ->.
  - destruct (String.eqb_spec k0 k) as [->|Hne0]; simpl.
    + by apply String.eqb_neq in Hne as ->.
    + by rewrite IH.
Qed.

Lemma dict_get_add_eq (d : list (string * Q)) (k : string) (v x : Q) :
  dict_get d k = Some v → dict_get (dict_add d k x) k = Some (v + x)%Q.
Proof. intros H. unfold dict_add. rewrite H. apply dict_get_set_eq. Qed.

Lemma dict_get_add_ne (d : list (string * Q)) (k k' : string) (x : Q) :
  k ≠ k' → dict_get (dict_add d k x) k' = dict_get d k'.
Proof.
  intros Hne. unfold dict_add. destruct (dict_get d k); [|done].
  by apply dict_get_set_ne.
Qed.

Lemma dict_get_setdefault0_eq (d : list (string * Q)) (k : string) :
  dict_get (dict_setdefault0 d k) k = Some (default 0%Q (dict_get d k)).
Proof.
  unfold dict_setdefault0, dict_has.
  destruct (dict_get d k) as [v|] eqn:Hk; simpl.
  - done.
  - apply dict_get_set_eq.
Qed.

Lemma dict_get_setdefault0_ne (d : list (string * Q)) (k k' : string) :
  k ≠ k' → dict_get (dict_setdefault0 d k) k' = dict_get d k'.
Proof.
  intros Hne. unfold dict_setdefault0. destruct (dict_has d k); [done|].
  by apply dict_get_set_ne.
Qed.

(** After the initialisation the key is present, so the [+=] that follows
    cannot raise KeyError. *)
Lemma dict_setdefault0_has (d : list (string * Q)) (k : string) :
  dict_has (dict_setdefault0 d k) k = true.
Proof.
  unfold dict_has. rewrite dict_get_setdefault0_eq.
  by apply bool_decide_eq_true_2.
Qed.

Lemma dict_get_None_keys (d : list (string * Q)) (k : string) :
  dict_get d k = None ↔ k ∉ d.*1.
Proof.
  induction d as [|[k' w] d IH]; simpl.
  - split; [intros _; apply not_elem_of_nil | done].
  - rewrite not_elem_of_cons. destruct (String.eqb_spec k' k) as [->|Hne].
    + split; [done | intros [? _]; done].
    + rewrite IH. split; [intros ?; split; [congruence | done] | tauto].
Qed.

Lemma dict_set_keys (d : list (string * Q)) (k : string) (v : Q) :
  (dict_set d k v).*1 = if dict_has d k then d.*1 else d.*1 ++ [k].
Proof.
  unfold dict_has. induction d as [|[k' w] d IH]; simpl.
  - done.
  - destruct (String.eqb_spec k' k) as [->|Hne]; simpl.
    + done.
    + change (list_fmap _ _ fst ?l) with (l.*1). rewrite IH.
      by destruct (bool_decide (is_Some (dict_get d k))).
Qed.

Lemma dict_set_wf (d : list (string * Q)) (k : string) (v : Q) :
  dict_wf d → dict_wf (dict_set d k v).
Proof.
  unfold dict_wf. intros Hwf. rewrite dict_set_keys. unfold dict_has.
  destruct (dict_get d k) eqn:Hk.
  - by rewrite bool_decide_eq_true_2 by eauto.
  - rewrite bool_decide_eq_false_2 by (by intros [? ?]).
    apply NoDup_app. split; [done|]. split; [|apply NoDup_singleton].
    intros x Hx ->%list_elem_of_singleton. by apply dict_get_None_keys in Hk.
Qed.

Lemma dict_add_wf (d : list (string * Q)) (k : string) (x : Q) :
  dict_wf d → dict_wf (dict_add d k x).
Proof. intros H. unfold dict_add. destruct (dict_get d k); [by apply dict_set_wf | done]. Qed.

Lemma dict_setdefault0_wf (d : list (string * Q)) (k : string) :
  dict_wf d → dict_wf (dict_setdefault0 d k).
Proof.
  intros H. unfold dict_setdefault0. destruct (dict_has d k); [done | by apply dict_set_wf].
Qed.

(** ** Head-to-head pass *)

Lemma h2h_inner_frame (score_of : Json → option Q) (stats : PlayerStats)
    (player opponent other : string) (scores : list (string * Q)) :
  player ≠ other →
  dict_get (h2h_inner score_of stats player scores opponent) other = dict_get scores other.
Proof.
  intros Hne. unfold h2h_inner.
  destruct (h2h_of stats !! opponent) as [entry|]; [|done].
  destruct (score_of entry); [|done]. by apply dict_get_add_ne.
Qed.

(** C4, as stated, fails in the bowler direction.  The entry of "Bowl"
    against "Bat" is a list whose first record has 1 dismissal at economy 6
    (worth 5 + 4 = 9): the pass adds nothing.  The entry of "Flag" carries a
    "Message" key: it is not skipped, its 2 dismissals add 10. *)
Lemma h2h_bowler_direction_differs :
  let after := analyze_head_to_head no_externals h2h_predictor ["Bat"] ["Bowl"; "Flag"] in
  dict_get (player_scores after) "Bowl" = Some 0%Q ∧
  dict_get (player_scores after) "Flag" = Some 10%Q.
Proof. split; vm_compute; reflexivity. Qed.

(** C4 (amended): in the head-to-head pass, for a batter paired with a
    bowler, data stored as a list of records counts through its first record
    only and a record with a "Message" key is skipped.  For a bowler paired
    with a batter, data stored as a single record contributes
    (dismissals×5) + (10 − min(economy, 10)), a missing economy defaulting
    to 15 so that its term is 0; the "Message" key is not looked at there.
    No other player's score changes. *)
Theorem head_to_head_pairing (E : Externals) (stats : PlayerStats)
    (player opponent : string) (scores : list (string * Q)) (v : Q) (entry : Json) :
  dict_get scores player = Some v →
  h2h_of stats !! opponent = Some entry →
  let batting := h2h_inner batting_h2h_score stats player scores opponent in
  let bowling := h2h_inner (bowling_h2h_score E) stats player scores opponent in
  (∀ first others strike_rate avg boundary_pct dismissals,
     entry = JList (JDict first :: others) ∨ entry = JDict first →
     jdict_has first "Message" = false →
     as_number (jdict_get first "Strike Rate" (JNum 0)) = Some strike_rate →
     as_number (jdict_get first "Average" (JNum 0)) = Some avg →
     as_number (jdict_get first "Boundary %" (JNum 0)) = Some boundary_pct →
     as_number (jdict_get first "Dismissals" (JNum 0)) = Some dismissals →
     dict_get batting player =
       Some (v + ((strike_rate / 100) * 2 + (avg / 10) + (boundary_pct / 10)
                  - (dismissals * 2)))%Q) ∧
  (∀ first others,
     entry = JList (JDict first :: others) ∨ entry = JDict first →
     jdict_has first "Message" = true →
     batting = scores) ∧
  (∀ d dismissals economy,
     entry = JDict d →
     py_float E (jdict_get d "Dismissals" (JNum 0)) = Some dismissals →
     py_float E (jdict_get d "Econ" (JNum 15)) = Some economy →
     dict_get bowling player =
       Some (v + ((dismissals * 5) + (10 - Qmin economy 10)))%Q) ∧
  (∀ d dismissals,
     entry = JDict d →
     jdict_find d "Econ" = None →
     py_float E (jdict_get d "Dismissals" (JNum 0)) = Some dismissals →
     dict_get bowling player = Some (v + ((dismissals * 5) + 0))%Q) ∧
  (∀ other, player ≠ other →
     dict_get batting other = dict_get scores other ∧
     dict_get bowling other = dict_get scores other).
Proof.
  intros Hv Hentry batting bowling.
  split; [|split; [|split; [|split]]].
  - intros first others sr avg bp dis Hshape Hmsg Hsr Havg Hbp Hdis.
    unfold batting, h2h_inner. rewrite Hentry.
    assert (Hs : batting_h2h_score entry =
                 Some ((sr / 100) * 2 + (avg / 10) + (bp / 10) - (dis * 2))%Q).
    { destruct Hshape as [-> | ->]; unfold batting_h2h_score;
        rewrite Hmsg, Hsr, Havg, Hbp, Hdis; reflexivity. }
    rewrite Hs. by apply dict_get_add_eq.
  - intros first others Hshape Hmsg.
    unfold batting, h2h_inner. rewrite Hentry.
    destruct Hshape as [-> | ->]; unfold batting_h2h_score; by rewrite Hmsg.
  - intros d dis econ -> Hdis Hecon.
    unfold bowling, h2h_inner. rewrite Hentry.
    unfold bowling_h2h_score. rewrite Hdis, Hecon. simpl.
    by apply dict_get_add_eq.
  - intros d dis -> Hecon Hdis.
    unfold bowling, h2h_inner. rewrite Hentry.
    unfold bowling_h2h_score. rewrite Hdis.
    unfold jdict_get at 1. rewrite Hecon. simpl.
    by apply dict_get_add_eq.
  - intros other Hne. split; by apply h2h_inner_frame.
Qed.

Lemma head_to_head_pairing_witness :
  dict_get (h2h_inner (bowling_h2h_score no_externals)
              {| head_to_head := Some {[ "Bat" := JDict [("Dismissals", JNum 1)] ]};
                 venue := None; recent_form := None |}
              "Bowl" [("Bowl", 0%Q)] "Bat") "Bowl"
  = Some (0 + ((1 * 5) + 0))%Q.
Proof.
  eapply (head_to_head_pairing no_externals _ "Bowl" "Bat" [("Bowl", 0%Q)] 0%Q
            (JDict [("Dismissals", JNum 1)])).
  - reflexivity.
  - vm_compute. reflexivity.
  - reflexivity.
  - reflexivity.
  - reflexivity.
Defined.

(** The pass on the batter of [h2h_predictor]: of the two stored encounters
    only the first is scored, (150/100)×2 + 30/10 + 20/10 − 1×2 = 6. *)
Example h2h_first_record_only :
  ∃ v, dict_get (player_scores
                   (analyze_head_to_head no_externals h2h_predictor
                      ["Bat"] ["Bowl"; "Flag"])) "Bat" = Some v ∧ (v == 6)%Q.
Proof. eexists. split; [vm_compute; reflexivity | reflexivity]. Qed.

(** ** Recent-form pass *)

Lemma form_entry_batting_noop (E : Externals) (player : string)
    (scores : list (string * Q)) (form_data : list string) :
  form_entry "Batting Match-wise" (batting_form_try E) player scores form_data = scores.
Proof.
  unfold form_entry. destruct form_data as [|first [|text ?]]; try done.
  by destruct (String.eqb first _).
Qed.

Lemma form_entry_bowling_noop (E : Externals) (player : string)
    (scores : list (string * Q)) (form_data : list string) :
  form_entry "Bowling Match-wise" (bowling_form_try E) player scores form_data = scores.
Proof.
  unfold form_entry. destruct form_data as [|first [|text ?]]; try done.
  by destruct (String.eqb first _).
Qed.

Lemma fold_left_noop {A B} (f : A → B → A) (l : list B) (a : A) :
  (∀ a b, f a b = a) → fold_left f l a = a.
Proof. intros Hf. induction l as [|b l IH]; simpl; [done|]. by rewrite Hf. Qed.

(** The recent-form pass only initialises missing scores. *)
Lemma form_player_setdefault (E : Externals) (self : Dream11Predictor)
    (scores : list (string * Q)) (player : string) :
  form_player E self scores player = dict_setdefault0 scores player.
Proof.
  unfold form_player.
  assert (H1 : ∀ forms sc,
    fold_left (form_entry "Batting Match-wise" (batting_form_try E) player) forms sc = sc).
  { intros. apply fold_left_noop. intros. apply form_entry_batting_noop. }
  assert (H2 : ∀ forms sc,
    fold_left (form_entry "Bowling Match-wise" (bowling_form_try E) player) forms sc = sc).
  { intros. apply fold_left_noop. intros. apply form_entry_bowling_noop. }
  destruct (batter_data self !! player) as [bs|]; [destruct (recent_form bs)|];
    (destruct (bowler_data self !! player) as [ws|]; [destruct (recent_form ws)|]);
    by rewrite ?H2, ?H1.
Qed.

(** C5: the code at the failing input.  The player has a "Batting
    Match-wise" table with mean runs 50 and mean strike rate 150 (worth
    50/10 + 150/100), and a "Bowling Match-wise" table; after the pass the
    score is the initial 0.  The [try] block fails at [pd.StringIO] and the
    [except Exception] swallows it. *)
Theorem recent_form_adds_nothing :
  player_scores (analyze_recent_form form_externals form_predictor ["Bat"])
  = [("Bat", 0%Q)].
Proof. vm_compute. reflexivity. Qed.

(** ** Players without data *)

(** A fold of per-player steps, seen from one player [p]: steps of other
    players leave the score of [p] alone, steps of [p] itself act as [g]. *)
Lemma fold_players_get (step : list (string * Q) → string → list (string * Q))
    (g : option Q → option Q) (p : string) (players : list string)
    (scores : list (string * Q)) :
  (∀ sc q, q ≠ p → dict_get (step sc q) p = dict_get sc p) →
  (∀ sc, dict_get (step sc p) p = g (dict_get sc p)) →
  (∀ o, g (g o) = g o) →
  dict_get (fold_left step players scores) p =
  if bool_decide (p ∈ players) then g (dict_get scores p) else dict_get scores p.
Proof.
  intros Hframe Hself Hidem. revert scores.
  induction players as [|q players IH]; intros scores; simpl; [done|].
  rewrite IH. destruct (decide (q = p)) as [->|Hne].
  - rewrite Hself, Hidem.
    rewrite (bool_decide_eq_true_2 (p ∈ p :: players)) by apply list_elem_of_here.
    by destruct (bool_decide (p ∈ players)).
  - rewrite Hframe by done.
    destruct (bool_decide (p ∈ players)) eqn:Hin.
    + apply bool_decide_eq_true in Hin.
      by rewrite bool_decide_eq_true_2 by (by apply list_elem_of_further).
    + apply bool_decide_eq_false in Hin.
      rewrite bool_decide_eq_false_2; [done|].
      intros [?|?]%elem_of_cons; congruence.
Qed.

Lemma h2h_fold_frame (score_of : Json → option Q) (stats : PlayerStats)
    (player other : string) (opponents : list string) (scores : list (string * Q)) :
  player ≠ other →
  dict_get (fold_left (h2h_inner score_of stats player) opponents scores) other
  = dict_get scores other.
Proof.
  intros Hne. revert scores. induction opponents as [|o l IH]; intros scores; simpl.
  - done.
  - rewrite IH. by apply h2h_inner_frame.
Qed.

Lemma h2h_fold_empty (score_of : Json → option Q) (stats : PlayerStats)
    (player : string) (opponents : list string) (scores : list (string * Q)) :
  h2h_of stats = ∅ →
  fold_left (h2h_inner score_of stats player) opponents scores = scores.
Proof.
  intros Hempty. apply fold_left_noop. intros sc o. unfold h2h_inner.
  by rewrite Hempty, lookup_empty.
Qed.

Lemma h2h_batter_frame (E : Externals) (self : Dream11Predictor)
    (opponents : list string) (scores : list (string * Q)) (q p : string) :
  q ≠ p → dict_get (h2h_batter self opponents scores q) p = dict_get scores p.
Proof.
  intros Hne. unfold h2h_batter. destruct (batter_data self !! q).
  - rewrite h2h_fold_frame by done. by apply dict_get_setdefault0_ne.
  - by apply dict_get_setdefault0_ne.
Qed.

Lemma h2h_bowler_frame (E : Externals) (self : Dream11Predictor)
    (opponents : list string) (scores : list (string * Q)) (q p : string) :
  q ≠ p → dict_get (h2h_bowler E self opponents scores q) p = dict_get scores p.
Proof.
  intros Hne. unfold h2h_bowler. destruct (bowler_data self !! q).
  - rewrite h2h_fold_frame by done. by apply dict_get_setdefault0_ne.
  - by apply dict_get_setdefault0_ne.
Qed.

Lemma h2h_batter_lacking (E : Externals) (venue_name : string)
    (self : Dream11Predictor) (opponents : list string)
    (scores : list (string * Q)) (p : string) :
  lacks_history E venue_name (batter_data self) p →
  dict_get (h2h_batter self opponents scores p) p = init0 (dict_get scores p).
Proof.
  unfold lacks_history, h2h_batter. destruct (batter_data self !! p) as [stats|].
  - intros (Hh & _ & _). rewrite h2h_fold_empty by done.
    apply dict_get_setdefault0_eq.
  - intros _. apply dict_get_setdefault0_eq.
Qed.

Lemma h2h_bowler_lacking (E : Externals) (venue_name : string)
    (self : Dream11Predictor) (opponents : list string)
    (scores : list (string * Q)) (p : string) :
  lacks_history E venue_name (bowler_data self) p →
  dict_get (h2h_bowler E self opponents scores p) p = init0 (dict_get scores p).
Proof.
  unfold lacks_history, h2h_bowler. destruct (bowler_data self !! p) as [stats|].
  - intros (Hh & _ & _). rewrite h2h_fold_empty by done.
    apply dict_get_setdefault0_eq.
  - intros _. apply dict_get_setdefault0_eq.
Qed.

Lemma venue_player_frame (E : Externals) (self : Dream11Predictor)
    (venue_name : string) (scores : list (string * Q)) (q p : string) :
  q ≠ p → dict_get (venue_player E self venue_name scores q) p = dict_get scores p.
Proof.
  intros Hne. unfold venue_player, venue_batting_try, venue_bowling_try.
  repeat match goal with
         | |- context [match ?x with _ => _ end] => destruct x
         end; rewrite ?dict_get_add_ne by done; done.
Qed.

Lemma venue_player_lacking (E : Externals) (self : Dream11Predictor)
    (venue_name : string) (scores : list (string * Q)) (p : string) :
  lacks_history E venue_name (batter_data self) p →
  lacks_history E venue_name (bowler_data self) p →
  venue_player E self venue_name scores p = scores.
Proof.
  unfold lacks_history, venue_player, venue_batting_try, venue_bowling_try.
  intros Hb Hw.
  destruct (batter_data self !! p) as [bs|].
  - destruct Hb as (_ & Hb & _).
    destruct (venue_table bs "Batting") as [bt|] eqn:Hbt;
      [rewrite (Hb _ _ Hbt)|];
      (destruct (bowler_data self !! p) as [ws|]; [|done]);
      destruct Hw as (_ & Hw & _);
      (destruct (venue_table ws "Bowling") as [wt|] eqn:Hwt; [|done]);
      by rewrite (Hw _ _ Hwt).
  - destruct (bowler_data self !! p) as [ws|]; [|done].
    destruct Hw as (_ & Hw & _).
    destruct (venue_table ws "Bowling") as [wt|] eqn:Hwt; [|done].
    by rewrite (Hw _ _ Hwt).
Qed.

Lemma init0_idem (o : option Q) : init0 (init0 o) = init0 o.
Proof. by destruct o. Qed.

(** The head-to-head pass seen from a player without data. *)
Lemma analyze_head_to_head_lacking (E : Externals) (venue_name : string)
    (self : Dream11Predictor) (team1_players team2_players : list string) (p : string) :
  lacks_history E venue_name (batter_data self) p →
  lacks_history E venue_name (bowler_data self) p →
  dict_get (player_scores (analyze_head_to_head E self team1_players team2_players)) p
  = if bool_decide (p ∈ team1_players ++ team2_players)
    then init0 (dict_get (player_scores self) p)
    else dict_get (player_scores self) p.
Proof.
  intros Hb Hw. unfold analyze_head_to_head. simpl.
  rewrite (fold_players_get _ init0 p).
  2: { intros. by apply h2h_bowler_frame. }
  2: { intros. by apply (h2h_bowler_lacking E venue_name). }
  2: { apply init0_idem. }
  rewrite (fold_players_get _ init0 p).
  2: { intros. by apply h2h_batter_frame. }
  2: { intros. by apply (h2h_batter_lacking E venue_name). }
  2: { apply init0_idem. }
  destruct (bool_decide (p ∈ team1_players)) eqn:H1;
    destruct (bool_decide (p ∈ team2_players)) eqn:H2;
    [apply bool_decide_eq_true in H1 | apply bool_decide_eq_true in H1
    | apply bool_decide_eq_false in H1 | apply bool_decide_eq_false in H1];
    [apply bool_decide_eq_true in H2 | apply bool_decide_eq_false in H2
    | apply bool_decide_eq_true in H2 | apply bool_decide_eq_false in H2].
  - rewrite bool_decide_eq_true_2 by (apply elem_of_app; auto). apply init0_idem.
  - by rewrite bool_decide_eq_true_2 by (apply elem_of_app; auto).
  - by rewrite bool_decide_eq_true_2 by (apply elem_of_app; auto).
  - rewrite bool_decide_eq_false_2; [done|]. rewrite elem_of_app. tauto.
Qed.

Lemma analyze_venue_performance_lacking (E : Externals) (venue_name : string)
    (self : Dream11Predictor) (players : list string) (p : string) :
  lacks_history E venue_name (batter_data self) p →
  lacks_history E venue_name (bowler_data self) p →
  dict_get (player_scores (analyze_venue_performance E self venue_name players)) p
  = dict_get (player_scores self) p.
Proof.
  intros Hb Hw. unfold analyze_venue_performance. simpl.
  rewrite (fold_players_get _ id p).
  - by destruct (bool_decide _).
  - intros. by apply venue_player_frame.
  - intros. by rewrite venue_player_lacking.
  - done.
Qed.

Lemma analyze_recent_form_get (E : Externals) (self : Dream11Predictor)
    (players : list string) (p : string) :
  dict_get (player_scores (analyze_recent_form E self players)) p
  = if bool_decide (p ∈ players) then init0 (dict_get (player_scores self) p)
    else dict_get (player_scores self) p.
Proof.
  unfold analyze_recent_form. simpl. apply fold_players_get.
  - intros. rewrite form_player_setdefault. by apply dict_get_setdefault0_ne.
  - intros. rewrite form_player_setdefault. apply dict_get_setdefault0_eq.
  - apply init0_idem.
Qed.

(** C6: a player of the match who is absent from the stats caches (or whose
    records hold no head-to-head entry, no venue row and no recent-form
    table) ends the scoring pipeline with score exactly 0; the pipeline is a
    total function, no pass can fail on the missing data, and each single
    pass leaves such a player's score as it was (0 when it was not yet
    set). *)
Theorem missing_data_scores_zero (E : Externals) (self : Dream11Predictor)
    (venue_name : string) (team1_players team2_players : list string) (p : string) :
  p ∈ team1_players ++ team2_players →
  lacks_history E venue_name (batter_data self) p →
  lacks_history E venue_name (bowler_data self) p →
  dict_get (player_scores
              (score_players E self venue_name team1_players team2_players)) p
    = Some 0%Q ∧
  dict_get (player_scores (analyze_head_to_head E self team1_players team2_players)) p
    = Some (default 0%Q (dict_get (player_scores self) p)) ∧
  dict_get (player_scores
              (analyze_venue_performance E self venue_name
                 (team1_players ++ team2_players))) p
    = dict_get (player_scores self) p ∧
  dict_get (player_scores
              (analyze_recent_form E self (team1_players ++ team2_players))) p
    = Some (default 0%Q (dict_get (player_scores self) p)).
Proof.
  intros Hin Hb Hw.
  assert (Hin' : p ∈ team2_players ++ team1_players).
  { rewrite elem_of_app in *. tauto. }
  split; [|split; [|split]].
  - unfold score_players.
    rewrite analyze_recent_form_get, bool_decide_eq_true_2 by done.
    rewrite (analyze_venue_performance_lacking E venue_name) by done.
    rewrite (analyze_head_to_head_lacking E venue_name) by done.
    rewrite bool_decide_eq_true_2 by done.
    rewrite (analyze_head_to_head_lacking E venue_name) by done.
    by rewrite bool_decide_eq_true_2 by done.
  - rewrite (analyze_head_to_head_lacking E venue_name) by done.
    by rewrite bool_decide_eq_true_2 by done.
  - by apply analyze_venue_performance_lacking.
  - by rewrite analyze_recent_form_get, bool_decide_eq_true_2 by done.
Qed.

Lemma missing_data_scores_zero_witness :
  dict_get (player_scores
              (score_players no_externals h2h_predictor "Wankhede"
                 ghost_team1 ghost_team2)) "Ghost" = Some 0%Q.
Proof.
  apply (missing_data_scores_zero no_externals h2h_predictor "Wankhede"
           ghost_team1 ghost_team2 "Ghost").
  - apply list_elem_of_In. vm_compute. auto.
  - vm_compute. exact I.
  - vm_compute. exact I.
Defined.

(** ** Team selection: counters *)

Lemma team_count_touch (tc : gmap string nat) (team T : string) :
  team_count (<[team := team_count tc team]> tc) T = team_count tc T.
Proof.
  unfold team_count. destruct (decide (team = T)) as [->|Hne].
  - by rewrite lookup_insert_eq.
  - by rewrite lookup_insert_ne.
Qed.

Lemma team_count_insert (tc : gmap string nat) (team T : string) (n : nat) :
  team_count (<[team := n]> tc) T = if decide (team = T) then n else team_count tc T.
Proof.
  unfold team_count. destruct (decide (team = T)) as [->|Hne].
  - by rewrite lookup_insert_eq.
  - by rewrite lookup_insert_ne.
Qed.

Lemma role_team_count_store (rtc : gmap string (gmap RoleCategory nat))
    (team T : string) (r R : RoleCategory) (n : nat) :
  role_team_count (role_team_store rtc team r n) T R
  = if decide (team = T ∧ r = R) then n else role_team_count rtc T R.
Proof.
  unfold role_team_count, role_team_store.
  destruct (decide (team = T)) as [->|Hne].
  - rewrite lookup_insert_eq. simpl.
    destruct (decide (r = R)) as [->|Hr].
    + rewrite lookup_insert_eq. by rewrite decide_True.
    + rewrite lookup_insert_ne by done. rewrite decide_False by tauto. done.
  - rewrite lookup_insert_ne by done. rewrite decide_False by tauto. done.
Qed.

Lemma role_team_count_touch (rtc : gmap string (gmap RoleCategory nat))
    (team T : string) (r R : RoleCategory) :
  role_team_count (role_team_store rtc team r (role_team_count rtc team r)) T R
  = role_team_count rtc T R.
Proof.
  rewrite role_team_count_store. destruct (decide _) as [[-> ->]|]; done.
Qed.

Lemma filter_length_snoc {A} (f : A → bool) (l : list A) (x : A) :
  length (List.filter f (l ++ [x])) = length (List.filter f l) + (if f x then 1 else 0).
Proof.
  rewrite List.filter_app, length_app. simpl. by destruct (f x).
Qed.

Lemma sum_credits_snoc (self : Dream11Predictor) (l : list (string * Q)) (e : string * Q) :
  (sum_credits self (l ++ [e]) == sum_credits self l + credits_of self e.1)%Q.
Proof.
  unfold sum_credits. induction l as [|x l IH]; simpl.
  - ring.
  - rewrite IH. ring.
Qed.

Lemma sel_inv_init (self : Dream11Predictor) : sel_inv self sel_init.
Proof.
  split; simpl; try done.
  - unfold max_foreign. lia.
  - intros T. unfold MAX_TEAM_PLAYERS, team_count.
    rewrite lookup_empty. simpl. lia.
  - intros T R. unfold role_team_count. rewrite lookup_empty. simpl.
    rewrite lookup_empty. simpl. lia.
Qed.

(** Storing the defaults a read creates does not change what the counters
    say. *)
Lemma sel_inv_ext (self : Dream11Predictor) (st st' : SelState) :
  sel_players st' = sel_players st →
  sel_total_credits st' = sel_total_credits st →
  sel_foreign_count st' = sel_foreign_count st →
  (∀ T, team_count (sel_team_counts st') T = team_count (sel_team_counts st) T) →
  (∀ T R, role_team_count (sel_role_team_counts st') T R
          = role_team_count (sel_role_team_counts st) T R) →
  sel_inv self st → sel_inv self st'.
Proof.
  intros Hp Hc Hf Ht Hr [I1 I2 I3 I4 I5 I6 I7 I8].
  split; rewrite ?Hp, ?Hc, ?Hf; try done.
  - intros T. by rewrite Ht.
  - intros T R. by rewrite Hr.
  - intros T. by rewrite Ht.
  - intros T R. by rewrite Hr.
Qed.

(** ** Team selection: one iteration *)

Lemma passes_checksb_spec (self : Dream11Predictor) (st : SelState) (player : string) :
  passes_checksb self st player = true ↔ passes_checks self st player.
Proof.
  unfold passes_checksb, passes_checks.
  rewrite !andb_true_iff, !negb_true_iff, !Nat.leb_gt, Qle_bool_iff.
  rewrite andb_false_iff, Nat.leb_gt.
  destruct (is_foreign_of self player); intuition (try congruence).
Qed.

(** One iteration of the loop body: a candidate that passes the checks is
    appended and counted, and the loop stops when that makes eleven; any
    other candidate changes nothing but the defaults its reads store. *)
Lemma select_loop_step (self : Dream11Predictor) (player : string) (score : Q)
    (rest : list (string * Q)) (st : SelState) :
  ∃ st1,
    select_loop self ((player, score) :: rest) st =
      (if passes_checksb self st player &&
          (length (sel_players st ++ [(player, score)]) =? 11)%nat
       then st1 else select_loop self rest st1) ∧
    (if passes_checksb self st player then accepted self st player score st1
     else same_selection st st1).
Proof.
  unfold passes_checksb. cbn [select_loop].
  destruct (MAX_TEAM_PLAYERS <=? _)%nat eqn:Ht; cbn [negb andb].
  { eexists. split; [reflexivity|].
    repeat split; cbn; intros; by rewrite ?team_count_touch. }
  destruct (MAX_ROLE_PER_TEAM _ <=? _)%nat eqn:Hr; cbn [negb andb].
  { eexists. split; [reflexivity|].
    repeat split; cbn; intros; by rewrite ?team_count_touch, ?role_team_count_touch. }
  destruct (Qle_bool _ _) eqn:Hc; cbn [negb andb].
  2: { eexists. split; [reflexivity|].
       repeat split; cbn; intros; by rewrite ?team_count_touch, ?role_team_count_touch. }
  destruct (is_foreign_of self player && _) eqn:Hf; cbn [negb andb].
  { eexists. split; [reflexivity|].
    repeat split; cbn; intros; by rewrite ?team_count_touch, ?role_team_count_touch. }
  eexists. split; [reflexivity|].
  repeat split; cbn.
  - intros T. rewrite team_count_insert, team_count_touch.
    by destruct (decide _) as [->|].
  - intros T R. rewrite role_team_count_store, role_team_count_touch.
    by destruct (decide _) as [[-> ->]|].
Qed.

(** ** Team selection: invariants *)

Lemma accepted_inv (self : Dream11Predictor) (st st1 : SelState)
    (player : string) (score : Q) :
  sel_inv self st → passes_checks self st player →
  accepted self st player score st1 → sel_inv self st1.
Proof.
  intros [I1 I2 I3 I4 I5 I6 I7 I8] (P1 & P2 & P3 & P4) (A1 & A2 & A3 & A4 & A5).
  split.
  - rewrite A1, A2, sum_credits_snoc, I1. reflexivity.
  - rewrite A1, A3. unfold count_foreign in *. rewrite filter_length_snoc. simpl.
    destruct (is_foreign_of self player); lia.
  - intros T. rewrite A1, A4. unfold count_team in *. rewrite filter_length_snoc. simpl.
    rewrite I3. destruct (decide (team_of self player = T)) as [Heq|Hne].
    + by rewrite bool_decide_eq_true_2.
    + rewrite bool_decide_eq_false_2 by done. lia.
  - intros T R. rewrite A1, A5. unfold count_team_role in *.
    rewrite filter_length_snoc. simpl. rewrite I4.
    destruct (decide (team_of self player = T ∧ _simplify_role self player = R))
      as [Heq|Hne].
    + by rewrite bool_decide_eq_true_2.
    + rewrite bool_decide_eq_false_2 by done. lia.
  - by rewrite A2.
  - rewrite A3. unfold max_foreign in *.
    destruct (is_foreign_of self player); [specialize (P4 eq_refl)|]; lia.
  - intros T. rewrite A4. specialize (I7 T).
    destruct (decide (team_of self player = T)) as [<-|]; [|done].
    unfold MAX_TEAM_PLAYERS in *. lia.
  - intros T R. rewrite A5. specialize (I8 T R).
    destruct (decide (team_of self player = T ∧ _simplify_role self player = R))
      as [[<- <-]|]; [|done]. lia.
Qed.

Lemma same_selection_inv (self : Dream11Predictor) (st st1 : SelState) :
  sel_inv self st → same_selection st st1 → sel_inv self st1.
Proof.
  intros Hinv (H1 & H2 & H3 & H4 & H5). by apply (sel_inv_ext self st st1).
Qed.

Lemma select_loop_inv (self : Dream11Predictor) (l : list (string * Q)) (st : SelState) :
  sel_inv self st → (length (sel_players st) < 11)%nat →
  sel_inv self (select_loop self l st) ∧
  (length (sel_players (select_loop self l st)) ≤ 11)%nat.
Proof.
  revert st. induction l as [|[player score] rest IH]; intros st Hinv Hlen.
  - simpl. split; [done | lia].
  - destruct (select_loop_step self player score rest st) as (st1 & -> & Hst1).
    destruct (passes_checksb self st player) eqn:Hp.
    + apply passes_checksb_spec in Hp.
      pose proof (accepted_inv self st st1 player score Hinv Hp Hst1) as Hinv1.
      destruct Hst1 as (A1 & _). rewrite <- A1. simpl.
      destruct (length (sel_players st1) =? 11)%nat eqn:He.
      * apply Nat.eqb_eq in He. split; [done | lia].
      * apply Nat.eqb_neq in He. apply IH; [done|].
        rewrite A1, length_app in *. simpl in *. lia.
    + simpl. pose proof (same_selection_inv self st st1 Hinv Hst1) as Hinv1.
      destruct Hst1 as (A1 & _). apply IH; [done | by rewrite A1].
Qed.

(** The selected players are, in order, the players already selected
    followed by some of the candidates. *)
Lemma select_loop_sublist (self : Dream11Predictor) (l : list (string * Q))
    (st : SelState) :
  ∃ l', sel_players (select_loop self l st) = sel_players st ++ l' ∧
        l' `sublist_of` l.
Proof.
  revert st. induction l as [|[player score] rest IH]; intros st.
  - exists []. simpl. by rewrite app_nil_r.
  - destruct (select_loop_step self player score rest st) as (st1 & -> & Hst1).
    destruct (passes_checksb self st player) eqn:Hp; simpl.
    + destruct Hst1 as (A1 & _).
      destruct (length _ =? 11)%nat.
      * exists [(player, score)]. split; [done|].
        apply sublist_skip, sublist_nil_l.
      * destruct (IH st1) as (l' & -> & Hsub). exists ((player, score) :: l').
        rewrite A1, <- app_assoc. split; [done | by apply sublist_skip].
    + destruct Hst1 as (A1 & _).
      destruct (IH st1) as (l' & -> & Hsub). exists l'.
      rewrite A1. split; [done | by apply sublist_cons].
Qed.

(** ** Sorting by score *)

Lemma insert_desc_perm (x : string * Q) (l : list (string * Q)) :
  insert_desc x l ≡ₚ x :: l.
Proof.
  induction l as [|y l IH]; simpl; [done|].
  destruct (Qle_bool y.2 x.2); [done|].
  rewrite IH. apply Permutation_swap.
Qed.

Lemma sorted_desc_perm (l : list (string * Q)) : sorted_desc l ≡ₚ l.
Proof.
  unfold sorted_desc. induction l as [|x l IH]; simpl; [done|].
  by rewrite insert_desc_perm, IH.
Qed.

(** ** What [select_dream11_team] returns *)

Lemma select_dream11_team_result (self : Dream11Predictor) :
  let st := select_loop self (sorted_desc (player_scores self)) sel_init in
  team (select_dream11_team self).1 = sel_players st ∧
  total_credits (select_dream11_team self).1 = sel_total_credits st ∧
  foreign_count (select_dream11_team self).1 = sel_foreign_count st ∧
  captain (select_dream11_team self).1 =
    (if (2 <=? length (sel_players st))%nat then fst <$> sel_players st !! 0 else None) ∧
  vice_captain (select_dream11_team self).1 =
    (if (2 <=? length (sel_players st))%nat then fst <$> sel_players st !! 1 else None).
Proof.
  intros st. unfold select_dream11_team. fold st. simpl.
  destruct (sel_players st) as [|c [|v ?]]; simpl; done.
Qed.

(** C1: whatever the scores and the registry, the team [select_dream11_team]
    returns costs at most 100 credits, has at most 4 foreign players and at
    most 11 players, takes at most 6 players from any origin team and, within
    an origin team, at most 2 WK, 3 BAT, 3 ALL and 3 BOWL (roles as
    [_simplify_role] gives them). *)
Theorem selection_invariants (self : Dream11Predictor) :
  let sel := (select_dream11_team self).1 in
  (sum_credits self (team sel) <= 100)%Q ∧
  (count_foreign self (team sel) ≤ 4)%nat ∧
  (length (team sel) ≤ 11)%nat ∧
  (∀ T, (count_team self (team sel) T ≤ 6)%nat) ∧
  (∀ T R, (count_team_role self (team sel) T R ≤ MAX_ROLE_PER_TEAM R)%nat).
Proof.
  intros sel. unfold sel.
  destruct (select_dream11_team_result self) as (-> & _).
  destruct (select_loop_inv self (sorted_desc (player_scores self)) sel_init)
    as ([I1 I2 I3 I4 I5 I6 I7 I8] & Hlen).
  { apply sel_inv_init. }
  { simpl. lia. }
  repeat split.
  - by rewrite <- I1.
  - by rewrite <- I2.
  - done.
  - intros T. rewrite <- I3. apply I7.
  - intros T R. rewrite <- I4. apply I8.
Qed.

(** C10: the team holds each player name once, and the returned
    [total_credits] and [foreign_count] are the credit sum (7.0 for a player
    without a recorded credit) and the number of foreign players of the
    returned team. *)
Theorem selection_aggregates_consistent (self : Dream11Predictor) :
  dict_wf (player_scores self) →
  let sel := (select_dream11_team self).1 in
  NoDup (team sel).*1 ∧
  (total_credits sel == sum_credits self (team sel))%Q ∧
  foreign_count sel = count_foreign self (team sel).
Proof.
  intros Hwf sel. unfold sel.
  destruct (select_dream11_team_result self) as (-> & -> & -> & _).
  destruct (select_loop_inv self (sorted_desc (player_scores self)) sel_init)
    as ([I1 I2 _ _ _ _ _ _] & _).
  { apply sel_inv_init. }
  { simpl. lia. }
  split; [|done].
  destruct (select_loop_sublist self (sorted_desc (player_scores self)) sel_init)
    as (l' & -> & Hsub).
  simpl. apply (sublist_NoDup _ ((sorted_desc (player_scores self)).*1)).
  - unfold dict_wf in Hwf. by rewrite sorted_desc_perm.
  - by apply fmap_sublist.
Qed.

Lemma selection_aggregates_consistent_witness :
  NoDup (team (select_dream11_team tie_predictor).1).*1 ∧
  (total_credits (select_dream11_team tie_predictor).1
   == sum_credits tie_predictor (team (select_dream11_team tie_predictor).1))%Q ∧
  foreign_count (select_dream11_team tie_predictor).1
  = count_foreign tie_predictor (team (select_dream11_team tie_predictor).1).
Proof.
  apply (selection_aggregates_consistent tie_predictor).
  unfold dict_wf. apply (bool_decide_unpack _). vm_compute. exact I.
Defined.

(** ** Stability of the sort *)

Lemma occurs_before_cons {A} (x y z : A) (l : list A) :
  occurs_before x y l → occurs_before x y (z :: l).
Proof. intros (l1 & l2 & l3 & ->). by exists (z :: l1), l2, l3. Qed.

Lemma occurs_before_head {A} (x y : A) (l : list A) :
  y ∈ l → occurs_before x y (x :: l).
Proof. intros (l2 & l3 & ->)%list_elem_of_split. by exists [], l2, l3. Qed.

Lemma occurs_before_inv {A} (x y z : A) (l : list A) :
  occurs_before x y (z :: l) → (z = x ∧ y ∈ l) ∨ occurs_before x y l.
Proof.
  intros ([|w l1] & l2 & l3 & Heq); simpl in Heq; injection Heq as -> ->.
  - left. split; [done|]. apply elem_of_app. right. apply list_elem_of_here.
  - right. by exists l1, l2, l3.
Qed.

Lemma insert_desc_before_old (x y z : string * Q) (s : list (string * Q)) :
  occurs_before x y s → occurs_before x y (insert_desc z s).
Proof.
  induction s as [|w s IH]; intros Hb.
  - destruct Hb as ([|? ?] & ? & ? & ?); discriminate.
  - simpl. destruct (Qle_bool w.2 z.2); [by apply occurs_before_cons|].
    apply occurs_before_inv in Hb as [[-> Hy]|Hb].
    + apply occurs_before_head. rewrite insert_desc_perm. by apply list_elem_of_further.
    + by apply occurs_before_cons, IH.
Qed.

Lemma insert_desc_before_new (x y : string * Q) (s : list (string * Q)) :
  y ∈ s → Qle_bool y.2 x.2 = true → occurs_before x y (insert_desc x s).
Proof.
  induction s as [|w s IH]; intros Hy Hle.
  - by apply elem_of_nil in Hy.
  - simpl. destruct (Qle_bool w.2 x.2) eqn:Hw; [by apply occurs_before_head|].
    apply elem_of_cons in Hy as [->|Hy]; [congruence|].
    by apply occurs_before_cons, IH.
Qed.

(** Entries of equal score keep their order through [sorted_desc]. *)
Lemma sorted_desc_stable (x y : string * Q) (l : list (string * Q)) :
  occurs_before x y l → (x.2 == y.2)%Q → occurs_before x y (sorted_desc l).
Proof.
  intros Hb Heq. induction l as [|z l IH].
  - destruct Hb as ([|? ?] & ? & ? & ?); discriminate.
  - change (sorted_desc (z :: l)) with (insert_desc z (sorted_desc l)).
    apply occurs_before_inv in Hb as [[-> Hy]|Hb].
    + apply insert_desc_before_new.
      * by rewrite sorted_desc_perm.
      * apply Qle_bool_iff. rewrite Heq. apply Qle_refl.
    + by apply insert_desc_before_old, IH.
Qed.

(** ** Tie-breaking *)

(** A loop that has not reached eleven players after a prefix of the
    candidates goes on with the rest. *)
Lemma select_loop_app (self : Dream11Predictor) (pre rest : list (string * Q))
    (st : SelState) :
  length (sel_players (select_loop self pre st)) ≠ 11 →
  select_loop self (pre ++ rest) st = select_loop self rest (select_loop self pre st).
Proof.
  revert st. induction pre as [|[player score] pre IH]; intros st Hlen; [done|].
  rewrite <- app_comm_cons. cbn [select_loop] in *.
  destruct (MAX_TEAM_PLAYERS <=? _)%nat; [by apply IH|].
  destruct (MAX_ROLE_PER_TEAM _ <=? _)%nat; [by apply IH|].
  destruct (negb (Qle_bool _ _)); [by apply IH|].
  destruct (is_foreign_of self player && _); [by apply IH|].
  cbn [sel_players] in *.
  destruct (length _ =? 11)%nat eqn:He; [|by apply IH].
  apply Nat.eqb_eq in He. done.
Qed.

Lemma select_loop_names (self : Dream11Predictor) (l : list (string * Q))
    (st : SelState) (name : string) :
  name ∈ (sel_players (select_loop self l st)).*1 →
  name ∈ (sel_players st).*1 ∨ name ∈ l.*1.
Proof.
  destruct (select_loop_sublist self l st) as (l' & -> & Hsub).
  rewrite fmap_app, elem_of_app. intros [?|Hin]; [by left | right].
  eapply elem_of_sublist; [done|]. by apply fmap_sublist.
Qed.

(** With distinct names, an entry has one place in a list. *)
Lemma NoDup_fst_split_eq (x : string * Q) (pre pre' rest rest' : list (string * Q)) :
  NoDup (pre ++ x :: rest).*1 →
  pre ++ x :: rest = pre' ++ x :: rest' → pre = pre' ∧ rest = rest'.
Proof.
  revert pre'. induction pre as [|y pre IH]; intros pre' Hnd Heq.
  - destruct pre' as [|y' pre']; simpl in Heq.
    + by injection Heq as ->.
    + injection Heq as <- ->. exfalso. simpl in Hnd.
      apply NoDup_cons in Hnd as [Hx _]. apply Hx.
      rewrite fmap_app, fmap_cons. apply elem_of_app. right. apply list_elem_of_here.
  - destruct pre' as [|y' pre']; simpl in Heq.
    + injection Heq as -> <-. exfalso. simpl in Hnd.
      apply NoDup_cons in Hnd as [Hx _]. apply Hx.
      rewrite fmap_app, fmap_cons. apply elem_of_app. right. apply list_elem_of_here.
    + injection Heq as <- Heq. simpl in Hnd. apply NoDup_cons in Hnd as [_ Hnd].
      destruct (IH pre' Hnd Heq) as [-> ->]. done.
Qed.

(** C7: players of equal score are considered in the order of insertion
    into [player_scores]: if "A" precedes "B" there with the same score, then
    "A" precedes "B" among the sorted candidates the loop runs over.  And
    when the loop reaches "A" with ten players selected and "A" passes the
    checks, "B" is still to come, "A" takes the last place and "B" is not in
    the team. *)
Theorem tie_break_first_seen (self : Dream11Predictor) (A B : string) (sA sB : Q) :
  dict_wf (player_scores self) →
  occurs_before (A, sA) (B, sB) (player_scores self) →
  (sA == sB)%Q →
  occurs_before (A, sA) (B, sB) (sorted_desc (player_scores self)) ∧
  ∀ pre rest,
    sorted_desc (player_scores self) = pre ++ (A, sA) :: rest →
    let st := select_loop self pre sel_init in
    length (sel_players st) = 10 → passes_checks self st A →
    (B, sB) ∈ rest ∧
    team (select_dream11_team self).1 = sel_players st ++ [(A, sA)] ∧
    B ∉ (team (select_dream11_team self).1).*1.
Proof.
  intros Hwf Hbefore Hscore.
  pose proof (sorted_desc_stable _ _ _ Hbefore Hscore) as Hord.
  split; [exact Hord|]. intros pre rest Hsorted st Hlen Hpass.
  destruct Hord as (pre' & mid & post & Hsorted').
  assert (Hnd : NoDup (pre ++ (A, sA) :: rest).*1).
  { rewrite <- Hsorted, sorted_desc_perm. exact Hwf. }
  destruct (NoDup_fst_split_eq (A, sA) pre pre' rest (mid ++ (B, sB) :: post) Hnd)
    as [<- ->]; [congruence|].
  split. { apply elem_of_app. right. apply list_elem_of_here. }
  destruct (select_dream11_team_result self) as (-> & _).
  rewrite Hsorted, select_loop_app by (fold st; lia). fold st.
  destruct (select_loop_step self A sA (mid ++ (B, sB) :: post) st) as (st1 & -> & Hst1).
  apply passes_checksb_spec in Hpass. rewrite Hpass in *.
  rewrite length_app, Hlen. simpl.
  destruct Hst1 as (-> & _). split; [done|].
  rewrite fmap_app, fmap_cons, fmap_app, fmap_cons in Hnd. simpl in Hnd.
  apply NoDup_app in Hnd as (_ & Hpre & Hnd).
  apply NoDup_cons in Hnd as (HA & _).
  rewrite fmap_app, elem_of_app. simpl. intros [Hin|Hin].
  - apply select_loop_names in Hin as [Hin|Hin]; [by apply elem_of_nil in Hin|].
    apply (Hpre B Hin). apply list_elem_of_further, elem_of_app. right.
    apply list_elem_of_here.
  - apply list_elem_of_singleton in Hin as ->. apply HA.
    apply elem_of_app. right. apply list_elem_of_here.
Qed.

(** On the concrete match the loop reaches "A" with ten players selected
    and "A" passes the four checks: "A" gets the eleventh place, "B", tied
    with "A" and inserted after it, gets none. *)
Lemma tie_break_first_seen_witness :
  occurs_before ("A", 10%Q) ("B", 10%Q) (sorted_desc (player_scores tie_predictor)) ∧
  team (select_dream11_team tie_predictor).1
  = [("P1", 20%Q); ("P2", 19%Q); ("P3", 18%Q); ("P4", 17%Q); ("P5", 16%Q);
     ("P6", 15%Q); ("P7", 14%Q); ("P8", 13%Q); ("P9", 12%Q); ("P10", 11%Q)]
    ++ [("A", 10%Q)] ∧
  "B" ∉ (team (select_dream11_team tie_predictor).1).*1.
Proof.
  assert (Hwf : dict_wf (player_scores tie_predictor)).
  { unfold dict_wf. apply (bool_decide_unpack _). vm_compute. exact I. }
  assert (Hbefore : occurs_before ("A", 10%Q) ("B", 10%Q) (player_scores tie_predictor)).
  { exists (firstn 10 (player_scores tie_predictor)), [], []. reflexivity. }
  destruct (tie_break_first_seen tie_predictor "A" "B" 10%Q 10%Q Hwf Hbefore
              (Qeq_refl 10)) as [Hord Hsel].
  split; [exact Hord|].
  destruct (Hsel (firstn 10 (player_scores tie_predictor)) [("B", 10%Q)])
    as (_ & Hteam & HB).
  - vm_compute. reflexivity.
  - vm_compute. reflexivity.
  - apply passes_checksb_spec. vm_compute. reflexivity.
  - split; [|exact HB]. rewrite Hteam. vm_compute. reflexivity.
Defined.

(** The scenario of C7 on the concrete match: ten players are selected when
    the loop reaches "A"; "A" gets the eleventh place, "B" none. *)
Example tie_break_scenario :
  team (select_dream11_team tie_predictor).1 =
    [("P1", 20%Q); ("P2", 19%Q); ("P3", 18%Q); ("P4", 17%Q); ("P5", 16%Q);
     ("P6", 15%Q); ("P7", 14%Q); ("P8", 13%Q); ("P9", 12%Q); ("P10", 11%Q);
     ("A", 10%Q)].
Proof. vm_compute. reflexivity. Qed.

(** ** The pre-pass *)

Lemma already_selected_spec (selected : list (string * Q)) (player : string) :
  (0 <? length (List.filter (fun p => String.eqb p.1 player) selected))%nat = true
  ↔ player ∈ selected.*1.
Proof.
  induction selected as [|[k w] l IH]; simpl.
  - split; [done | by intros ?%elem_of_nil].
  - rewrite elem_of_cons. destruct (String.eqb_spec k player) as [->|Hne]; simpl.
    + split; auto.
    + rewrite IH. split; [auto | intros [?|?]; [congruence | done]].
Qed.

(** The inner loop either reserves nobody or appends the first candidate of
    the category that is not yet reserved and passes the budget and foreign
    tests. *)
Lemma reserve_one_spec (self : Dream11Predictor) (category : list (string * Q))
    (selected : list (string * Q)) (total : Q) (foreign : nat) :
  reserve_one self category (selected, total, foreign) = (selected, total, foreign) ∨
  ∃ player score,
    (player, score) ∈ category ∧ (player ∉ selected.*1) ∧
    (total + credits_of self player <= 100)%Q ∧
    (is_foreign_of self player = true → (foreign < 4)%nat) ∧
    reserve_one self category (selected, total, foreign) =
      (selected ++ [(player, score)], (total + credits_of self player)%Q,
       if is_foreign_of self player then foreign + 1 else foreign).
Proof.
  induction category as [|[player score] rest IH]; [by left|].
  cbn [reserve_one].
  destruct (0 <? _)%nat eqn:Hsel.
  { destruct IH as [IH|(p & s & Hin & IH)]; [by left|].
    right. exists p, s. split; [by apply list_elem_of_further | done]. }
  destruct (Qle_bool _ _ && _) eqn:Hok.
  - right. exists player, score.
    apply andb_true_iff in Hok as [Hc Hf]. apply Qle_bool_iff in Hc.
    split; [apply list_elem_of_here|]. split.
    { intros Hin. apply already_selected_spec in Hin. congruence. }
    split; [done|]. split; [|done].
    intros Hfor. rewrite Hfor in Hf. simpl in Hf. by apply Nat.ltb_lt in Hf.
  - destruct IH as [IH|(p & s & Hin & IH)]; [by left|].
    right. exists p, s. split; [by apply list_elem_of_further | done].
Qed.

Lemma snoc_split {A} (l pre post : list A) (x y : A) :
  l ++ [x] = pre ++ y :: post →
  (pre = l ∧ y = x ∧ post = []) ∨ (∃ post', post = post' ++ [x] ∧ l = pre ++ y :: post').
Proof.
  destruct post as [|z post _] using rev_ind.
  - intros [-> ->]%app_inj_tail. by left.
  - rewrite app_comm_cons, app_assoc. intros [-> ->]%app_inj_tail.
    right. by exists post.
Qed.

Lemma count_foreign_snoc (self : Dream11Predictor) (l : list (string * Q))
    (e : string * Q) :
  count_foreign self (l ++ [e])
  = (count_foreign self l + if is_foreign_of self e.1 then 1 else 0)%nat.
Proof. unfold count_foreign. by rewrite filter_length_snoc. Qed.

Lemma reserve_one_inv (self : Dream11Predictor) (total0 : Q) (foreign0 : nat)
    (category : list (string * Q)) (st : list (string * Q) * Q * nat) :
  prepass_inv self total0 foreign0 st →
  prepass_inv self total0 foreign0 (reserve_one self category st) ∧
  (length (reserve_one self category st).1.1 ≤ length st.1.1 + 1)%nat ∧
  (∀ e, e ∈ (reserve_one self category st).1.1 → e ∈ st.1.1 ∨ e ∈ category).
Proof.
  destruct st as [[selected total] foreign]. intros (Hnd & Hchk & Ht & Hf).
  destruct (reserve_one_spec self category selected total foreign)
    as [-> | (player & score & Hin & Hnew & Hc & Hfor & ->)].
  { split; [done|]. simpl. split; [lia | auto]. }
  split; [|split].
  - split; [|split; [|split]].
    + rewrite fmap_app. apply NoDup_app. split; [done|]. split; [|apply NoDup_singleton].
      intros x Hx ->%list_elem_of_singleton. done.
    + intros pre p s post Heq.
      apply snoc_split in Heq as [(-> & Hp & ->) | (post' & -> & ->)].
      * injection Hp as -> ->. split.
        -- by rewrite <- Ht.
        -- intros Hfp. specialize (Hfor Hfp). lia.
      * by eapply Hchk.
    + rewrite sum_credits_snoc, Ht. simpl. ring.
    + rewrite count_foreign_snoc. simpl.
      destruct (is_foreign_of self player); lia.
  - simpl. rewrite length_app. simpl. lia.
  - simpl. intros e [?|He]%elem_of_app; [by left|].
    apply list_elem_of_singleton in He as ->. by right.
Qed.

(** C9, as stated, fails: the pre-pass tests the budget and the foreign cap
    only.  Of four candidates that are all BAT players of one origin team it
    reserves all four, one over the cap of 3 BAT per origin team; the greedy
    pass, given the same four candidates, rejects the fourth. *)
Lemma prepass_ignores_team_caps :
  let categorized := categorize_players unknown_roles_predictor prepass_candidates in
  (ensure_minimum_requirements unknown_roles_predictor categorized 0 0).1.1
    = prepass_candidates ∧
  count_team_role unknown_roles_predictor prepass_candidates "Unknown" BAT = 4 ∧
  MAX_ROLE_PER_TEAM BAT = 3 ∧
  sel_players (select_loop unknown_roles_predictor prepass_candidates sel_init)
    = [("MS Dhoni", 4%Q); ("Bat", 3%Q); ("Both", 2%Q)].
Proof. repeat split; vm_compute; reflexivity. Qed.

(** One visit of a category reserves the first candidate that passes the
    tests, and nobody when none does. *)
Lemma reserve_one_first_fit (self : Dream11Predictor) (total0 : Q) (foreign0 : nat)
    (category reserved : list (string * Q)) (total : Q) (foreign : nat) :
  (total == total0 + sum_credits self reserved)%Q →
  foreign = (foreign0 + count_foreign self reserved)%nat →
  ∃ pick,
    first_fit self total0 foreign0 reserved category pick ∧
    (reserve_one self category (reserved, total, foreign)).1.1
      = reserved ++ option_list pick ∧
    ((reserve_one self category (reserved, total, foreign)).1.2
       == total0 + sum_credits self (reserved ++ option_list pick))%Q ∧
    (reserve_one self category (reserved, total, foreign)).2
      = (foreign0 + count_foreign self (reserved ++ option_list pick))%nat.
Proof.
  intros Ht Hf. induction category as [|[player score] rest IH].
  - exists None. simpl. rewrite app_nil_r. repeat split; try done.
    intros x Hx. by apply elem_of_nil in Hx.
  - cbn [reserve_one].
    assert (Hskip : ¬ prepass_fits self total0 foreign0 reserved player →
      ∃ pick,
        first_fit self total0 foreign0 reserved ((player, score) :: rest) pick ∧
        (reserve_one self rest (reserved, total, foreign)).1.1
          = reserved ++ option_list pick ∧
        ((reserve_one self rest (reserved, total, foreign)).1.2
           == total0 + sum_credits self (reserved ++ option_list pick))%Q ∧
        (reserve_one self rest (reserved, total, foreign)).2
          = (foreign0 + count_foreign self (reserved ++ option_list pick))%nat).
    { intros Hno. destruct IH as (pick & Hfit & Hres). exists pick.
      split; [|exact Hres]. destruct pick as [e|]; simpl in *.
      - destruct Hfit as (skipped & later & -> & Hsk & He).
        exists ((player, score) :: skipped), later. split; [done|]. split; [|done].
        intros x [->|Hx]%elem_of_cons; [done | by apply Hsk].
      - intros x [->|Hx]%elem_of_cons; [done | by apply Hfit]. }
    destruct (0 <? _)%nat eqn:Hsel.
    { apply Hskip. intros (Hnew & _). apply Hnew. by apply already_selected_spec. }
    destruct (Qle_bool _ _ && _) eqn:Hok.
    + apply andb_true_iff in Hok as [Hc Hfor]. apply Qle_bool_iff in Hc.
      exists (Some (player, score)). simpl. split; [|split; [done|split]].
      * exists [], rest. split; [done|]. split.
        { intros x Hx. by apply elem_of_nil in Hx. }
        split; [|split].
        -- intros Hin. apply already_selected_spec in Hin. congruence.
        -- by rewrite <- Ht.
        -- intros Hfp. rewrite Hfp in Hfor. simpl in Hfor.
           apply Nat.ltb_lt in Hfor. lia.
      * rewrite sum_credits_snoc, Ht. simpl. ring.
      * rewrite count_foreign_snoc. simpl.
        destruct (is_foreign_of self player); lia.
    + apply Hskip. intros (_ & Hc & Hfor).
      apply andb_false_iff in Hok as [Hok|Hok].
      * rewrite <- Ht in Hc. apply Qle_bool_iff in Hc. congruence.
      * apply orb_false_iff in Hok as [Hfp Hlt]. apply negb_false_iff in Hfp.
        apply Nat.ltb_ge in Hlt. specialize (Hfor Hfp). lia.
Qed.

(** The four visits of the pre-pass, in the order of the code. *)
Lemma ensure_minimum_first_fit (self : Dream11Predictor) (categorized : Categorized)
    (total0 : Q) (foreign0 : nat) :
  ∃ wk_pick bat_pick ar_pick bowl_pick,
    (ensure_minimum_requirements self categorized total0 foreign0).1.1
      = option_list wk_pick ++ option_list bat_pick ++ option_list ar_pick
        ++ option_list bowl_pick ∧
    first_fit self total0 foreign0 [] (wicket_keepers categorized) wk_pick ∧
    first_fit self total0 foreign0 (option_list wk_pick) (batsmen categorized)
      bat_pick ∧
    first_fit self total0 foreign0 (option_list wk_pick ++ option_list bat_pick)
      (all_rounders categorized) ar_pick ∧
    first_fit self total0 foreign0
      (option_list wk_pick ++ option_list bat_pick ++ option_list ar_pick)
      (bowlers categorized) bowl_pick.
Proof.
  unfold ensure_minimum_requirements. cbn [fold_left category_list].
  destruct (reserve_one_first_fit self total0 foreign0 (wicket_keepers categorized)
              [] total0 foreign0) as (p1 & F1 & R1 & T1 & C1).
  { simpl. ring. }
  { unfold count_foreign. simpl. lia. }
  destruct (reserve_one self (wicket_keepers categorized) ([], total0, foreign0))
    as [[r1 t1] f1]. simpl in R1, T1, C1. subst r1.
  destruct (reserve_one_first_fit self total0 foreign0 (batsmen categorized)
              (option_list p1) t1 f1 T1 C1) as (p2 & F2 & R2 & T2 & C2).
  destruct (reserve_one self (batsmen categorized) (option_list p1, t1, f1))
    as [[r2 t2] f2]. simpl in R2, T2, C2. subst r2.
  destruct (reserve_one_first_fit self total0 foreign0 (all_rounders categorized)
              (option_list p1 ++ option_list p2) t2 f2 T2 C2)
    as (p3 & F3 & R3 & T3 & C3).
  destruct (reserve_one self (all_rounders categorized)
              (option_list p1 ++ option_list p2, t2, f2)) as [[r3 t3] f3].
  simpl in R3, T3, C3. subst r3.
  destruct (reserve_one_first_fit self total0 foreign0 (bowlers categorized)
              ((option_list p1 ++ option_list p2) ++ option_list p3) t3 f3 T3 C3)
    as (p4 & F4 & R4 & _).
  exists p1, p2, p3, p4. rewrite R4. rewrite <- !app_assoc in *. done.
Qed.

(** C9 (amended): the pre-pass visits the four categories once each, in the
    order wicket-keepers, batsmen, all-rounders, bowlers, and reserves at
    most one player per visit: the first candidate of the category that is
    not reserved yet and passes two checks, the 100-credit budget and the
    foreign cap of 4, in the state of the visit.  Every candidate before the
    reserved one, and every candidate of a category without a reserved
    player, is already reserved or fails one of the two checks; there is no
    origin-team or role-cap check.  It never reserves a name twice, every
    reserved player passed the two checks after the players reserved before
    it, and the returned totals are those of what it reserved. *)
Theorem prepass_checks (self : Dream11Predictor) (categorized : Categorized)
    (total0 : Q) (foreign0 : nat) :
  let result := ensure_minimum_requirements self categorized total0 foreign0 in
  let reserved := result.1.1 in
  NoDup reserved.*1 ∧
  (∀ pre player score post,
     reserved = pre ++ (player, score) :: post →
     (total0 + sum_credits self pre + credits_of self player <= 100)%Q ∧
     (is_foreign_of self player = true →
      (foreign0 + count_foreign self pre < 4)%nat)) ∧
  (length reserved ≤ 4)%nat ∧
  (∀ e, e ∈ reserved → ∃ cat, e ∈ category_list categorized cat) ∧
  (result.1.2 == total0 + sum_credits self reserved)%Q ∧
  result.2 = (foreign0 + count_foreign self reserved)%nat ∧
  ∃ wk_pick bat_pick ar_pick bowl_pick,
    reserved = option_list wk_pick ++ option_list bat_pick ++ option_list ar_pick
               ++ option_list bowl_pick ∧
    first_fit self total0 foreign0 [] (wicket_keepers categorized) wk_pick ∧
    first_fit self total0 foreign0 (option_list wk_pick) (batsmen categorized)
      bat_pick ∧
    first_fit self total0 foreign0 (option_list wk_pick ++ option_list bat_pick)
      (all_rounders categorized) ar_pick ∧
    first_fit self total0 foreign0
      (option_list wk_pick ++ option_list bat_pick ++ option_list ar_pick)
      (bowlers categorized) bowl_pick.
Proof.
  intros result reserved.
  pose proof (ensure_minimum_first_fit self categorized total0 foreign0) as Hfit.
  fold result in Hfit. fold reserved in Hfit.
  revert Hfit. unfold reserved, result, ensure_minimum_requirements.
  cbn [fold_left]. intros Hfit.
  set (st0 := ([], total0, foreign0) : list (string * Q) * Q * nat) in *.
  assert (H0 : prepass_inv self total0 foreign0 st0).
  { split; [apply NoDup_nil_2|].
    split; [|split; [simpl; ring | unfold count_foreign; simpl; lia]].
    intros [|? ?] ? ? ? ?; discriminate. }
  destruct (reserve_one_inv self total0 foreign0
              (category_list categorized WicketKeepers) st0 H0) as (H1 & L1 & M1).
  set (st1 := reserve_one self (category_list categorized WicketKeepers) st0) in *.
  destruct (reserve_one_inv self total0 foreign0
              (category_list categorized Batsmen) st1 H1) as (H2 & L2 & M2).
  set (st2 := reserve_one self (category_list categorized Batsmen) st1) in *.
  destruct (reserve_one_inv self total0 foreign0
              (category_list categorized AllRounders) st2 H2) as (H3 & L3 & M3).
  set (st3 := reserve_one self (category_list categorized AllRounders) st2) in *.
  destruct (reserve_one_inv self total0 foreign0
              (category_list categorized Bowlers) st3 H3) as (H4 & L4 & M4).
  set (st4 := reserve_one self (category_list categorized Bowlers) st3) in *.
  destruct st4 as [[sel tot] for4] eqn:E4. destruct H4 as (Hnd & Hchk & Ht & Hf).
  simpl in *. split; [done|]. split; [done|]. split; [lia|].
  split; [|split; [done|split; [done|exact Hfit]]].
  intros e He.
  destruct (M4 e He) as [He3|?]; [|by exists Bowlers].
  destruct (M3 e He3) as [He2|?]; [|by exists AllRounders].
  destruct (M2 e He2) as [He1|?]; [|by exists Batsmen].
  destruct (M1 e He1) as [He0|?]; [|by exists WicketKeepers].
  by apply elem_of_nil in He0.
Qed.

(** On the four candidates of the counterexample, one per category: "Bat"
    is reserved by the visit of the batsmen, after "MS Dhoni", having passed
    the budget test in that state. *)
Lemma prepass_checks_witness :
  (0 + sum_credits unknown_roles_predictor [("MS Dhoni", 4%Q)]
   + credits_of unknown_roles_predictor "Bat" <= 100)%Q.
Proof.
  pose proof (prepass_checks unknown_roles_predictor
                (categorize_players unknown_roles_predictor prepass_candidates)
                0%Q 0) as (_ & Hchk & _).
  apply (Hchk [("MS Dhoni", 4%Q)] "Bat" 3%Q [("Both", 2%Q); ("Pace", 1%Q)]).
  vm_compute. reflexivity.
Defined.

(** The visits on crowded categories, started with four foreign players
    counted: "W1" does not fit the budget and "W2" is reserved, one
    wicket-keeper only; "W2" is passed over among the batsmen and "B1" is
    reserved, one batsman only; no all-rounder; "F1" is over the foreign cap
    and "D1" is reserved. *)
Example prepass_one_per_category :
  (ensure_minimum_requirements crowded_predictor crowded_categories 0 4).1.1
    = [("W2", 8%Q); ("B1", 6%Q); ("D1", 4%Q)] ∧
  (ensure_minimum_requirements crowded_predictor crowded_categories 0 4).2 = 4.
Proof. split; vm_compute; reflexivity. Qed.

(** ** Running the registry update twice *)

Section KeyRun.
Context {V : Type}.
Context (ok : Dream11Predictor → Prop).
Context (view : Dream11Predictor → string → V).
Context (op : string → V → Result V).

Hypothesis ok_step : ∀ s e s', ok s → set_player_role s e = Ok s' → ok s'.
Hypothesis view_here : ∀ s e s',
  ok s → set_player_role s e = Ok s' →
  op e (view s (entry_name e)) = Ok (view s' (entry_name e)).
Hypothesis view_frame : ∀ s e s' k,
  ok s → set_player_role s e = Ok s' → k ≠ entry_name e → view s' k = view s k.

(** The value under [k] after a run is the value the entries named [k]
    compute from the initial one. *)
Lemma set_player_roles_view (l : list string) (s t : Dream11Predictor) (k : string) :
  ok s → set_player_roles s l = Ok t →
  key_run op k l (view s k) = Ok (view t k).
Proof.
  revert s. induction l as [|e l IH]; intros s Hok Hrun; simpl in *.
  - by injection Hrun as ->.
  - destruct (set_player_role s e) as [s'|] eqn:Hstep; [|discriminate].
    simpl in Hrun. destruct (decide (entry_name e = k)) as [<-|Hne].
    + rewrite (view_here s e s') by done. simpl. by eapply IH, Hrun; eauto.
    + rewrite <- (view_frame s e s' k) by done. by eapply IH, Hrun; eauto.
Qed.

(** When only the step decides whether the run raises. *)
Lemma set_player_roles_total (l : list string) (s : Dream11Predictor) :
  (∀ s e v, ok s → op e (view s (entry_name e)) = Ok v →
            ∃ s', set_player_role s e = Ok s') →
  ok s → (∀ k, ∃ v, key_run op k l (view s k) = Ok v) →
  ∃ t, set_player_roles s l = Ok t.
Proof.
  intros Hprog. revert s. induction l as [|e l IH]; intros s Hok Hall; simpl.
  - eauto.
  - destruct (Hall (entry_name e)) as [v Hv]. simpl in Hv.
    rewrite decide_True in Hv by done.
    destruct (op e (view s (entry_name e))) as [v1|] eqn:Hop; [|discriminate].
    destruct (Hprog s e v1 Hok Hop) as [s' Hstep]. rewrite Hstep. simpl.
    apply IH; [by eapply ok_step|]. intros k.
    destruct (Hall k) as [w Hw]. simpl in Hw.
    destruct (decide (entry_name e = k)) as [<-|Hne].
    + rewrite Hop in Hw. simpl in Hw. exists w.
      rewrite <- Hw. f_equal. pose proof (view_here s e s' Hok Hstep) as H.
      rewrite Hop in H. by injection H as ->.
    + exists w. by rewrite (view_frame s e s' k).
Qed.
End KeyRun.

Section KeyRunIdempotent.
Context {V : Type} (op : string → V → Result V) (k : string).
Context (settled : V → Prop).

(** Every entry named [k] leaves a settled value, and is either blind to
    the value it finds or leaves a settled value as it is. *)
Hypothesis op_settles : ∀ e v v',
  entry_name e = k → op e v = Ok v' → settled v'.
Hypothesis op_kind : ∀ e,
  entry_name e = k →
  (∀ v1 v2 r, op e v1 = Ok r → op e v2 = Ok r) ∨
  (∀ v, settled v → op e v = Ok v).

Lemma key_run_settled (l : list string) (v w : V) :
  settled v → key_run op k l v = Ok w → settled w.
Proof.
  revert v. induction l as [|e l IH]; intros v Hv Hrun; simpl in Hrun.
  - by injection Hrun as <-.
  - destruct (decide (entry_name e = k)) as [He|]; [|by eapply IH].
    destruct (op e v) as [v1|] eqn:Hop; [|discriminate]. simpl in Hrun.
    eapply IH; [|done]. by eapply op_settles.
Qed.

Lemma key_run_idempotent (l : list string) (v w : V) :
  key_run op k l v = Ok w → key_run op k l w = Ok w.
Proof.
  revert v. induction l as [|e l IH]; intros v Hrun; simpl in *; [done|].
  destruct (decide (entry_name e = k)) as [He|]; [|by eapply IH].
  destruct (op e v) as [v1|] eqn:Hop; [|discriminate]. simpl in Hrun.
  assert (Hw : settled w).
  { eapply key_run_settled; [|done]. by eapply op_settles. }
  destruct (op_kind e He) as [Hconst|Hid].
  - by rewrite (Hconst v w v1 Hop).
  - rewrite (Hid w Hw). simpl. by eapply IH.
Qed.
End KeyRunIdempotent.

(** What one entry does to the predictor: the four dictionaries change under
    the entry's name only, as the four operations say; nothing else
    changes; it raises exactly when the role operation does. *)
Lemma set_player_role_spec (s : Dream11Predictor) (e : string) :
  match set_player_role s e with
  | Raise _ => ∃ x, role_op (teams_data s) e (player_roles s !! entry_name e) = Raise x
  | Ok s' =>
      role_op (teams_data s) e (player_roles s !! entry_name e)
        = Ok (player_roles s' !! entry_name e) ∧
      credits_op (teams_data s) e (player_credits s !! entry_name e)
        = Ok (player_credits s' !! entry_name e) ∧
      foreign_op (teams_data s) e (player_is_foreign s !! entry_name e)
        = Ok (player_is_foreign s' !! entry_name e) ∧
      teams_op (teams_data s) e (player_teams s !! entry_name e)
        = Ok (player_teams s' !! entry_name e) ∧
      (∀ k, k ≠ entry_name e →
         player_roles s' !! k = player_roles s !! k ∧
         player_credits s' !! k = player_credits s !! k ∧
         player_is_foreign s' !! k = player_is_foreign s !! k ∧
         player_teams s' !! k = player_teams s !! k) ∧
      batter_data s' = batter_data s ∧ bowler_data s' = bowler_data s ∧
      teams_data s' = teams_data s ∧ same_results s' s
  end.
Proof.
  unfold set_player_role, role_op, credits_op, foreign_op, teams_op,
    entry_name, entry_role, get_player_info_from_csv, same_results.
  destruct (split_paren (strip e)) as [first [second|]].
  - destruct (endswith_rparen (strip second)); simpl;
      destruct (find_player_row (teams_data s) (strip first)) as [[tn row]|]; simpl.
    + rewrite lookup_insert_eq. unfold csv_role_update.
      destruct (String.eqb _ "Unknown"); simpl;
        rewrite ?lookup_insert_eq; repeat split; try done;
        intros; rewrite ?lookup_insert_ne by done; done.
    + rewrite ?lookup_insert_eq; repeat split; try done;
        intros; rewrite ?lookup_insert_ne by done; done.
    + destruct (player_roles s !! strip first) as [cur|] eqn:Hcur; [|eauto].
      unfold csv_role_update.
      destruct (String.eqb cur "Unknown"); simpl;
        rewrite ?lookup_insert_eq, ?Hcur; repeat split; try done;
        intros; rewrite ?lookup_insert_ne by done; done.
    + rewrite ?lookup_insert_eq; repeat split; try done;
        intros; rewrite ?lookup_insert_ne by done; done.
  - simpl. destruct (find_player_row (teams_data s) (strip e)) as [[tn row]|]; simpl.
    + rewrite lookup_insert_eq. unfold csv_role_update. simpl.
      rewrite ?lookup_insert_eq; repeat split; try done;
        intros; rewrite ?lookup_insert_ne by done; done.
    + rewrite ?lookup_insert_eq; repeat split; try done;
        intros; rewrite ?lookup_insert_ne by done; done.
Qed.

Lemma set_player_role_teams_data (s s' : Dream11Predictor) (e : string) :
  set_player_role s e = Ok s' → teams_data s' = teams_data s.
Proof.
  intros H. pose proof (set_player_role_spec s e) as Hs. rewrite H in Hs. tauto.
Qed.

(** A run changes the registry dictionaries only. *)
Lemma set_player_roles_fields (l : list string) (s t : Dream11Predictor) :
  set_player_roles s l = Ok t →
  batter_data t = batter_data s ∧ bowler_data t = bowler_data s ∧
  teams_data t = teams_data s ∧ same_results t s.
Proof.
  revert s. induction l as [|e l IH]; intros s Hrun; simpl in Hrun.
  - injection Hrun as ->. by repeat split.
  - destruct (set_player_role s e) as [s'|] eqn:Hstep; [|discriminate].
    simpl in Hrun. pose proof (set_player_role_spec s e) as Hs. rewrite Hstep in Hs.
    destruct Hs as (_ & _ & _ & _ & _ & Hb & Hw & Ht & R1 & R2 & R3 & R4).
    destruct (IH s' Hrun) as (Hb' & Hw' & Ht' & R1' & R2' & R3' & R4').
    repeat split; congruence.
Qed.

Lemma csv_role_update_idem (row : SquadRow) (c : string) :
  csv_role_update row (csv_role_update row c) = csv_role_update row c.
Proof.
  unfold csv_role_update. destruct (String.eqb c "Unknown") eqn:Hc; [|by rewrite Hc].
  by destruct (String.eqb (Role row) "Unknown").
Qed.

Lemma role_run_idempotent (teams : list (string * list SquadRow)) (k : string)
    (l : list string) (v w : option string) :
  key_run (role_op teams) k l v = Ok w → key_run (role_op teams) k l w = Ok w.
Proof.
  apply (key_run_idempotent (role_op teams) k
           (fun o => match find_player_row teams k with
                     | Some (_, row) => ∃ c, o = Some c ∧ csv_role_update row c = c
                     | None => True
                     end)).
  - intros e o o' <-. unfold role_op.
    destruct (find_player_row teams (entry_name e)) as [[tn row]|]; [|done].
    destruct (match entry_role e with Some r => Some r | None => o end) as [c|];
      [|discriminate].
    intros [= <-]. eexists. split; [done|]. apply csv_role_update_idem.
  - intros e <-. unfold role_op. destruct (entry_role e) as [r|].
    + left. intros v1 v2 r0. done.
    + right. intros o Ho.
      destruct (find_player_row teams (entry_name e)) as [[tn row]|]; [|done].
      destruct Ho as (c & -> & Hc). by rewrite Hc.
Qed.

Lemma credits_run_idempotent (teams : list (string * list SquadRow)) (k : string)
    (l : list string) (v w : option Q) :
  key_run (credits_op teams) k l v = Ok w → key_run (credits_op teams) k l w = Ok w.
Proof.
  apply (key_run_idempotent (credits_op teams) k (fun _ => True)); [done|].
  intros e _. left. done.
Qed.

Lemma foreign_run_idempotent (teams : list (string * list SquadRow)) (k : string)
    (l : list string) (v w : option bool) :
  key_run (foreign_op teams) k l v = Ok w → key_run (foreign_op teams) k l w = Ok w.
Proof.
  apply (key_run_idempotent (foreign_op teams) k (fun _ => True)); [done|].
  intros e _. left. done.
Qed.

Lemma teams_run_idempotent (teams : list (string * list SquadRow)) (k : string)
    (l : list string) (v w : option string) :
  key_run (teams_op teams) k l v = Ok w → key_run (teams_op teams) k l w = Ok w.
Proof.
  apply (key_run_idempotent (teams_op teams) k (fun _ => True)); [done|].
  intros e _. unfold teams_op.
  destruct (find_player_row teams (entry_name e)) as [[tn row]|].
  - left. done.
  - right. done.
Qed.

(** The registry update is idempotent: a second run over the same playing
    XI, from the predictor the first run left, changes nothing. *)
Lemma set_player_roles_idempotent (l : list string) (s t : Dream11Predictor) :
  set_player_roles s l = Ok t → set_player_roles t l = Ok t.
Proof.
  intros Hrun.
  set (teams := teams_data s).
  set (ok := fun x : Dream11Predictor => teams_data x = teams).
  assert (Hok_step : ∀ x e x', ok x → set_player_role x e = Ok x' → ok x').
  { unfold ok. intros x e x' Hx Hstep.
    by rewrite (set_player_role_teams_data x x' e Hstep). }
  assert (Hspec : ∀ x e x', ok x → set_player_role x e = Ok x' →
    role_op teams e (player_roles x !! entry_name e)
      = Ok (player_roles x' !! entry_name e) ∧
    credits_op teams e (player_credits x !! entry_name e)
      = Ok (player_credits x' !! entry_name e) ∧
    foreign_op teams e (player_is_foreign x !! entry_name e)
      = Ok (player_is_foreign x' !! entry_name e) ∧
    teams_op teams e (player_teams x !! entry_name e)
      = Ok (player_teams x' !! entry_name e) ∧
    (∀ k, k ≠ entry_name e →
       player_roles x' !! k = player_roles x !! k ∧
       player_credits x' !! k = player_credits x !! k ∧
       player_is_foreign x' !! k = player_is_foreign x !! k ∧
       player_teams x' !! k = player_teams x !! k)).
  { unfold ok. intros x e x' Hx Hstep.
    pose proof (set_player_role_spec x e) as Hs. rewrite Hstep, Hx in Hs.
    simpl in Hs. tauto. }
  assert (Hok_s : ok s) by done.
  destruct (set_player_roles_fields l s t Hrun) as (Hb & Hw & Ht & Hres).
  assert (Hok_t : ok t) by (unfold ok; congruence).
  (* the four dictionaries, key by key, in the first run *)
  assert (Hroles : ∀ x y k, ok x → set_player_roles x l = Ok y →
    key_run (role_op teams) k l (player_roles x !! k) = Ok (player_roles y !! k)).
  { intros x y k Hx Hxy.
    apply (set_player_roles_view ok (fun z j => player_roles z !! j) (role_op teams));
      try done.
    - intros. by apply Hspec.
    - intros z e z' j Hz Hstep Hj. by apply (Hspec z e z' Hz Hstep). }
  assert (Hcredits : ∀ x y k, ok x → set_player_roles x l = Ok y →
    key_run (credits_op teams) k l (player_credits x !! k) = Ok (player_credits y !! k)).
  { intros x y k Hx Hxy.
    apply (set_player_roles_view ok (fun z j => player_credits z !! j) (credits_op teams));
      try done.
    - intros. by apply Hspec.
    - intros z e z' j Hz Hstep Hj. by apply (Hspec z e z' Hz Hstep). }
  assert (Hforeign : ∀ x y k, ok x → set_player_roles x l = Ok y →
    key_run (foreign_op teams) k l (player_is_foreign x !! k)
      = Ok (player_is_foreign y !! k)).
  { intros x y k Hx Hxy.
    apply (set_player_roles_view ok (fun z j => player_is_foreign z !! j)
             (foreign_op teams)); try done.
    - intros. by apply Hspec.
    - intros z e z' j Hz Hstep Hj. by apply (Hspec z e z' Hz Hstep). }
  assert (Hteams : ∀ x y k, ok x → set_player_roles x l = Ok y →
    key_run (teams_op teams) k l (player_teams x !! k) = Ok (player_teams y !! k)).
  { intros x y k Hx Hxy.
    apply (set_player_roles_view ok (fun z j => player_teams z !! j) (teams_op teams));
      try done.
    - intros. by apply Hspec.
    - intros z e z' j Hz Hstep Hj. by apply (Hspec z e z' Hz Hstep). }
  (* the second run does not raise *)
  destruct (set_player_roles_total ok (fun z j => player_roles z !! j) (role_op teams)
              Hok_step) with (l := l) (s := t) as [t' Hrun'].
  { intros. by apply Hspec. }
  { intros z e z' j Hz Hstep Hj. by apply (Hspec z e z' Hz Hstep). }
  { intros x e v Hx Hop. pose proof (set_player_role_spec x e) as Hs.
    unfold ok in Hx. rewrite Hx in Hs. simpl in Hs.
    destruct (set_player_role x e) as [x'|]; [eauto|].
    destruct Hs as [exn Hs]. congruence. }
  { done. }
  { intros k. exists (player_roles t !! k).
    exact (role_run_idempotent teams k l _ _ (Hroles s t k Hok_s Hrun)). }
  (* and ends where it started *)
  rewrite Hrun'. f_equal.
  destruct (set_player_roles_fields l t t' Hrun') as (Hb' & Hw' & Ht' & R1 & R2 & R3 & R4).
  assert (E1 : player_roles t' = player_roles t).
  { apply map_eq. intros k.
    pose proof (Hroles t t' k Hok_t Hrun') as H2.
    pose proof (role_run_idempotent teams k l _ _ (Hroles s t k Hok_s Hrun)) as H1.
    congruence. }
  assert (E2 : player_credits t' = player_credits t).
  { apply map_eq. intros k.
    pose proof (Hcredits t t' k Hok_t Hrun') as H2.
    pose proof (credits_run_idempotent teams k l _ _ (Hcredits s t k Hok_s Hrun)) as H1.
    congruence. }
  assert (E3 : player_is_foreign t' = player_is_foreign t).
  { apply map_eq. intros k.
    pose proof (Hforeign t t' k Hok_t Hrun') as H2.
    pose proof (foreign_run_idempotent teams k l _ _ (Hforeign s t k Hok_s Hrun)) as H1.
    congruence. }
  assert (E4 : player_teams t' = player_teams t).
  { apply map_eq. intros k.
    pose proof (Hteams t t' k Hok_t Hrun') as H2.
    pose proof (teams_run_idempotent teams k l _ _ (Hteams s t k Hok_s Hrun)) as H1.
    congruence. }
  destruct t, t'. simpl in *. congruence.
Qed.

(** ** Running the pipeline twice *)

Lemma select_loop_registry (s s' : Dream11Predictor) (l : list (string * Q))
    (st : SelState) :
  same_registry s s' → select_loop s l st = select_loop s' l st.
Proof.
  intros (_ & _ & _ & Hr & Hc & Hf & Ht). revert st.
  induction l as [|[player score] l IH]; intros st; [done|].
  cbn [select_loop].
  unfold credits_of, is_foreign_of, team_of, _simplify_role, role_text.
  rewrite Hr, Hc, Hf, Ht. by rewrite !IH.
Qed.

Lemma score_players_scores (E : Externals) (s s' : Dream11Predictor)
    (venue_name : string) (team1_players team2_players : list string) :
  same_registry s s' →
  player_scores (score_players E s venue_name team1_players team2_players)
  = player_scores (score_players E s' venue_name team1_players team2_players).
Proof.
  destruct s, s'. unfold same_registry. simpl.
  intros (-> & -> & -> & -> & -> & -> & ->). reflexivity.
Qed.

Lemma score_players_registry (E : Externals) (s : Dream11Predictor)
    (venue_name : string) (team1_players team2_players : list string) :
  same_registry (score_players E s venue_name team1_players team2_players) s.
Proof. by repeat split. Qed.

(** Scoring and selection read the caches and the registry only: the scores,
    team and counters left by an earlier run do not matter. *)
Lemma score_and_select_registry (E : Externals) (s s' : Dream11Predictor)
    (venue_name : string) (team1_players team2_players : list string) :
  same_registry s s' →
  select_dream11_team (score_players E s venue_name team1_players team2_players)
  = select_dream11_team (score_players E s' venue_name team1_players team2_players).
Proof.
  intros Hreg.
  pose proof (score_players_scores E s s' venue_name team1_players team2_players Hreg)
    as Hsc.
  pose proof (score_players_registry E s venue_name team1_players team2_players) as H1.
  pose proof (score_players_registry E s' venue_name team1_players team2_players) as H2.
  set (a := score_players E s venue_name team1_players team2_players) in *.
  set (b := score_players E s' venue_name team1_players team2_players) in *.
  assert (Hab : same_registry a b).
  { destruct H1 as (?&?&?&?&?&?&?), H2 as (?&?&?&?&?&?&?), Hreg as (?&?&?&?&?&?&?).
    repeat split; congruence. }
  unfold select_dream11_team. rewrite Hsc, (select_loop_registry a b _ _ Hab).
  clearbody a b. destruct a, b. destruct Hab as (?&?&?&?&?&?&?). simpl in *. subst.
  reflexivity.
Qed.

Lemma select_dream11_team_registry (s : Dream11Predictor) :
  same_registry (select_dream11_team s).2 s.
Proof.
  unfold select_dream11_team. simpl.
  destruct (sel_players _) as [|? [|? ?]]; by repeat split.
Qed.

(** The registry update computes the same registry from the same registry,
    whatever the other fields hold. *)
Lemma set_player_role_registry (s s' : Dream11Predictor) (e : string) :
  same_registry s s' →
  match set_player_role s e, set_player_role s' e with
  | Ok t, Ok t' => same_registry t t'
  | Raise x, Raise x' => x = x'
  | _, _ => False
  end.
Proof.
  destruct s, s'. unfold same_registry. simpl.
  intros (-> & -> & -> & -> & -> & -> & ->).
  unfold set_player_role, get_player_info_from_csv. simpl.
  destruct (split_paren (strip e)) as [first [second|]]; simpl.
  - destruct (endswith_rparen (strip second)); simpl;
      destruct (find_player_row _ _) as [[tn row]|]; simpl;
      repeat match goal with
             | |- context [match ?x !! ?k with _ => _ end] => destruct (x !! k)
             | |- context [if String.eqb ?a ?b then _ else _] =>
                 destruct (String.eqb a b)
             end; by repeat split.
  - destruct (find_player_row _ _) as [[tn row]|]; simpl;
      repeat match goal with
             | |- context [match ?x !! ?k with _ => _ end] => destruct (x !! k)
             | |- context [if String.eqb ?a ?b then _ else _] =>
                 destruct (String.eqb a b)
             end; by repeat split.
Qed.

Lemma set_player_roles_registry (l : list string) (s s' t : Dream11Predictor) :
  same_registry s s' → set_player_roles s l = Ok t →
  ∃ t', set_player_roles s' l = Ok t' ∧ same_registry t t'.
Proof.
  revert s s'. induction l as [|e l IH]; intros s s' Hreg Hrun; simpl in *.
  - injection Hrun as <-. eauto.
  - pose proof (set_player_role_registry s s' e Hreg) as Hstep.
    destruct (set_player_role s e) as [u|]; [|discriminate].
    destruct (set_player_role s' e) as [u'|]; [|done].
    simpl in *. by eapply IH.
Qed.

(** C8: a second run of the pipeline on the same inputs, on the predictor the
    first run left behind, returns the same prediction (scores, team,
    captain and vice-captain, totals) and leaves the same predictor
    (with the same [player_scores]). *)
Theorem predict_twice_identical (E : Externals) (self self1 : Dream11Predictor)
    (team1 team2 venue_name : string) (team1_playing11 team2_playing11 : list string)
    (out : Prediction) :
  predict_dream11 E self team1 team2 venue_name team1_playing11 team2_playing11
    = Ok (out, self1) →
  predict_dream11 E self1 team1 team2 venue_name team1_playing11 team2_playing11
    = Ok (out, self1).
Proof.
  unfold predict_dream11.
  destruct (set_player_roles self (team1_playing11 ++ team2_playing11)) as [t|] eqn:Hset;
    [|discriminate].
  simpl.
  destruct (select_dream11_team (score_players E t venue_name
              (bare_name <$> team1_playing11) (bare_name <$> team2_playing11)))
    as [sel t2] eqn:Hsel.
  intros [= <- <-].
  assert (Hreg : same_registry t t2).
  { pose proof (select_dream11_team_registry (score_players E t venue_name
      (bare_name <$> team1_playing11) (bare_name <$> team2_playing11))) as H1.
    rewrite Hsel in H1. simpl in H1.
    pose proof (score_players_registry E t venue_name
      (bare_name <$> team1_playing11) (bare_name <$> team2_playing11)) as H2.
    destruct H1 as (?&?&?&?&?&?&?), H2 as (?&?&?&?&?&?&?). repeat split; congruence. }
  destruct (set_player_roles_registry _ t t2 t Hreg
              (set_player_roles_idempotent _ _ _ Hset)) as (t' & -> & Hreg').
  simpl.
  rewrite <- (score_and_select_registry E t t' _ _ _ Hreg'), Hsel. reflexivity.
Qed.

Lemma predict_twice_identical_witness :
  match predict_dream11 no_externals squad_predictor "MI" "DC" "Wankhede"
          squad_team1 squad_team2 with
  | Ok (out, self1) =>
      predict_dream11 no_externals self1 "MI" "DC" "Wankhede" squad_team1 squad_team2
      = Ok (out, self1)
  | Raise _ => False
  end.
Proof.
  destruct (predict_dream11 no_externals squad_predictor "MI" "DC" "Wankhede"
              squad_team1 squad_team2) as [[out self1]|exn] eqn:Hrun.
  - exact (predict_twice_identical _ _ _ _ _ _ _ _ _ Hrun).
  - vm_compute in Hrun. discriminate Hrun.
Defined.

(** ** The score dictionary stays a dictionary *)

Lemma fold_left_wf {B} (step : list (string * Q) → B → list (string * Q))
    (l : list B) (scores : list (string * Q)) :
  (∀ sc b, dict_wf sc → dict_wf (step sc b)) →
  dict_wf scores → dict_wf (fold_left step l scores).
Proof.
  intros Hstep. revert scores. induction l as [|b l IH]; intros scores Hwf; simpl; auto.
Qed.

Lemma h2h_inner_wf (score_of : Json → option Q) (stats : PlayerStats)
    (player opponent : string) (scores : list (string * Q)) :
  dict_wf scores → dict_wf (h2h_inner score_of stats player scores opponent).
Proof.
  intros Hwf. unfold h2h_inner.
  destruct (h2h_of stats !! opponent) as [entry|]; [|done].
  destruct (score_of entry); [by apply dict_add_wf | done].
Qed.

(** The scores the pipeline hands to the selector hold each player once. *)
Lemma score_players_wf (E : Externals) (self : Dream11Predictor) (venue_name : string)
    (team1_players team2_players : list string) :
  dict_wf (player_scores
             (score_players E self venue_name team1_players team2_players)).
Proof.
  assert (Hh2h : ∀ s a b, dict_wf (player_scores s) →
                 dict_wf (player_scores (analyze_head_to_head E s a b))).
  { intros s a b Hwf. unfold analyze_head_to_head. simpl.
    apply fold_left_wf.
    - intros sc q Hsc. unfold h2h_bowler.
      destruct (bowler_data s !! q);
        [apply fold_left_wf; [intros; by apply h2h_inner_wf|] |];
        by apply dict_setdefault0_wf.
    - apply fold_left_wf; [|done]. intros sc q Hsc. unfold h2h_batter.
      destruct (batter_data s !! q);
        [apply fold_left_wf; [intros; by apply h2h_inner_wf|] |];
        by apply dict_setdefault0_wf. }
  unfold score_players, analyze_recent_form, analyze_venue_performance.
  cbn [player_scores set_player_scores].
  apply fold_left_wf.
  { intros sc q Hsc. rewrite form_player_setdefault. by apply dict_setdefault0_wf. }
  apply fold_left_wf.
  { intros sc q Hsc. unfold venue_player, venue_batting_try, venue_bowling_try.
    repeat match goal with
           | |- context [match ?x with _ => _ end] => destruct x
           end; repeat apply dict_add_wf; done. }
  apply Hh2h, Hh2h. simpl. apply NoDup_nil_2.
Qed.


(** * Further properties *)

(** ** [categorize_players] *)

Lemma filter_sublist_of {A} (f : A → bool) (l : list A) :
  List.filter f l `sublist_of` l.
Proof.
  induction l as [|x l IH]; simpl; [done|].
  destruct (f x); [by apply sublist_skip | by apply sublist_cons].
Qed.

Lemma category_filter_perm (self : Dream11Predictor) (l : list (string * Q)) :
  List.filter (fun e => bool_decide (category_of self e.1 = WicketKeepers)) l ++
  List.filter (fun e => bool_decide (category_of self e.1 = Batsmen)) l ++
  List.filter (fun e => bool_decide (category_of self e.1 = AllRounders)) l ++
  List.filter (fun e => bool_decide (category_of self e.1 = Bowlers)) l ≡ₚ l.
Proof.
  induction l as [|e l IH]; simpl; [done|].
  destruct (category_of self e.1); simpl.
  - etrans; [|apply Permutation_cons; [done | exact IH]].
    symmetry. apply Permutation_middle.
  - rewrite !app_assoc.
    etrans; [|apply Permutation_cons; [done | exact IH]].
    rewrite !app_assoc. symmetry. apply (Permutation_middle _ _ e).
  - rewrite app_assoc.
    etrans; [|apply Permutation_cons; [done | exact IH]].
    rewrite (app_assoc (List.filter _ l)). symmetry. apply (Permutation_middle _ _ e).
  - by apply Permutation_cons.
Qed.

(** X1: [categorize_players] splits its input: the four lists together are
    a rearrangement of the input, each list keeps the input order, and no
    entry is filed under two categories. *)
Theorem categorize_players_partition (self : Dream11Predictor)
    (sorted_players : list (string * Q)) :
  let c := categorize_players self sorted_players in
  wicket_keepers c ++ batsmen c ++ all_rounders c ++ bowlers c ≡ₚ sorted_players ∧
  (∀ cat, category_list c cat `sublist_of` sorted_players) ∧
  (∀ e cat1 cat2, e ∈ category_list c cat1 → e ∈ category_list c cat2 → cat1 = cat2).
Proof.
  intros c. unfold c. split; [|split].
  - rewrite <- (category_filter_perm self sorted_players) at 5.
    pose proof (categorize_players_list self sorted_players) as H.
    rewrite <- (H WicketKeepers), <- (H Batsmen), <- (H AllRounders), <- (H Bowlers).
    done.
  - intros cat. rewrite categorize_players_list. apply filter_sublist_of.
  - intros [p s] cat1 cat2 H1 H2.
    apply list_elem_of_In, categorize_players_In in H1 as [_ <-].
    by apply list_elem_of_In, categorize_players_In in H2 as [_ <-].
Qed.

(** ** [select_dream11_team]: order of the team, captain *)

Lemma descending_cons (x : string * Q) (l : list (string * Q)) :
  descending (x :: l) ↔ (∀ b, b ∈ l → (b.2 <= x.2)%Q) ∧ descending l.
Proof.
  unfold descending. split.
  - intros H. split.
    + intros b Hb. apply (H x b). by apply occurs_before_head.
    + intros a b Hab. apply H. by apply occurs_before_cons.
  - intros [Hx Hl] a b Hab.
    apply occurs_before_inv in Hab as [[-> Hb]|Hab]; auto.
Qed.

Lemma descending_nil : descending [].
Proof. intros a b ([|? ?] & ? & ? & ?); discriminate. Qed.

Lemma insert_desc_descending (x : string * Q) (s : list (string * Q)) :
  descending s → descending (insert_desc x s).
Proof.
  induction s as [|y s IH]; intros Hs; simpl.
  - apply descending_cons. split; [by intros b ?%elem_of_nil | apply descending_nil].
  - apply descending_cons in Hs as [Hy Hs].
    destruct (Qle_bool y.2 x.2) eqn:Hle.
    + apply Qle_bool_iff in Hle. apply descending_cons. split.
      * intros b [->|Hb]%elem_of_cons; [done|].
        eapply Qle_trans; [by apply Hy | done].
      * by apply descending_cons.
    + assert (Hxy : (x.2 <= y.2)%Q).
      { apply Qlt_le_weak, Qnot_le_lt. intros Hc. apply Qle_bool_iff in Hc. congruence. }
      apply descending_cons. split; [|by apply IH].
      intros b Hb. rewrite insert_desc_perm in Hb.
      apply elem_of_cons in Hb as [->|Hb]; auto.
Qed.

Lemma sorted_desc_descending (l : list (string * Q)) : descending (sorted_desc l).
Proof.
  unfold sorted_desc. induction l as [|x l IH]; simpl.
  - apply descending_nil.
  - by apply insert_desc_descending.
Qed.

Lemma occurs_before_sublist {A} (a b : A) (l1 l2 : list A) :
  l1 `sublist_of` l2 → occurs_before a b l1 → occurs_before a b l2.
Proof.
  induction 1 as [|x l1 l2 Hsub IH|x l1 l2 Hsub IH]; intros Hb.
  - done.
  - apply occurs_before_inv in Hb as [[-> Hin]|Hb].
    + apply occurs_before_head. by eapply elem_of_sublist.
    + by apply occurs_before_cons, IH.
  - by apply occurs_before_cons, IH.
Qed.

Lemma descending_sublist (l1 l2 : list (string * Q)) :
  l1 `sublist_of` l2 → descending l2 → descending l1.
Proof. intros Hsub H2 a b Hab. apply H2. by eapply occurs_before_sublist. Qed.

Lemma select_team_sublist (self : Dream11Predictor) :
  team (select_dream11_team self).1 `sublist_of` sorted_desc (player_scores self).
Proof.
  destruct (select_dream11_team_result self) as (-> & _).
  destruct (select_loop_sublist self (sorted_desc (player_scores self)) sel_init)
    as (l' & -> & Hsub). done.
Qed.

(** X2: the team comes out in descending order of score, every selected
    entry is an entry of [player_scores], and the captain and vice-captain
    are the first and second player of the team, hence no selected player
    scores above the captain; a team of fewer than two players has neither
    (a single selected player is not made captain). *)
Theorem captain_is_top_scorer (self : Dream11Predictor) :
  let sel := (select_dream11_team self).1 in
  descending (team sel) ∧
  (∀ e, e ∈ team sel → e ∈ player_scores self) ∧
  match team sel with
  | c :: v :: rest =>
      captain sel = Some c.1 ∧ vice_captain sel = Some v.1 ∧
      ∀ e, e ∈ v :: rest → (e.2 <= c.2)%Q
  | _ => captain sel = None ∧ vice_captain sel = None
  end.
Proof.
  intros sel. unfold sel.
  pose proof (select_team_sublist self) as Hsub.
  assert (Hdesc : descending (team (select_dream11_team self).1)).
  { eapply descending_sublist; [done | apply sorted_desc_descending]. }
  split; [done|]. split.
  { intros e He. rewrite <- (sorted_desc_perm (player_scores self)).
    by eapply elem_of_sublist. }
  destruct (select_dream11_team_result self) as (Ht & _ & _ & Hc & Hv).
  rewrite <- Ht in Hc, Hv.
  destruct (team (select_dream11_team self).1) as [|c [|v rest]]; simpl in *; try done.
  split; [done|]. split; [done|].
  by apply descending_cons in Hdesc as [Hc' _].
Qed.

(** ** [select_dream11_team]: the counters left in [self] *)

Lemma select_dream11_team_self (self : Dream11Predictor) :
  let st := select_loop self (sorted_desc (player_scores self)) sel_init in
  (select_dream11_team self).2
  = set_selection self (sel_players st) (sel_team_counts st) (sel_role_team_counts st).
Proof.
  intros st. unfold select_dream11_team. fold st. simpl.
  by destruct (sel_players st) as [|? [|? ?]].
Qed.

(** X3: after a selection run the counters stored in [self] describe the
    returned team: [self.selected_team] is the team, [self.team_counts]
    gives for each origin team its number of selected players, and
    [self.role_team_counts] the number per origin team and role. *)
Theorem selection_counters_match_team (self : Dream11Predictor) :
  let sel := (select_dream11_team self).1 in
  let self' := (select_dream11_team self).2 in
  selected_team self' = team sel ∧
  (∀ T, team_count (team_counts self') T = count_team self (team sel) T) ∧
  (∀ T R, role_team_count (role_team_counts self') T R
          = count_team_role self (team sel) T R).
Proof.
  intros sel self'. unfold sel, self'.
  destruct (select_loop_inv self (sorted_desc (player_scores self)) sel_init)
    as ([_ _ I3 I4 _ _ _ _] & _).
  { apply sel_inv_init. }
  { simpl. lia. }
  destruct (select_dream11_team_result self) as (-> & _).
  rewrite select_dream11_team_self. simpl. auto.
Qed.

(** X4: selecting again on the predictor a selection left behind returns the
    same selection and leaves the same predictor: the counters of the earlier
    run are reset, not accumulated. *)
Theorem select_again_same (self : Dream11Predictor) :
  select_dream11_team (select_dream11_team self).2 = select_dream11_team self.
Proof.
  assert (Hreg : same_registry (select_dream11_team self).2 self)
    by apply select_dream11_team_registry.
  assert (Hsc : player_scores (select_dream11_team self).2 = player_scores self).
  { unfold select_dream11_team. simpl. by destruct (sel_players _) as [|? [|? ?]]. }
  set (s2 := (select_dream11_team self).2) in *. clearbody s2.
  assert (Hs2 : ∀ a b c, set_selection s2 a b c = set_selection self a b c).
  { intros a b c. destruct Hreg as (?&?&?&?&?&?&?).
    unfold set_selection. by f_equal. }
  unfold select_dream11_team.
  rewrite Hsc, (select_loop_registry s2 self _ _ Hreg), Hs2. reflexivity.
Qed.

(** ** [select_dream11_team]: a short team cannot be extended *)

Lemma sel_le_refl (st : SelState) : sel_le st st.
Proof. repeat split; intros; try lia. apply Qle_refl. Qed.

Lemma sel_le_trans (a b c : SelState) : sel_le a b → sel_le b c → sel_le a c.
Proof.
  intros (A1 & A2 & A3 & A4) (B1 & B2 & B3 & B4). repeat split.
  - by eapply Qle_trans.
  - lia.
  - intros T. specialize (A3 T). specialize (B3 T). lia.
  - intros T R. specialize (A4 T R). specialize (B4 T R). lia.
Qed.

Lemma passes_checks_mono (self : Dream11Predictor) (st st' : SelState) (p : string) :
  sel_le st st' → passes_checks self st' p → passes_checks self st p.
Proof.
  intros (L1 & L2 & L3 & L4) (P1 & P2 & P3 & P4). repeat split.
  - specialize (L3 (team_of self p)). lia.
  - specialize (L4 (team_of self p) (_simplify_role self p)). lia.
  - eapply Qle_trans; [|exact P3]. apply Qplus_le_compat; [done | apply Qle_refl].
  - intros Hf. specialize (P4 Hf). lia.
Qed.

Lemma accepted_sel_le (self : Dream11Predictor) (st st1 : SelState)
    (p : string) (sc : Q) :
  (0 <= credits_of self p)%Q → accepted self st p sc st1 → sel_le st st1.
Proof.
  intros Hc (_ & A2 & A3 & A4 & A5). repeat split.
  - rewrite A2. rewrite <- (Qplus_0_r (sel_total_credits st)) at 1.
    apply Qplus_le_compat; [apply Qle_refl | done].
  - rewrite A3. destruct (is_foreign_of self p); lia.
  - intros T. rewrite A4. destruct (decide _); lia.
  - intros T R. rewrite A5. destruct (decide _); lia.
Qed.

Lemma same_selection_sel_le (st st1 : SelState) :
  same_selection st st1 → sel_le st st1.
Proof.
  intros (_ & A2 & A3 & A4 & A5). repeat split.
  - rewrite A2. apply Qle_refl.
  - lia.
  - intros T. rewrite A4. lia.
  - intros T R. rewrite A5. lia.
Qed.

Lemma select_loop_sel_le (self : Dream11Predictor) (l : list (string * Q))
    (st : SelState) :
  (∀ p, (0 <= credits_of self p)%Q) → sel_le st (select_loop self l st).
Proof.
  intros Hc. revert st. induction l as [|[p sc] l IH]; intros st.
  - apply sel_le_refl.
  - destruct (select_loop_step self p sc l st) as (st1 & -> & Hst1).
    assert (Hle : sel_le st st1).
    { destruct (passes_checksb self st p);
        [by eapply accepted_sel_le | by apply same_selection_sel_le]. }
    destruct (_ && _); [done|]. eapply sel_le_trans; [done | apply IH].
Qed.

Lemma select_loop_maximal (self : Dream11Predictor) (l : list (string * Q))
    (st : SelState) :
  (∀ p, (0 <= credits_of self p)%Q) →
  (length (sel_players (select_loop self l st)) < 11)%nat →
  ∀ e, e ∈ l →
    e ∈ sel_players (select_loop self l st) ∨
    ¬ passes_checks self (select_loop self l st) e.1.
Proof.
  intros Hc. revert st. induction l as [|[p sc] l IH]; intros st Hlen e He.
  - by apply elem_of_nil in He.
  - destruct (select_loop_step self p sc l st) as (st1 & Heq & Hst1).
    rewrite Heq in *.
    destruct (passes_checksb self st p) eqn:Hp; simpl in *.
    + destruct Hst1 as (A1 & _).
      destruct (length _ =? 11)%nat eqn:H11.
      { apply Nat.eqb_eq in H11. rewrite A1 in Hlen. lia. }
      apply elem_of_cons in He as [->|He]; [|by apply IH].
      left. destruct (select_loop_sublist self l st1) as (l' & -> & _).
      rewrite A1. apply elem_of_app. left. apply elem_of_app. right.
      apply list_elem_of_here.
    + apply elem_of_cons in He as [->|He]; [|by apply IH].
      right. intros Hpass. simpl in Hpass.
      assert (Hst : passes_checks self st p).
      { eapply passes_checks_mono; [|exact Hpass].
        eapply sel_le_trans; [by apply same_selection_sel_le|].
        by apply select_loop_sel_le. }
      apply passes_checksb_spec in Hst. congruence.
Qed.

(** X5: with non-negative credits, a team of fewer than eleven players is
    maximal: every scored player left out would break a constraint of the
    returned team, its origin team is full (6), or its role within that
    origin team is full, or its credits do not fit the budget left, or it is
    foreign and four foreign players are selected. *)
Theorem short_team_is_maximal (self : Dream11Predictor) (p : string) (sc : Q) :
  (∀ q, (0 <= credits_of self q)%Q) →
  let sel := (select_dream11_team self).1 in
  (length (team sel) < 11)%nat →
  (p, sc) ∈ player_scores self →
  (p, sc) ∉ team sel →
  (6 ≤ count_team self (team sel) (team_of self p))%nat ∨
  (MAX_ROLE_PER_TEAM (_simplify_role self p)
   ≤ count_team_role self (team sel) (team_of self p) (_simplify_role self p))%nat ∨
  (100 < total_credits sel + credits_of self p)%Q ∨
  (is_foreign_of self p = true ∧ (4 ≤ foreign_count sel)%nat).
Proof.
  intros Hc sel. unfold sel.
  destruct (select_dream11_team_result self) as (-> & -> & -> & _).
  set (stf := select_loop self (sorted_desc (player_scores self)) sel_init).
  intros Hlen Hin Hout.
  destruct (select_loop_inv self (sorted_desc (player_scores self)) sel_init)
    as ([_ _ I3 I4 _ _ _ _] & _).
  { apply sel_inv_init. }
  { simpl. lia. }
  fold stf in I3, I4.
  destruct (select_loop_maximal self (sorted_desc (player_scores self)) sel_init
              Hc Hlen (p, sc)) as [?|Hfail].
  { by rewrite sorted_desc_perm. }
  { done. }
  fold stf in Hfail. simpl in Hfail. unfold passes_checks in Hfail.
  rewrite I3, I4 in Hfail. unfold MAX_TEAM_PLAYERS, max_credits, max_foreign in Hfail.
  destruct (decide (6 ≤ count_team self (sel_players stf) (team_of self p))%nat);
    [by left|].
  destruct (decide (MAX_ROLE_PER_TEAM (_simplify_role self p)
                    ≤ count_team_role self (sel_players stf) (team_of self p)
                        (_simplify_role self p))%nat); [by right; left|].
  destruct (Qlt_le_dec 100 (sel_total_credits stf + credits_of self p));
    [by right; right; left|].
  right. right. right.
  destruct (is_foreign_of self p) eqn:Hf.
  - split; [done|]. destruct (decide (4 ≤ sel_foreign_count stf)%nat); [done|].
    exfalso. apply Hfail. repeat split; try lia; try done; intros _; lia.
  - exfalso. apply Hfail. repeat split; try lia; try done; intros; lia.
Qed.

Lemma short_team_is_maximal_witness :
  (6 ≤ count_team short_predictor (team (select_dream11_team short_predictor).1)
         (team_of short_predictor "Pace"))%nat ∨
  (MAX_ROLE_PER_TEAM (_simplify_role short_predictor "Pace")
   ≤ count_team_role short_predictor (team (select_dream11_team short_predictor).1)
       (team_of short_predictor "Pace") (_simplify_role short_predictor "Pace"))%nat ∨
  (100 < total_credits (select_dream11_team short_predictor).1
         + credits_of short_predictor "Pace")%Q ∨
  (is_foreign_of short_predictor "Pace" = true ∧
   (4 ≤ foreign_count (select_dream11_team short_predictor).1)%nat).
Proof.
  apply (short_team_is_maximal short_predictor "Pace" 1%Q).
  - intros q. unfold credits_of. simpl. rewrite lookup_empty. simpl. done.
  - vm_compute. lia.
  - apply list_elem_of_In. vm_compute. tauto.
  - intros Hin. apply list_elem_of_In in Hin. vm_compute in Hin.
    repeat (destruct Hin as [Hin|Hin]; [discriminate Hin|]). exact Hin.
Defined.

(** ** [ensure_minimum_requirements]: one player per affordable category *)

Lemma reserve_one_grows (self : Dream11Predictor) (category : list (string * Q))
    (st : list (string * Q) * Q * nat) :
  (∀ p, (0 <= credits_of self p)%Q) →
  (∃ l', (reserve_one self category st).1.1 = st.1.1 ++ l') ∧
  (st.1.2 <= (reserve_one self category st).1.2)%Q ∧
  (st.2 ≤ (reserve_one self category st).2)%nat.
Proof.
  intros Hc. destruct st as [[selected total] foreign].
  destruct (reserve_one_spec self category selected total foreign)
    as [-> | (p & s & _ & _ & _ & _ & ->)]; simpl.
  - split; [exists []; by rewrite app_nil_r|]. split; [apply Qle_refl | lia].
  - split; [by eexists|]. split.
    + rewrite <- (Qplus_0_r total) at 1. apply Qplus_le_compat; [apply Qle_refl | done].
    + destruct (is_foreign_of self p); lia.
Qed.

(** The inner loop over a category with an affordable candidate ends with a
    reserved player whose name is in the category. *)
Lemma reserve_one_covers (self : Dream11Predictor) (category : list (string * Q))
    (selected : list (string * Q)) (total : Q) (foreign : nat) (x : string * Q) :
  x ∈ category →
  (total + credits_of self x.1 <= 100)%Q →
  (is_foreign_of self x.1 = true → (foreign < 4)%nat) →
  ∃ y, y ∈ (reserve_one self category (selected, total, foreign)).1.1 ∧
       y.1 ∈ category.*1.
Proof.
  intros Hx Hc Hf. induction category as [|[p s] rest IH]; [by apply elem_of_nil in Hx|].
  cbn [reserve_one].
  destruct (0 <? _)%nat eqn:Hsel.
  { apply already_selected_spec in Hsel.
    apply list_elem_of_fmap in Hsel as (y & -> & Hy). exists y. split.
    - destruct (reserve_one_spec self rest selected total foreign)
        as [-> | (? & ? & _ & _ & _ & _ & ->)]; simpl; [done|].
      apply elem_of_app. by left.
    - rewrite fmap_cons. apply list_elem_of_here. }
  destruct (Qle_bool _ _ && _) eqn:Hok.
  { exists (p, s). split.
    - simpl. apply elem_of_app. right. apply list_elem_of_here.
    - rewrite fmap_cons. apply list_elem_of_here. }
  apply elem_of_cons in Hx as [->|Hx].
  { exfalso. simpl in Hc, Hf. apply andb_false_iff in Hok as [Hq|Hq].
    - apply Qle_bool_iff in Hc. congruence.
    - apply orb_false_iff in Hq as [Hq1 Hq2]. apply negb_false_iff in Hq1.
      specialize (Hf Hq1). apply Nat.ltb_ge in Hq2. lia. }
  destruct (IH Hx) as (y & Hy1 & Hy2). exists y. split; [done|].
  rewrite fmap_cons. by apply list_elem_of_further.
Qed.

(** X6: with non-negative credits the pre-pass delivers its minimum wherever
    that is affordable: if a category holds a candidate that would still fit
    the returned totals (budget and foreign cap), then some reserved player's
    name is in that category. *)
Theorem prepass_reserves_affordable_category (self : Dream11Predictor)
    (categorized : Categorized) (total0 : Q) (foreign0 : nat)
    (cat : Category) (x : string * Q) :
  (∀ p, (0 <= credits_of self p)%Q) →
  x ∈ category_list categorized cat →
  let result := ensure_minimum_requirements self categorized total0 foreign0 in
  (result.1.2 + credits_of self x.1 <= 100)%Q →
  (is_foreign_of self x.1 = true → (result.2 < 4)%nat) →
  ∃ y, y ∈ result.1.1 ∧ y.1 ∈ (category_list categorized cat).*1.
Proof.
  intros Hc Hx result. unfold result, ensure_minimum_requirements. cbn [fold_left].
  set (st0 := ([], total0, foreign0) : list (string * Q) * Q * nat).
  set (st1 := reserve_one self (category_list categorized WicketKeepers) st0).
  set (st2 := reserve_one self (category_list categorized Batsmen) st1).
  set (st3 := reserve_one self (category_list categorized AllRounders) st2).
  set (st4 := reserve_one self (category_list categorized Bowlers) st3).
  destruct (reserve_one_grows self (category_list categorized WicketKeepers) st0 Hc)
    as ((l1 & G1) & T1 & F1). fold st1 in G1, T1, F1.
  destruct (reserve_one_grows self (category_list categorized Batsmen) st1 Hc)
    as ((l2 & G2) & T2 & F2). fold st2 in G2, T2, F2.
  destruct (reserve_one_grows self (category_list categorized AllRounders) st2 Hc)
    as ((l3 & G3) & T3 & F3). fold st3 in G3, T3, F3.
  destruct (reserve_one_grows self (category_list categorized Bowlers) st3 Hc)
    as ((l4 & G4) & T4 & F4). fold st4 in G4, T4, F4.
  intros Hbudget Hforeign.
  assert (Hcover : ∀ st, (st.1.2 <= st4.1.2)%Q → (st.2 ≤ st4.2)%nat →
    ∃ y, y ∈ (reserve_one self (category_list categorized cat) st).1.1 ∧
         y.1 ∈ (category_list categorized cat).*1).
  { intros [[sel tot] fc] Ht Hf. simpl in Ht, Hf.
    apply (reserve_one_covers self _ sel tot fc x Hx).
    - eapply Qle_trans; [|exact Hbudget].
      apply Qplus_le_compat; [done | apply Qle_refl].
    - intros Hfx. specialize (Hforeign Hfx). lia. }
  destruct cat.
  - destruct (Hcover st1) as (y & Hy & Hn).
    { eapply Qle_trans; [exact T2|]. eapply Qle_trans; [exact T3 | exact T4]. }
    { lia. }
    fold st2 in Hy. exists y. split; [|done].
    rewrite G4, G3. apply elem_of_app. left. apply elem_of_app. by left.
  - destruct (Hcover st3) as (y & Hy & Hn); [exact T4 | lia |].
    fold st4 in Hy. by exists y.
  - destruct (Hcover st2) as (y & Hy & Hn);
      [eapply Qle_trans; [exact T3 | exact T4] | lia |].
    fold st3 in Hy. exists y. split; [|done].
    rewrite G4. apply elem_of_app. by left.
  - destruct (Hcover st0) as (y & Hy & Hn).
    { eapply Qle_trans; [exact T1|]. eapply Qle_trans; [exact T2|].
      eapply Qle_trans; [exact T3 | exact T4]. }
    { lia. }
    fold st1 in Hy. exists y. split; [|done].
    rewrite G4, G3, G2. apply elem_of_app. left. apply elem_of_app. left.
    apply elem_of_app. by left.
Qed.

Lemma prepass_reserves_affordable_category_witness :
  ∃ y, y ∈ (ensure_minimum_requirements unknown_roles_predictor
              (categorize_players unknown_roles_predictor prepass_candidates)
              0 0).1.1 ∧
       y.1 ∈ (category_list
                (categorize_players unknown_roles_predictor prepass_candidates)
                Bowlers).*1.
Proof.
  apply (prepass_reserves_affordable_category unknown_roles_predictor
           (categorize_players unknown_roles_predictor prepass_candidates)
           0%Q 0 Bowlers ("Pace", 1%Q)).
  - intros q. unfold credits_of. simpl. rewrite lookup_empty. simpl. done.
  - apply list_elem_of_In. vm_compute. tauto.
  - vm_compute. discriminate.
  - intros _. vm_compute. lia.
Defined.

(** ** Scoring: which players get a score, and in which order *)

Lemma dict_has_keys (d : list (string * Q)) (k : string) :
  dict_has d k = bool_decide (k ∈ d.*1).
Proof.
  unfold dict_has. destruct (dict_get d k) as [v|] eqn:Hk.
  - rewrite bool_decide_eq_true_2 by eauto. symmetry. apply bool_decide_eq_true_2.
    destruct (decide (k ∈ d.*1)) as [|Hn]; [done|].
    apply dict_get_None_keys in Hn. congruence.
  - rewrite bool_decide_eq_false_2 by (by intros [? ?]). symmetry.
    apply bool_decide_eq_false_2. by apply dict_get_None_keys.
Qed.

Lemma dict_setdefault0_keys (d : list (string * Q)) (k : string) :
  (dict_setdefault0 d k).*1 = add_key d.*1 k.
Proof.
  unfold dict_setdefault0, add_key. rewrite <- dict_has_keys.
  destruct (dict_has d k) eqn:Hk; [done|]. by rewrite dict_set_keys, Hk.
Qed.

Lemma dict_add_keys (d : list (string * Q)) (k : string) (x : Q) :
  (dict_add d k x).*1 = d.*1.
Proof.
  unfold dict_add. destruct (dict_get d k) as [v|] eqn:Hk; [|done].
  rewrite dict_set_keys. unfold dict_has. rewrite Hk.
  by rewrite bool_decide_eq_true_2 by eauto.
Qed.

Lemma fold_left_keys {B} (step : list (string * Q) → B → list (string * Q))
    (f : list string → B → list string) (l : list B) (scores : list (string * Q)) :
  (∀ sc b, (step sc b).*1 = f sc.*1 b) →
  (fold_left step l scores).*1 = fold_left f l scores.*1.
Proof.
  intros H. revert scores. induction l as [|b l IH]; intros scores; simpl; [done|].
  by rewrite IH, H.
Qed.

Lemma h2h_inner_keys (score_of : Json → option Q) (stats : PlayerStats)
    (player opponent : string) (scores : list (string * Q)) :
  (h2h_inner score_of stats player scores opponent).*1 = scores.*1.
Proof.
  unfold h2h_inner. destruct (h2h_of stats !! opponent) as [entry|]; [|done].
  destruct (score_of entry); [apply dict_add_keys | done].
Qed.

Lemma analyze_head_to_head_keys (E : Externals) (self : Dream11Predictor)
    (team1_players team2_players : list string) :
  (player_scores (analyze_head_to_head E self team1_players team2_players)).*1
  = fold_left add_key (team1_players ++ team2_players) (player_scores self).*1.
Proof.
  unfold analyze_head_to_head. simpl. rewrite fold_left_app.
  rewrite (fold_left_keys _ add_key).
  2: { intros sc q. unfold h2h_bowler. destruct (bowler_data self !! q).
       - rewrite (fold_left_keys _ (fun ks _ => ks)) by (intros; apply h2h_inner_keys).
         rewrite fold_left_noop by done. apply dict_setdefault0_keys.
       - apply dict_setdefault0_keys. }
  f_equal. apply (fold_left_keys _ add_key).
  intros sc q. unfold h2h_batter. destruct (batter_data self !! q).
  - rewrite (fold_left_keys _ (fun ks _ => ks)) by (intros; apply h2h_inner_keys).
    rewrite fold_left_noop by done. apply dict_setdefault0_keys.
  - apply dict_setdefault0_keys.
Qed.

Lemma analyze_venue_performance_keys (E : Externals) (self : Dream11Predictor)
    (venue_name : string) (players : list string) :
  (player_scores (analyze_venue_performance E self venue_name players)).*1
  = (player_scores self).*1.
Proof.
  unfold analyze_venue_performance. simpl.
  rewrite (fold_left_keys _ (fun ks _ => ks)); [by rewrite fold_left_noop|].
  intros sc q. unfold venue_player, venue_batting_try, venue_bowling_try.
  repeat match goal with
         | |- context [match ?x with _ => _ end] => destruct x
         end; by rewrite ?dict_add_keys.
Qed.

Lemma analyze_recent_form_keys (E : Externals) (self : Dream11Predictor)
    (players : list string) :
  (player_scores (analyze_recent_form E self players)).*1
  = fold_left add_key players (player_scores self).*1.
Proof.
  unfold analyze_recent_form. simpl. apply fold_left_keys.
  intros sc q. rewrite form_player_setdefault. apply dict_setdefault0_keys.
Qed.

Lemma first_seen_elem (l : list string) (x : string) : x ∈ first_seen l ↔ x ∈ l.
Proof.
  induction l as [|y l IH]; simpl; [done|].
  rewrite !elem_of_cons, <- IH, !list_elem_of_In, filter_In, <- !list_elem_of_In.
  destruct (String.eqb_spec x y) as [->|Hne]; simpl; [tauto|].
  split; [tauto|]. intros [?|?]; [done|]. right. split; [done|]. done.
Qed.

Lemma filter_unseen_drop (acc k : list string) (x : string) :
  x ∈ acc →
  List.filter (fun y => bool_decide (y ∉ acc))
    (List.filter (fun y => negb (String.eqb y x)) k)
  = List.filter (fun y => bool_decide (y ∉ acc)) k.
Proof.
  intros Hin. induction k as [|y k IHk]; simpl; [done|].
  destruct (String.eqb_spec y x) as [->|Hne]; simpl.
  - by rewrite (bool_decide_eq_false_2 (x ∉ acc)) by tauto.
  - by rewrite IHk.
Qed.

Lemma filter_unseen_snoc (acc k : list string) (x : string) :
  List.filter (fun y => bool_decide (y ∉ acc ++ [x])) k
  = List.filter (fun y => bool_decide (y ∉ acc))
      (List.filter (fun y => negb (String.eqb y x)) k).
Proof.
  induction k as [|y k IHk]; simpl; [done|].
  destruct (String.eqb_spec y x) as [->|Hne]; simpl.
  - rewrite bool_decide_eq_false_2; [done|].
    intros Hn. apply Hn. apply elem_of_app. right. apply list_elem_of_here.
  - rewrite IHk. destruct (decide (y ∈ acc)) as [Hy|Hy].
    + rewrite (bool_decide_eq_false_2 (y ∉ acc ++ [x])).
      2: { intros Hn. apply Hn. apply elem_of_app. by left. }
      by rewrite (bool_decide_eq_false_2 (y ∉ acc)) by tauto.
    + rewrite (bool_decide_eq_true_2 (y ∉ acc ++ [x])).
      2: { intros [?|?%list_elem_of_singleton]%elem_of_app; congruence. }
      by rewrite (bool_decide_eq_true_2 (y ∉ acc)) by done.
Qed.

Lemma fold_add_key_seen (l acc : list string) :
  fold_left add_key l acc
  = acc ++ List.filter (fun y => bool_decide (y ∉ acc)) (first_seen l).
Proof.
  revert acc. induction l as [|x l IH]; intros acc; simpl; [by rewrite app_nil_r|].
  rewrite IH. unfold add_key. destruct (decide (x ∈ acc)) as [Hin|Hout].
  - rewrite (bool_decide_eq_true_2 (x ∈ acc)) by done.
    rewrite (bool_decide_eq_false_2 (x ∉ acc)) by tauto.
    by rewrite filter_unseen_drop.
  - rewrite (bool_decide_eq_false_2 (x ∈ acc)) by done.
    rewrite (bool_decide_eq_true_2 (x ∉ acc)) by done.
    rewrite <- app_assoc. simpl. by rewrite filter_unseen_snoc.
Qed.

Lemma fold_add_key_present (l acc : list string) :
  (∀ x, x ∈ l → x ∈ acc) → fold_left add_key l acc = acc.
Proof.
  revert acc. induction l as [|x l IH]; intros acc H; simpl; [done|].
  unfold add_key at 2. rewrite bool_decide_eq_true_2.
  - apply IH. intros y Hy. apply H. by apply list_elem_of_further.
  - apply H. apply list_elem_of_here.
Qed.

Lemma score_players_keys (E : Externals) (self : Dream11Predictor)
    (venue_name : string) (team1_players team2_players : list string) :
  (player_scores
     (score_players E self venue_name team1_players team2_players)).*1
  = first_seen (team1_players ++ team2_players).
Proof.
  unfold score_players.
  rewrite analyze_recent_form_keys, analyze_venue_performance_keys.
  rewrite !analyze_head_to_head_keys. simpl.
  set (K := fold_left add_key (team1_players ++ team2_players) []).
  assert (HK : K = first_seen (team1_players ++ team2_players)).
  { unfold K. rewrite fold_add_key_seen. simpl.
    induction (first_seen _) as [|y k IHk]; simpl; [done|]. by f_equal. }
  assert (Hin : ∀ x, x ∈ team1_players ++ team2_players → x ∈ K).
  { intros x Hx. rewrite HK. by apply first_seen_elem. }
  rewrite (fold_add_key_present (team2_players ++ team1_players)).
  2: { intros x Hx. apply Hin. rewrite elem_of_app in *. tauto. }
  by rewrite fold_add_key_present.
Qed.

(** X7: after the four analysis calls of a prediction, [player_scores] holds
    exactly the players named in the two playing elevens, each once, in the
    order of their first appearance (first eleven first); this is the order
    that breaks ties in the selection. *)
Theorem scored_players_are_the_match (E : Externals) (self : Dream11Predictor)
    (venue_name : string) (team1_players team2_players : list string) :
  let scores :=
    player_scores (score_players E self venue_name team1_players team2_players) in
  scores.*1 = first_seen (team1_players ++ team2_players) ∧
  NoDup scores.*1 ∧
  (∀ p, p ∈ scores.*1 ↔ p ∈ team1_players ++ team2_players).
Proof.
  intros scores. unfold scores. split; [apply score_players_keys|].
  split; [apply score_players_wf|].
  intros p. rewrite score_players_keys. apply first_seen_elem.
Qed.

(** ** [analyze_recent_form] on any input *)

(** X8: whatever the caches and whatever the table reader returns, the
    recent-form pass changes no score that is already set; a listed player
    without a score gets 0, and nobody else gets an entry. *)
Theorem recent_form_only_initialises (E : Externals) (self : Dream11Predictor)
    (players : list string) (p : string) :
  dict_get (player_scores (analyze_recent_form E self players)) p
  = match dict_get (player_scores self) p with
    | Some v => Some v
    | None => if bool_decide (p ∈ players) then Some 0%Q else None
    end.
Proof.
  rewrite analyze_recent_form_get. unfold init0.
  by destruct (dict_get (player_scores self) p), (bool_decide (p ∈ players)).
Qed.

(** ** A player listed once *)

Lemma fold_players_frame (step : list (string * Q) → string → list (string * Q))
    (p : string) (players : list string) (scores : list (string * Q)) :
  (∀ sc q, q ≠ p → dict_get (step sc q) p = dict_get sc p) →
  p ∉ players →
  dict_get (fold_left step players scores) p = dict_get scores p.
Proof.
  intros Hframe. revert scores.
  induction players as [|q players IH]; intros scores Hp; simpl; [done|].
  apply not_elem_of_cons in Hp as [Hne Hp]. rewrite IH by done.
  apply Hframe. congruence.
Qed.

(** In a fold over players without repetition, the entry of [p] ends as the
    step of [p] leaves it, run on scores in which [p] still has its initial
    entry. *)
Lemma fold_players_once (step : list (string * Q) → string → list (string * Q))
    (p : string) (players : list string) (scores : list (string * Q)) :
  (∀ sc q, q ≠ p → dict_get (step sc q) p = dict_get sc p) →
  NoDup players → p ∈ players →
  ∃ sc', dict_get sc' p = dict_get scores p ∧
         dict_get (fold_left step players scores) p = dict_get (step sc' p) p.
Proof.
  intros Hframe Hnd Hin.
  apply list_elem_of_split in Hin as (pre & post & ->).
  apply NoDup_app in Hnd as (_ & Hpre & Hpost).
  apply NoDup_cons in Hpost as (Hpost & _).
  exists (fold_left step pre scores). split.
  - apply fold_players_frame; [done|]. intros Hp. apply (Hpre p Hp), list_elem_of_here.
  - rewrite fold_left_app. simpl. by apply fold_players_frame.
Qed.

(** ** [analyze_venue_performance]: batting and bowling add up *)

(** X9: the venue pass is cumulative.  For a player listed once who has a
    score, a batting venue row (average, strike rate) and a bowling venue row
    (wickets, economy), it adds average/20 + strike_rate/100 and then
    wickets×3 + (10 − min(economy, 10)). *)
Theorem venue_bonus_cumulative (E : Externals) (self : Dream11Predictor)
    (venue_name : string) (players : list string) (p : string) (v : Q)
    (bs ws : PlayerStats) (bt wt : string) (cb cw : string → option Q)
    (avg strike_rate wickets economy : Q) :
  NoDup players → p ∈ players →
  dict_get (player_scores self) p = Some v →
  batter_data self !! p = Some bs → venue_table bs "Batting" = Some bt →
  read_venue_row E bt venue_name = PdRow cb →
  cb "Average" = Some avg → cb "Strike Rate" = Some strike_rate →
  bowler_data self !! p = Some ws → venue_table ws "Bowling" = Some wt →
  read_venue_row E wt venue_name = PdRow cw →
  cw "Wickets" = Some wickets → cw "Economy" = Some economy →
  dict_get (player_scores (analyze_venue_performance E self venue_name players)) p
  = Some (v + ((avg / 20) + (strike_rate / 100))
            + ((wickets * 3) + (10 - Qmin economy 10)))%Q.
Proof.
  intros Hnd Hin Hv Hb Hbt Hrb Ha Hs Hw Hwt Hrw Hk He.
  unfold analyze_venue_performance. simpl.
  destruct (fold_players_once (venue_player E self venue_name) p players
              (player_scores self)) as (sc' & Hsc' & ->); try done.
  { intros. by apply venue_player_frame. }
  rewrite Hv in Hsc'.
  unfold venue_player, venue_batting_try, venue_bowling_try.
  rewrite Hb, Hbt, Hrb, Ha, Hs, Hw, Hwt, Hrw, Hk, He.
  apply dict_get_add_eq. by apply dict_get_add_eq.
Qed.

Lemma venue_bonus_cumulative_witness :
  dict_get (player_scores
              (analyze_venue_performance venue_externals venue_predictor
                 "Wankhede" ["Other"; "Both"])) "Both"
  = Some (1 + ((40 / 20) + (150 / 100)) + ((2 * 3) + (10 - Qmin 8 10)))%Q.
Proof.
  eapply (venue_bonus_cumulative venue_externals venue_predictor "Wankhede"
            ["Other"; "Both"] "Both" 1%Q).
  - apply (bool_decide_unpack _). vm_compute. exact I.
  - apply list_elem_of_In. vm_compute. tauto.
  - reflexivity.
  - vm_compute. reflexivity.
  - vm_compute. reflexivity.
  - reflexivity.
  - reflexivity.
  - reflexivity.
  - vm_compute. reflexivity.
  - vm_compute. reflexivity.
  - reflexivity.
  - reflexivity.
  - reflexivity.
Defined.

(** ** [analyze_head_to_head] called in both directions *)

Lemma h2h_fold_sum (score_of : Json → option Q) (stats : PlayerStats)
    (p : string) (opponents : list string) (scores : list (string * Q)) (v : Q) :
  dict_get scores p = Some v →
  ∃ r, dict_get (fold_left (h2h_inner score_of stats p) opponents scores) p = Some r ∧
       (r == v + foldr (fun o acc =>
                  match h2h_of stats !! o with
                  | Some entry => default 0 (score_of entry)
                  | None => 0
                  end + acc) 0 opponents)%Q.
Proof.
  revert scores v. induction opponents as [|o l IH]; intros scores v Hv; simpl.
  - exists v. split; [done | ring].
  - unfold h2h_inner at 2.
    destruct (h2h_of stats !! o) as [entry|]; [destruct (score_of entry) as [x|]|].
    + destruct (IH (dict_add scores p x) (v + x)%Q) as (r & Hr & Hq).
      { by apply dict_get_add_eq. }
      exists r. split; [done|]. rewrite Hq. simpl. ring.
    + destruct (IH scores v Hv) as (r & Hr & Hq).
      exists r. split; [done|]. rewrite Hq. simpl. ring.
    + destruct (IH scores v Hv) as (r & Hr & Hq).
      exists r. split; [done|]. rewrite Hq. ring.
Qed.

Lemma h2h_sum_absent (score_of : Json → option Q) (data : gmap string PlayerStats)
    (p : string) (opponents : list string) :
  data !! p = None → (h2h_sum score_of data p opponents == 0)%Q.
Proof.
  intros Hp. unfold h2h_sum, pair_score. rewrite Hp.
  induction opponents as [|o l IH]; simpl; [reflexivity|]. rewrite IH. ring.
Qed.

Lemma h2h_batter_sum (E : Externals) (self : Dream11Predictor)
    (opponents : list string) (scores : list (string * Q)) (p : string) :
  ∃ r, dict_get (h2h_batter self opponents scores p) p = Some r ∧
       (r == default 0 (dict_get scores p)
             + h2h_sum batting_h2h_score (batter_data self) p opponents)%Q.
Proof.
  unfold h2h_batter.
  pose proof (dict_get_setdefault0_eq scores p) as H0.
  destruct (batter_data self !! p) as [stats|] eqn:Hp.
  - destruct (h2h_fold_sum batting_h2h_score stats p opponents _ _ H0) as (r & Hr & Hq).
    exists r. split; [done|]. rewrite Hq. unfold h2h_sum, pair_score. by rewrite Hp.
  - eexists. split; [done|]. rewrite h2h_sum_absent by done. ring.
Qed.

Lemma h2h_bowler_sum (E : Externals) (self : Dream11Predictor)
    (opponents : list string) (scores : list (string * Q)) (p : string) :
  ∃ r, dict_get (h2h_bowler E self opponents scores p) p = Some r ∧
       (r == default 0 (dict_get scores p)
             + h2h_sum (bowling_h2h_score E) (bowler_data self) p opponents)%Q.
Proof.
  unfold h2h_bowler.
  pose proof (dict_get_setdefault0_eq scores p) as H0.
  destruct (bowler_data self !! p) as [stats|] eqn:Hp.
  - destruct (h2h_fold_sum (bowling_h2h_score E) stats p opponents _ _ H0)
      as (r & Hr & Hq).
    exists r. split; [done|]. rewrite Hq. unfold h2h_sum, pair_score. by rewrite Hp.
  - eexists. split; [done|]. rewrite h2h_sum_absent by done. ring.
Qed.

(** One call, seen from a player of the first list who is not in the second:
    scored as a batter against the second list. *)
Lemma analyze_head_to_head_as_batter (E : Externals) (self : Dream11Predictor)
    (batters bowlers_ : list string) (p : string) :
  NoDup batters → p ∈ batters → p ∉ bowlers_ →
  ∃ r, dict_get (player_scores (analyze_head_to_head E self batters bowlers_)) p
       = Some r ∧
       (r == default 0 (dict_get (player_scores self) p)
             + h2h_sum batting_h2h_score (batter_data self) p bowlers_)%Q.
Proof.
  intros Hnd Hin Hout. unfold analyze_head_to_head. simpl.
  rewrite fold_players_frame; [|intros; by apply h2h_bowler_frame | done].
  destruct (fold_players_once (h2h_batter self bowlers_) p batters (player_scores self))
    as (sc' & Hsc' & ->); try done.
  { intros. by apply h2h_batter_frame. }
  destruct (h2h_batter_sum E self bowlers_ sc' p) as (r & Hr & Hq).
  exists r. split; [done|]. by rewrite Hq, Hsc'.
Qed.

(** One call, seen from a player of the second list who is not in the first:
    scored as a bowler against the first list. *)
Lemma analyze_head_to_head_as_bowler (E : Externals) (self : Dream11Predictor)
    (batters bowlers_ : list string) (p : string) :
  NoDup bowlers_ → p ∈ bowlers_ → p ∉ batters →
  ∃ r, dict_get (player_scores (analyze_head_to_head E self batters bowlers_)) p
       = Some r ∧
       (r == default 0 (dict_get (player_scores self) p)
             + h2h_sum (bowling_h2h_score E) (bowler_data self) p batters)%Q.
Proof.
  intros Hnd Hin Hout. unfold analyze_head_to_head. simpl.
  destruct (fold_players_once (h2h_bowler E self batters) p bowlers_
              (fold_left (h2h_batter self bowlers_) batters (player_scores self)))
    as (sc' & Hsc' & ->); try done.
  { intros. by apply h2h_bowler_frame. }
  rewrite fold_players_frame in Hsc'; [|intros; by apply h2h_batter_frame | done].
  destruct (h2h_bowler_sum E self batters sc' p) as (r & Hr & Hq).
  exists r. split; [done|]. by rewrite Hq, Hsc'.
Qed.

(** X10: the two head-to-head calls of a prediction score every player in
    both capacities against the opposing eleven.  For two elevens without
    repeated names and with no common player, a player's score after the two
    calls is the sum of the batting contributions against each opponent and
    of the bowling contributions against each opponent. *)
Theorem head_to_head_both_directions (E : Externals) (self : Dream11Predictor)
    (team1_players team2_players : list string) (p : string) :
  NoDup team1_players → NoDup team2_players →
  (∀ x, x ∈ team1_players → x ∉ team2_players) →
  p ∈ team1_players ++ team2_players →
  let opponents :=
    if bool_decide (p ∈ team1_players) then team2_players else team1_players in
  ∃ v,
    dict_get (player_scores
                (analyze_head_to_head E
                   (analyze_head_to_head E (set_player_scores self [])
                      team1_players team2_players)
                   team2_players team1_players)) p = Some v ∧
    (v == h2h_sum batting_h2h_score (batter_data self) p opponents
          + h2h_sum (bowling_h2h_score E) (bowler_data self) p opponents)%Q.
Proof.
  intros Hnd1 Hnd2 Hdisj Hin opponents. unfold opponents.
  set (s0 := set_player_scores self []).
  set (s1 := analyze_head_to_head E s0 team1_players team2_players).
  destruct (decide (p ∈ team1_players)) as [H1|H1].
  - rewrite bool_decide_eq_true_2 by done.
    assert (H2 : p ∉ team2_players) by auto.
    destruct (analyze_head_to_head_as_batter E s0 team1_players team2_players p)
      as (r1 & Hr1 & Hq1); try done.
    destruct (analyze_head_to_head_as_bowler E s1 team2_players team1_players p)
      as (r2 & Hr2 & Hq2); try done.
    exists r2. split; [done|]. fold s1 in Hr1. rewrite Hr1 in Hq2.
    rewrite Hq2. simpl. rewrite Hq1. simpl. ring.
  - rewrite bool_decide_eq_false_2 by done.
    assert (H2 : p ∈ team2_players).
    { apply elem_of_app in Hin as [?|?]; [done | done]. }
    destruct (analyze_head_to_head_as_bowler E s0 team1_players team2_players p)
      as (r1 & Hr1 & Hq1); try done.
    destruct (analyze_head_to_head_as_batter E s1 team2_players team1_players p)
      as (r2 & Hr2 & Hq2); try done.
    exists r2. split; [done|]. fold s1 in Hr1. rewrite Hr1 in Hq2.
    rewrite Hq2. simpl. rewrite Hq1. simpl. ring.
Qed.

Lemma head_to_head_both_directions_witness :
  ∃ v,
    dict_get (player_scores
                (analyze_head_to_head no_externals
                   (analyze_head_to_head no_externals
                      (set_player_scores h2h_predictor []) ghost_team1 ghost_team2)
                   ghost_team2 ghost_team1)) "Flag" = Some v ∧
    (v == h2h_sum batting_h2h_score (batter_data h2h_predictor) "Flag" ghost_team1
          + h2h_sum (bowling_h2h_score no_externals) (bowler_data h2h_predictor)
              "Flag" ghost_team1)%Q.
Proof.
  apply (head_to_head_both_directions no_externals h2h_predictor
           ghost_team1 ghost_team2 "Flag").
  - apply (bool_decide_unpack _). vm_compute. exact I.
  - apply (bool_decide_unpack _). vm_compute. exact I.
  - intros x Hx Hy. apply list_elem_of_In in Hx, Hy. vm_compute in Hx, Hy.
    destruct Hx as [<-|[<-|[]]]; destruct Hy as [Hy|[Hy|[]]]; discriminate Hy.
  - apply list_elem_of_In. vm_compute. tauto.
Defined.

(** ** Strings as character lists *)

Lemma chars_inj (s1 s2 : string) : chars s1 = chars s2 → s1 = s2.
Proof.
  intros H. rewrite <- (string_of_list_ascii_of_string s1).
  rewrite <- (string_of_list_ascii_of_string s2). unfold chars in H. by rewrite H.
Qed.

Lemma chars_app (s1 s2 : string) : chars (s1 +:+ s2) = chars s1 ++ chars s2.
Proof. induction s1 as [|c s1 IH]; simpl; [done|]. unfold chars in *. simpl. by rewrite IH. Qed.

Lemma chars_rev_app (s1 s2 : string) :
  chars (String.rev_app s1 s2) = rev (chars s1) ++ chars s2.
Proof.
  revert s2. induction s1 as [|c s1 IH]; intros s2; simpl; [done|].
  rewrite IH. unfold chars. simpl. by rewrite <- app_assoc.
Qed.

Lemma chars_rev (s : string) : chars (String.rev s) = rev (chars s).
Proof. unfold String.rev. rewrite chars_rev_app. unfold chars. simpl. by rewrite app_nil_r. Qed.

Lemma chars_lstrip (s : string) : chars (lstrip s) = lstripL (chars s).
Proof.
  induction s as [|c s IH]; simpl; [done|].
  unfold chars in *. simpl. by destruct (is_ws c).
Qed.

Lemma chars_rstrip (s : string) : chars (rstrip s) = rstripL (chars s).
Proof. unfold rstrip, rstripL. by rewrite chars_rev, chars_lstrip, chars_rev. Qed.

Lemma chars_strip (s : string) : chars (strip s) = stripL (chars s).
Proof. unfold strip, stripL. by rewrite chars_rstrip, chars_lstrip. Qed.

Lemma chars_split_paren (s : string) :
  chars (split_paren s).1 = (splitL (chars s)).1 ∧
  chars <$> (split_paren s).2 = (splitL (chars s)).2.
Proof.
  induction s as [|c s [IH1 IH2]]; simpl; [done|].
  unfold chars in *. simpl. destruct (Ascii.eqb c "("); [done|].
  destruct (split_paren s) as [a b], (splitL (list_ascii_of_string s)) as [a' b'].
  simpl in *. by rewrite IH1.
Qed.

Lemma chars_endswith_rparen (s : string) : endswith_rparen s = endsL (chars s).
Proof.
  unfold endswith_rparen, endsL. rewrite <- chars_rev.
  by destruct (String.rev s).
Qed.

(** ** Facts on the list versions *)

Lemma lstripL_app_stop (x z : list Ascii.ascii) (y : Ascii.ascii) :
  is_ws y = false → lstripL (x ++ y :: z) = lstripL x ++ y :: z.
Proof.
  intros Hy. induction x as [|c x IH]; simpl.
  - by rewrite Hy.
  - by destruct (is_ws c).
Qed.

Lemma lstripL_idem (l : list Ascii.ascii) : lstripL (lstripL l) = lstripL l.
Proof.
  induction l as [|c l IH]; simpl; [done|].
  destruct (is_ws c) eqn:Hc; [done|]. simpl. by rewrite Hc.
Qed.

Lemma lstripL_suffix (l : list Ascii.ascii) : ∃ w, l = w ++ lstripL l.
Proof.
  induction l as [|c l [w IH]]; simpl; [by exists []|].
  destruct (is_ws c); [|by exists []]. exists (c :: w). simpl. by f_equal.
Qed.

Lemma rstripL_prefix (l : list Ascii.ascii) : ∃ w, l = rstripL l ++ w.
Proof.
  unfold rstripL. destruct (lstripL_suffix (rev l)) as [w Hw].
  exists (rev w). rewrite <- rev_app_distr, <- Hw. by rewrite rev_involutive.
Qed.

Lemma rstripL_app_stop (x z : list Ascii.ascii) (y : Ascii.ascii) :
  is_ws y = false → rstripL (x ++ y :: z) = x ++ y :: rstripL z.
Proof.
  intros Hy. unfold rstripL. rewrite rev_app_distr. simpl. rewrite <- app_assoc. simpl.
  rewrite lstripL_app_stop by done. rewrite rev_app_distr. simpl.
  by rewrite rev_involutive, <- app_assoc.
Qed.

Lemma splitL_spec (l : list Ascii.ascii) :
  match splitL l with
  | (a, Some b) => l = a ++ "("%char :: b ∧ "("%char ∉ a
  | (a, None) => a = l ∧ "("%char ∉ l
  end.
Proof.
  induction l as [|c l IH]; simpl.
  - split; [done | apply not_elem_of_nil].
  - destruct (Ascii.eqb_spec c "("%char) as [->|Hne].
    + split; [done | apply not_elem_of_nil].
    + destruct (splitL l) as [a [b|]].
      * destruct IH as [-> Ha]. split; [done|].
        apply not_elem_of_cons. split; [congruence | done].
      * destruct IH as [-> Ha]. split; [done|].
        apply not_elem_of_cons. split; [congruence | done].
Qed.

Lemma splitL_paren (a b : list Ascii.ascii) :
  "("%char ∉ a → splitL (a ++ "("%char :: b) = (a, Some b).
Proof.
  induction a as [|c a IH]; intros Ha; simpl; [done|].
  apply not_elem_of_cons in Ha as [Hc Ha].
  destruct (Ascii.eqb_spec c "("%char) as [->|Hne]; [done|]. by rewrite IH.
Qed.

Lemma splitL_none (l : list Ascii.ascii) : "("%char ∉ l → splitL l = (l, None).
Proof.
  induction l as [|c l IH]; intros Hl; simpl; [done|].
  apply not_elem_of_cons in Hl as [Hc Hl].
  destruct (Ascii.eqb_spec c "("%char) as [->|Hne]; [done|]. by rewrite IH.
Qed.

Lemma stripL_subset (l : list Ascii.ascii) (c : Ascii.ascii) : c ∈ stripL l → c ∈ l.
Proof.
  unfold stripL. intros Hc.
  destruct (rstripL_prefix (lstripL l)) as [w Hw].
  destruct (lstripL_suffix l) as [w' Hw'].
  rewrite Hw', Hw. apply elem_of_app. right. apply elem_of_app. by left.
Qed.

(** The stripped form of a text with a parenthesis. *)
Lemma stripL_paren (a b : list Ascii.ascii) :
  stripL (a ++ "("%char :: b) = lstripL a ++ "("%char :: rstripL b.
Proof.
  unfold stripL. rewrite lstripL_app_stop by done. by rewrite rstripL_app_stop.
Qed.

(** ** The name of an entry *)

Lemma names_agreeL (l : list Ascii.ascii) :
  stripL (splitL l).1
  = match splitL (stripL l) with
    | (first, Some _) => stripL first
    | (_, None) => stripL l
    end.
Proof.
  pose proof (splitL_spec l) as Hl. destruct (splitL l) as [a [b|]]; simpl.
  - destruct Hl as [-> Ha]. rewrite stripL_paren.
    rewrite splitL_paren.
    + unfold stripL. by rewrite lstripL_idem.
    + intros Hin. apply Ha. destruct (lstripL_suffix a) as [w Hw].
      rewrite Hw. apply elem_of_app. by right.
  - destruct Hl as [-> Hl]. rewrite splitL_none; [done|].
    intros Hin. by apply Hl, stripL_subset.
Qed.

Lemma bare_name_entry_name (player_info : string) :
  bare_name player_info = entry_name player_info.
Proof.
  apply chars_inj. unfold bare_name, entry_name.
  rewrite chars_strip.
  destruct (chars_split_paren player_info) as [-> _].
  destruct (chars_split_paren (strip player_info)) as [H1 H2].
  rewrite chars_strip in H1, H2.
  rewrite names_agreeL.
  destruct (split_paren (strip player_info)) as [first second]. simpl in H1, H2.
  destruct (splitL (stripL (chars player_info))) as [a b]. simpl in H1, H2.
  destruct second as [second|], b as [b|]; simpl in H2; try discriminate.
  - by rewrite chars_strip, H1.
  - by rewrite chars_strip.
Qed.

(** X11: [predict_dream11] and [set_player_roles] read the same player name
    out of every entry of a playing XI ([p.split('(')[0].strip()] against the
    strip-then-split of [set_player_roles]): the players that are scored and
    selected are looked up in the registry under the key they were
    registered with. *)
Theorem scoring_name_is_registry_name (player_info : string) :
  bare_name player_info = entry_name player_info.
Proof. rewrite (bare_name_entry_name player_info). reflexivity. Qed.

(** ** Which entries store no role *)

Lemma str_in_paren_chars (s : string) :
  str_in "(" s = true ↔ "("%char ∈ chars s.
Proof.
  rewrite str_in_occurs. split.
  - intros (pre & post & ->). rewrite !chars_app. apply elem_of_app. right.
    apply list_elem_of_here.
  - intros (l1 & l2 & Hl)%list_elem_of_split.
    exists (string_of_list_ascii l1), (string_of_list_ascii l2).
    apply chars_inj. rewrite !chars_app, Hl. unfold chars.
    by rewrite !list_ascii_of_string_of_list_ascii.
Qed.

Lemma endsL_app (x y : list Ascii.ascii) : y ≠ [] → endsL (x ++ y) = endsL y.
Proof.
  intros Hy. unfold endsL. rewrite rev_app_distr.
  destruct (rev y) as [|c r] eqn:Hr; [|done].
  apply (f_equal (@rev _)) in Hr. rewrite rev_involutive in Hr. done.
Qed.

Lemma lstripL_head (l : list Ascii.ascii) :
  lstripL l = [] ∨ ∃ c r, lstripL l = c :: r ∧ is_ws c = false.
Proof.
  induction l as [|c l IH]; simpl; [by left|].
  destruct (is_ws c) eqn:Hc; [done|]. right. by exists c, l.
Qed.

Lemma rstripL_last (l : list Ascii.ascii) :
  rstripL l = [] ∨ ∃ m c, rstripL l = m ++ [c] ∧ is_ws c = false.
Proof.
  unfold rstripL. destruct (lstripL_head (rev l)) as [->|(c & r & -> & Hc)]; [by left|].
  right. exists (rev r), c. by simpl.
Qed.

Lemma endsL_strip_rstrip (b : list Ascii.ascii) :
  endsL (stripL (rstripL b)) = endsL (rstripL b).
Proof.
  destruct (rstripL_last b) as [->|(m & c & -> & Hc)]; [done|].
  unfold stripL. rewrite lstripL_app_stop by done.
  rewrite rstripL_app_stop by done. change (rstripL []) with (@nil Ascii.ascii).
  by rewrite !endsL_app.
Qed.

(** An entry stores no role exactly when it has an opening parenthesis and
    its stripped text does not end with the closing one. *)
Lemma entry_role_None (player_info : string) :
  entry_role player_info = None ↔
  str_in "(" player_info = true ∧ endswith_rparen (strip player_info) = false.
Proof.
  unfold entry_role.
  destruct (chars_split_paren (strip player_info)) as [_ H2].
  rewrite chars_strip in H2.
  rewrite chars_endswith_rparen, chars_strip, str_in_paren_chars.
  pose proof (splitL_spec (chars player_info)) as Hl.
  destruct (split_paren (strip player_info)) as [first second]. simpl in H2.
  destruct (splitL (chars player_info)) as [a [b|]].
  - destruct Hl as [Hl Ha]. rewrite Hl, stripL_paren in *.
    rewrite splitL_paren in H2.
    2: { intros Hin. apply Ha. destruct (lstripL_suffix a) as [w Hw].
         rewrite Hw. apply elem_of_app. by right. }
    destruct second as [second|]; [|discriminate]. simpl in H2.
    injection H2 as H2.
    rewrite chars_endswith_rparen, chars_strip, H2, endsL_strip_rstrip.
    assert (Hends : endsL (lstripL a ++ "("%char :: rstripL b) = endsL (rstripL b)).
    { destruct (rstripL b) as [|c r] eqn:Hr.
      - by rewrite endsL_app.
      - change (lstripL a ++ "("%char :: c :: r)
          with (lstripL a ++ ["("%char] ++ c :: r).
        by rewrite app_assoc, endsL_app. }
    rewrite Hends. destruct (endsL (rstripL b)).
    + split; [done | intros [_ ?]; done].
    + split; [intros _; split; [|done] | done].
      apply elem_of_app. right. apply list_elem_of_here.
  - destruct Hl as [-> Hl]. rewrite splitL_none in H2.
    2: { intros Hin. by apply Hl, stripL_subset. }
    destruct second; [discriminate|]. split; [done | intros [? _]; done].
Qed.

(** ** [set_player_roles]: when it raises *)

Lemma set_player_role_raises_iff (s : Dream11Predictor) (player_info : string)
    (exn : PyExc) :
  set_player_role s player_info = Raise exn ↔
  exn = KeyError (entry_name player_info) ∧
  str_in "(" player_info = true ∧
  endswith_rparen (strip player_info) = false ∧
  is_Some (find_player_row (teams_data s) (entry_name player_info)) ∧
  player_roles s !! entry_name player_info = None.
Proof.
  rewrite (and_assoc (str_in _ _ = true)), <- entry_role_None.
  pose proof (set_player_role_spec s player_info) as Hspec.
  unfold role_op in Hspec. split.
  - intros Hr. rewrite Hr in Hspec. destruct Hspec as [x Hx].
    assert (Hexn : exn = KeyError (entry_name player_info)).
    { revert Hr. unfold set_player_role, entry_name, get_player_info_from_csv.
      destruct (split_paren (strip player_info)) as [first [second|]];
        repeat match goal with
               | |- context [if ?c then _ else _] => destruct c
               | |- context [match find_player_row ?a ?b with _ => _ end] =>
                   destruct (find_player_row a b) as [[? ?]|]
               | |- context [match ?m !! ?k with _ => _ end] => destruct (m !! k)
               end; simpl; congruence. }
    split; [done|].
    destruct (find_player_row _ _) as [[tn row]|]; [|discriminate].
    destruct (entry_role player_info) as [r|]; [discriminate|].
    destruct (player_roles s !! _); [discriminate|]. eauto.
  - intros (-> & Hrole & [[tn row] Hfound] & Hnone).
    rewrite Hrole, Hfound, Hnone in Hspec.
    destruct (set_player_role s player_info) as [s'|e] eqn:Hstep.
    + destruct Hspec as [Hbad _]. discriminate.
    + f_equal. revert Hstep.
      unfold set_player_role, entry_name, get_player_info_from_csv.
      destruct (split_paren (strip player_info)) as [first [second|]];
        repeat match goal with
               | |- context [if ?c then _ else _] => destruct c
               | |- context [match find_player_row ?a ?b with _ => _ end] =>
                   destruct (find_player_row a b) as [[? ?]|]
               | |- context [match ?m !! ?k with _ => _ end] => destruct (m !! k)
               end; simpl; congruence.
Qed.

(** X12: one entry of the playing XI raises KeyError, with the entry's name
    as key, exactly when the entry has an opening parenthesis but its
    stripped text does not end with ")", the name is found in a squad file,
    and no role is registered for the name yet; it raises nothing else. *)
Theorem set_player_role_raises (s : Dream11Predictor) (player_info : string)
    (exn : PyExc) :
  set_player_role s player_info = Raise exn ↔
  exn = KeyError (entry_name player_info) ∧
  str_in "(" player_info = true ∧
  endswith_rparen (strip player_info) = false ∧
  is_Some (find_player_row (teams_data s) (entry_name player_info)) ∧
  player_roles s !! entry_name player_info = None.
Proof. split; apply set_player_role_raises_iff. Qed.

Lemma set_player_role_raises_witness :
  set_player_role squad_predictor "Bat(Batter" = Raise (KeyError "Bat").
Proof.
  apply (set_player_role_raises squad_predictor "Bat(Batter" (KeyError "Bat")).
  repeat split; try (vm_compute; reflexivity). vm_compute. eauto.
Defined.

(** ** [set_player_roles] on a playing XI: when it raises *)

Lemma set_player_role_frame (s s' : Dream11Predictor) (e k : string) :
  set_player_role s e = Ok s' → k ≠ entry_name e →
  player_roles s' !! k = player_roles s !! k ∧
  player_credits s' !! k = player_credits s !! k ∧
  player_is_foreign s' !! k = player_is_foreign s !! k ∧
  player_teams s' !! k = player_teams s !! k.
Proof.
  intros Hstep Hk. pose proof (set_player_role_spec s e) as Hs.
  rewrite Hstep in Hs. destruct Hs as (_ & _ & _ & _ & Hframe & _).
  by apply Hframe.
Qed.

(** An entry whose name is in a squad file leaves a role under that name. *)
Lemma set_player_role_found_role (s s' : Dream11Predictor) (e : string) :
  set_player_role s e = Ok s' →
  is_Some (find_player_row (teams_data s) (entry_name e)) →
  is_Some (player_roles s' !! entry_name e).
Proof.
  intros Hstep [[tn row] Hfound]. pose proof (set_player_role_spec s e) as Hs.
  rewrite Hstep in Hs. destruct Hs as (Hrole & _). unfold role_op in Hrole.
  rewrite Hfound in Hrole.
  destruct (entry_role e); [|destruct (player_roles s !! entry_name e)];
    try discriminate; injection Hrole as <-; eauto.
Qed.

Lemma set_player_roles_raises (l : list string) (s : Dream11Predictor) (exn : PyExc) :
  set_player_roles s l = Raise exn →
  ∃ before e after,
    l = before ++ e :: after ∧ exn = KeyError (entry_name e) ∧
    raising_entry s before e.
Proof.
  revert s. induction l as [|e l IH]; intros s Hrun; simpl in Hrun; [discriminate|].
  destruct (set_player_role s e) as [s'|exn'] eqn:Hstep; simpl in Hrun.
  - destruct (IH s' Hrun) as (before & e0 & after & -> & -> & Hno & Hopen & Hend & Hfound & Hnone).
    pose proof (set_player_role_teams_data s s' e Hstep) as Hteams.
    rewrite Hteams in Hfound.
    assert (Hne : entry_name e ≠ entry_name e0).
    { intros Heq. rewrite <- Heq in Hfound, Hnone.
      destruct (set_player_role_found_role s s' e Hstep Hfound) as [r Hr]. congruence. }
    exists (e :: before), e0, after. split; [done|]. split; [done|].
    repeat split; try done.
    + intros e' [->|Hin]%elem_of_cons; [done|by apply Hno].
    + rewrite <- Hnone. symmetry. by apply (set_player_role_frame s s' e).
  - injection Hrun as ->. apply set_player_role_raises_iff in Hstep.
    destruct Hstep as (-> & Hopen & Hend & Hfound & Hnone).
    exists [], e, l. repeat split; try done. intros e' Hin. by apply elem_of_nil in Hin.
Qed.

Lemma set_player_roles_raising (before : list string) (e : string)
    (after : list string) (s : Dream11Predictor) :
  raising_entry s before e →
  ∃ k, set_player_roles s (before ++ e :: after) = Raise (KeyError k).
Proof.
  revert s. induction before as [|e' before IH];
    intros s (Hno & Hopen & Hend & Hfound & Hnone); simpl.
  - exists (entry_name e).
    by rewrite (proj2 (set_player_role_raises_iff s e (KeyError (entry_name e)))).
  - destruct (set_player_role s e') as [s'|[k]] eqn:Hstep; simpl; [|eauto].
    apply IH. repeat split; try done.
    + intros e'' Hin. apply Hno. by apply list_elem_of_further.
    + by rewrite (set_player_role_teams_data s s' e' Hstep).
    + rewrite <- Hnone. apply (set_player_role_frame s s' e'); [done|].
      intros Heq. apply (Hno e'); [apply list_elem_of_here|done].
Qed.

(** The registry update is the first call of a prediction: what it raises
    leaves [predict_dream11]. *)
Lemma predict_dream11_propagates (E : Externals) (self : Dream11Predictor)
    (team1 team2 venue_name : string) (team1_playing11 team2_playing11 : list string)
    (exn : PyExc) :
  set_player_roles self (team1_playing11 ++ team2_playing11) = Raise exn →
  predict_dream11 E self team1 team2 venue_name team1_playing11 team2_playing11
    = Raise exn.
Proof. intros Hrun. unfold predict_dream11. by rewrite Hrun. Qed.

(** X13: the registry update of a whole playing XI raises exactly when the
    XI has an entry with an opening parenthesis but no ")" at the end of its
    stripped text, whose name is found in a squad file, has no role in the
    registry before the call, and is not the name of an earlier entry; what
    it raises is a KeyError with the name of such an entry as key.  When
    every entry with an opening parenthesis ends with ")", the update
    returns.  A prediction runs the update first, on the two playing XIs
    joined, so an error of the update is the error of the prediction. *)
Theorem unclosed_entry_raises_key_error (self : Dream11Predictor)
    (players_with_roles : list string) :
  (∀ exn, set_player_roles self players_with_roles = Raise exn →
     ∃ before e after,
       players_with_roles = before ++ e :: after ∧
       exn = KeyError (entry_name e) ∧ raising_entry self before e) ∧
  (∀ before e after,
     players_with_roles = before ++ e :: after →
     raising_entry self before e →
     ∃ k, set_player_roles self players_with_roles = Raise (KeyError k)) ∧
  ((∀ e, e ∈ players_with_roles →
      str_in "(" e = true → endswith_rparen (strip e) = true) →
   ∃ after, set_player_roles self players_with_roles = Ok after) ∧
  (∀ E team1 team2 venue_name team1_playing11 team2_playing11 exn,
     players_with_roles = team1_playing11 ++ team2_playing11 →
     set_player_roles self players_with_roles = Raise exn →
     predict_dream11 E self team1 team2 venue_name team1_playing11 team2_playing11
       = Raise exn).
Proof.
  split; [|split; [|split]].
  - intros exn Hrun. by apply set_player_roles_raises.
  - intros before e after -> Hraise. by apply set_player_roles_raising.
  - intros Hclosed.
    destruct (set_player_roles self players_with_roles) as [after|exn] eqn:Hrun;
      [eauto|].
    apply set_player_roles_raises in Hrun.
    destruct Hrun as (before & e & after & Hl & _ & _ & Hopen & Hend & _).
    rewrite Hclosed in Hend; [discriminate| |done].
    rewrite Hl. apply elem_of_app. right. apply list_elem_of_here.
  - intros E team1 team2 venue_name l1 l2 exn -> Hrun.
    by apply predict_dream11_propagates.
Qed.

Lemma unclosed_entry_raises_key_error_witness :
  ∃ k, predict_dream11 no_externals squad_predictor "A" "B" "V"
         ["Ghost (WK-Batter)"; "Bat(Batter"] ["Flag"]
       = Raise (KeyError k).
Proof.
  pose proof (unclosed_entry_raises_key_error squad_predictor
                (["Ghost (WK-Batter)"; "Bat(Batter"] ++ ["Flag"]))
    as (_ & Hraise & _ & Hpredict).
  destruct (Hraise ["Ghost (WK-Batter)"] "Bat(Batter" ["Flag"]) as [k Hk].
  - reflexivity.
  - repeat split; try (vm_compute; reflexivity).
    + intros e' Hin. apply list_elem_of_singleton in Hin as ->.
      vm_compute. congruence.
    + vm_compute. eauto.
  - exists k.
    by apply (Hpredict no_externals "A" "B" "V"
                ["Ghost (WK-Batter)"; "Bat(Batter"] ["Flag"]).
Defined.

(** ** [set_player_roles]: what the registry holds after a run *)

Lemma set_player_roles_app (l1 l2 : list string) (s : Dream11Predictor) :
  set_player_roles s (l1 ++ l2)
  = bind (set_player_roles s l1) (fun s' => set_player_roles s' l2).
Proof.
  revert s. induction l1 as [|e l1 IH]; intros s; simpl; [done|].
  destruct (set_player_role s e); simpl; [apply IH|done].
Qed.

(** Names no entry parses to keep what the registry held for them. *)
Lemma set_player_roles_frame (l : list string) (s t : Dream11Predictor) (k : string) :
  set_player_roles s l = Ok t → k ∉ entry_name <$> l →
  player_roles t !! k = player_roles s !! k ∧
  player_credits t !! k = player_credits s !! k ∧
  player_is_foreign t !! k = player_is_foreign s !! k ∧
  player_teams t !! k = player_teams s !! k.
Proof.
  revert s. induction l as [|e l IH]; intros s Hrun Hk; simpl in Hrun.
  - by injection Hrun as ->.
  - destruct (set_player_role s e) as [s'|] eqn:Hstep; [|discriminate].
    simpl in Hrun. rewrite fmap_cons in Hk.
    apply not_elem_of_cons in Hk as [Hne Hk].
    destruct (IH s' Hrun Hk) as (-> & -> & -> & ->).
    by apply (set_player_role_frame s s' e).
Qed.

Lemma set_player_roles_teams_data (l : list string) (s t : Dream11Predictor) :
  set_player_roles s l = Ok t → teams_data t = teams_data s.
Proof. intros Hrun. by destruct (set_player_roles_fields l s t Hrun) as (_ & _ & ? & _). Qed.

(** What one entry leaves under its own name. *)
Lemma set_player_role_here (s s' : Dream11Predictor) (e : string) :
  set_player_role s e = Ok s' →
  match find_player_row (teams_data s) (entry_name e) with
  | Some (team_name, row) =>
      player_credits s' !! entry_name e = Some (Credits row) ∧
      player_is_foreign s' !! entry_name e = Some (Foreign_Player row) ∧
      player_teams s' !! entry_name e = Some team_name ∧
      ∃ r, player_roles s' !! entry_name e = Some r ∧
           (r = "Unknown" → Role row = "Unknown")
  | None =>
      player_credits s' !! entry_name e = Some 7%Q ∧
      player_is_foreign s' !! entry_name e = Some false ∧
      player_teams s' !! entry_name e = player_teams s !! entry_name e
  end.
Proof.
  intros Hstep. pose proof (set_player_role_spec s e) as Hs. rewrite Hstep in Hs.
  destruct Hs as (Hrole & Hcred & Hfor & Hteam & _).
  unfold role_op, credits_op, foreign_op, teams_op in *.
  destruct (find_player_row (teams_data s) (entry_name e)) as [[tn row]|].
  - injection Hcred as <-. injection Hfor as <-. injection Hteam as <-.
    repeat split.
    assert (Hupd : ∃ c, player_roles s' !! entry_name e = Some (csv_role_update row c)).
    { destruct (entry_role e); [|destruct (player_roles s !! entry_name e)];
        try discriminate; injection Hrole as <-; eauto. }
    destruct Hupd as [c ->]. eexists. split; [done|].
    unfold csv_role_update. destruct (String.eqb c "Unknown") eqn:Hc; [done|].
    intros ->. by rewrite String.eqb_refl in Hc.
  - injection Hcred as <-. injection Hfor as <-. injection Hteam as <-. done.
Qed.

Lemma set_player_roles_registered (l : list string) (s t : Dream11Predictor)
    (k : string) :
  set_player_roles s l = Ok t → k ∈ entry_name <$> l →
  match find_player_row (teams_data s) k with
  | Some (team_name, row) =>
      player_credits t !! k = Some (Credits row) ∧
      player_is_foreign t !! k = Some (Foreign_Player row) ∧
      player_teams t !! k = Some team_name ∧
      ∃ r, player_roles t !! k = Some r ∧ (r = "Unknown" → Role row = "Unknown")
  | None =>
      player_credits t !! k = Some 7%Q ∧
      player_is_foreign t !! k = Some false ∧
      player_teams t !! k = player_teams s !! k
  end.
Proof.
  revert s. induction l as [|e l IH]; intros s Hrun Hk; simpl in Hrun.
  - by apply elem_of_nil in Hk.
  - destruct (set_player_role s e) as [s'|] eqn:Hstep; [|discriminate].
    simpl in Hrun. pose proof (set_player_role_teams_data s s' e Hstep) as Hteams.
    destruct (decide (k ∈ entry_name <$> l)) as [Hin|Hnotin].
    + specialize (IH s' Hrun Hin). rewrite Hteams in IH.
      destruct (find_player_row (teams_data s) k) as [[tn row]|] eqn:Hfound; [done|].
      destruct IH as (-> & -> & ->). repeat split.
      destruct (decide (k = entry_name e)) as [->|Hne].
      * pose proof (set_player_role_here s s' e Hstep) as Hhere.
        rewrite Hfound in Hhere. tauto.
      * by apply (set_player_role_frame s s' e).
    + rewrite fmap_cons in Hk. apply elem_of_cons in Hk as [->|Hin]; [|done].
      destruct (set_player_roles_frame l s' t _ Hrun Hnotin) as (-> & -> & -> & ->).
      by apply set_player_role_here.
Qed.

(** X14: after a registry update that returns, every name of the playing XI
    has its credits and foreign flag set: from the first matching row of the
    squad files (with the squad's name as team, and a role that is "Unknown"
    only if the row's role is), or 7 credits and not foreign when no squad
    file has the name.  Names that are not in the playing XI keep what the
    registry held for them. *)
Theorem set_player_roles_fills_registry (self after : Dream11Predictor)
    (players_with_roles : list string) (player : string) :
  set_player_roles self players_with_roles = Ok after →
  (player ∈ entry_name <$> players_with_roles →
   match find_player_row (teams_data self) player with
   | Some (team_name, row) =>
       player_credits after !! player = Some (Credits row) ∧
       player_is_foreign after !! player = Some (Foreign_Player row) ∧
       player_teams after !! player = Some team_name ∧
       ∃ r, player_roles after !! player = Some r ∧
            (r = "Unknown" → Role row = "Unknown")
   | None =>
       player_credits after !! player = Some 7%Q ∧
       player_is_foreign after !! player = Some false ∧
       player_teams after !! player = player_teams self !! player
   end) ∧
  (player ∉ entry_name <$> players_with_roles →
   player_roles after !! player = player_roles self !! player ∧
   player_credits after !! player = player_credits self !! player ∧
   player_is_foreign after !! player = player_is_foreign self !! player ∧
   player_teams after !! player = player_teams self !! player).
Proof.
  intros Hrun. split.
  - by apply set_player_roles_registered.
  - by apply set_player_roles_frame.
Qed.

Lemma set_player_roles_fills_registry_witness :
  match set_player_roles squad_predictor squad_team2 with
  | Ok after =>
      player_credits after !! "Flag" = Some 7%Q ∧
      player_is_foreign after !! "Flag" = Some false
  | Raise _ => False
  end.
Proof.
  destruct (set_player_roles squad_predictor squad_team2) as [after|exn] eqn:Hrun.
  - destruct (set_player_roles_fills_registry squad_predictor after squad_team2
                "Flag" Hrun) as [Hin _].
    assert (Hk : "Flag" ∈ entry_name <$> squad_team2).
    { apply (bool_decide_unpack _). vm_compute. exact I. }
    specialize (Hin Hk).
    assert (Hf : find_player_row (teams_data squad_predictor) "Flag" = None)
      by (vm_compute; reflexivity).
    rewrite Hf in Hin. destruct Hin as (Hc & Hf' & _). by split.
  - vm_compute in Hrun. discriminate Hrun.
Defined.

(** ** [set_player_roles]: the role of the playing XI and the role on file *)

Lemma set_player_roles_last_role (before : list string) (e : string)
    (rest : list string) (s t : Dream11Predictor) (r : string) :
  set_player_roles s (before ++ e :: rest) = Ok t →
  entry_name e ∉ entry_name <$> rest →
  entry_role e = Some r →
  player_roles t !! entry_name e
  = Some (match find_player_row (teams_data s) (entry_name e) with
          | Some (_, row) => csv_role_update row r
          | None => r
          end).
Proof.
  intros Hrun Hlast Hrole. rewrite set_player_roles_app in Hrun.
  destruct (set_player_roles s before) as [s1|] eqn:Hbefore; [|discriminate].
  simpl in Hrun.
  destruct (set_player_role s1 e) as [s2|] eqn:Hstep; [|discriminate].
  simpl in Hrun.
  destruct (set_player_roles_frame rest s2 t _ Hrun Hlast) as (-> & _).
  pose proof (set_player_role_spec s1 e) as Hs. rewrite Hstep in Hs.
  destruct Hs as (Hop & _). unfold role_op in Hop. rewrite Hrole in Hop.
  rewrite (set_player_roles_teams_data before s s1 Hbefore) in Hop.
  destruct (find_player_row (teams_data s) (entry_name e)) as [[tn row]|];
    by injection Hop as <-.
Qed.

(** X15: the role written in the playing XI wins over the squad file.  For
    the last entry of a name, a role text other than "Unknown" is what the
    registry holds after the run; "Unknown" (also the role of an entry
    without parentheses) is replaced by the role of the squad row when the
    name is on file, and stays otherwise. *)
Theorem listed_role_wins (self after : Dream11Predictor)
    (before : list string) (entry : string) (rest : list string) (role : string) :
  set_player_roles self (before ++ entry :: rest) = Ok after →
  entry_name entry ∉ entry_name <$> rest →
  entry_role entry = Some role →
  (role ≠ "Unknown" → player_roles after !! entry_name entry = Some role) ∧
  (role = "Unknown" →
   player_roles after !! entry_name entry
   = Some (match find_player_row (teams_data self) (entry_name entry) with
           | Some (_, row) => Role row
           | None => "Unknown"
           end)).
Proof.
  intros Hrun Hlast Hrole.
  rewrite (set_player_roles_last_role before entry rest self after role Hrun Hlast Hrole).
  unfold csv_role_update. split.
  - intros Hne. apply String.eqb_neq in Hne. rewrite Hne.
    by destruct (find_player_row _ _) as [[? ?]|].
  - intros ->. simpl. by destruct (find_player_row _ _) as [[? ?]|].
Qed.

Lemma listed_role_wins_witness :
  match set_player_roles squad_predictor (["Bat (Bowler)"] ++ "Bowl" :: []) with
  | Ok after => player_roles after !! "Bowl" = Some "Bowler"
  | Raise _ => False
  end.
Proof.
  destruct (set_player_roles squad_predictor (["Bat (Bowler)"] ++ "Bowl" :: []))
    as [after|exn] eqn:Hrun.
  - assert (Hlast : entry_name "Bowl" ∉ entry_name <$> []) by apply not_elem_of_nil.
    assert (Hrole : entry_role "Bowl" = Some "Unknown") by (vm_compute; reflexivity).
    destruct (listed_role_wins squad_predictor after ["Bat (Bowler)"] "Bowl" []
                "Unknown" Hrun Hlast Hrole) as [_ Hfile].
    exact (Hfile eq_refl).
  - vm_compute in Hrun. discriminate Hrun.
Defined.

(** ** [get_player_info_from_csv]: the first matching row of the first squad *)

Lemma filter_nil_none {A} (f : A → bool) (l : list A) :
  List.filter f l = [] ↔ ∀ x, x ∈ l → f x = false.
Proof.
  induction l as [|a l IH]; simpl.
  - split; [|done]. intros _ x Hx. by apply elem_of_nil in Hx.
  - destruct (f a) eqn:Ha; split.
    + discriminate.
    + intros H. rewrite (H a) in Ha; [discriminate|apply list_elem_of_here].
    + intros Hnil x [->|Hx]%elem_of_cons; [done|]. by apply IH.
    + intros H. apply IH. intros x Hx. apply H. by apply list_elem_of_further.
Qed.

Lemma filter_head_first {A} (f : A → bool) (l : list A) (x : A) (tl : list A) :
  List.filter f l = x :: tl →
  ∃ l1 l2, l = l1 ++ x :: l2 ∧ f x = true ∧ ∀ y, y ∈ l1 → f y = false.
Proof.
  induction l as [|a l IH]; simpl; [discriminate|].
  destruct (f a) eqn:Ha.
  - intros [= -> _]. exists [], l. repeat split; [done|].
    intros y Hy. by apply elem_of_nil in Hy.
  - intros H. destruct (IH H) as (l1 & l2 & -> & Hx & Hl1).
    exists (a :: l1), l2. repeat split; [done|].
    intros y [->|Hy]%elem_of_cons; [done|by apply Hl1].
Qed.

Lemma find_player_row_None (teams : list (string * list SquadRow)) (player_name : string) :
  find_player_row teams player_name = None ↔
  ∀ team_name team_df row,
    (team_name, team_df) ∈ teams → row ∈ team_df → name_matches player_name row = false.
Proof.
  induction teams as [|[tn df] teams IH]; simpl.
  - split; [|done]. intros _ ? ? ? H. by apply elem_of_nil in H.
  - destruct (List.filter (name_matches player_name) df) as [|row tl] eqn:Hf.
    + rewrite IH. split.
      * intros H tn' df' row [[= -> ->]|Hin]%elem_of_cons Hrow.
        -- by apply (proj1 (filter_nil_none _ _) Hf).
        -- by apply (H tn' df').
      * intros H tn' df' row Hin. apply (H tn' df'). by apply list_elem_of_further.
    + split; [discriminate|]. intros H.
      destruct (filter_head_first _ _ _ _ Hf) as (l1 & l2 & -> & Hrow & _).
      rewrite (H tn (l1 ++ row :: l2) row) in Hrow; [discriminate|apply list_elem_of_here|].
      apply elem_of_app. right. apply list_elem_of_here.
Qed.

Lemma find_player_row_Some (teams : list (string * list SquadRow))
    (player_name team_name : string) (row : SquadRow) :
  find_player_row teams player_name = Some (team_name, row) →
  ∃ earlier team_df later rows_above rows_below,
    teams = earlier ++ (team_name, team_df) :: later ∧
    team_df = rows_above ++ row :: rows_below ∧
    name_matches player_name row = true ∧
    (∀ r, r ∈ rows_above → name_matches player_name r = false) ∧
    (∀ tn df r, (tn, df) ∈ earlier → r ∈ df → name_matches player_name r = false).
Proof.
  induction teams as [|[tn df] teams IH]; simpl; [discriminate|].
  destruct (List.filter (name_matches player_name) df) as [|row' tl] eqn:Hf.
  - intros H. destruct (IH H) as (earlier & df' & later & above & below & -> & -> & Hrow & Habove & Hearlier).
    exists ((tn, df) :: earlier), (above ++ row :: below), later, above, below.
    repeat split; try done.
    intros tn' df' r [[= -> ->]|Hin]%elem_of_cons Hr.
    + by apply (proj1 (filter_nil_none _ _) Hf).
    + by apply (Hearlier tn' df').
  - intros [= -> ->].
    destruct (filter_head_first _ _ _ _ Hf) as (l1 & l2 & -> & Hrow & Hl1).
    exists [], (l1 ++ row :: l2), teams, l1, l2. repeat split; try done.
    intros ? ? ? H. by apply elem_of_nil in H.
Qed.

(** X16: the squad lookup returns the first row, of the first squad file that
    has one, whose name equals the requested name after stripping and
    lowercasing both; it then records the squad's name as the player's team
    under the name as it was passed, and changes nothing else.  It returns
    None, and leaves the predictor as it is, exactly when no row of any
    squad file matches. *)
Theorem csv_lookup_first_match (self : Dream11Predictor) (player_name : string) :
  match get_player_info_from_csv self player_name with
  | (Some info, self') =>
      (∃ earlier team_df later rows_above row rows_below,
         teams_data self = earlier ++ (info_team info, team_df) :: later ∧
         team_df = rows_above ++ row :: rows_below ∧
         name_matches player_name row = true ∧
         (∀ r, r ∈ rows_above → name_matches player_name r = false) ∧
         (∀ tn df r, (tn, df) ∈ earlier → r ∈ df →
                     name_matches player_name r = false) ∧
         info_role info = Role row ∧ info_credits info = Credits row ∧
         info_foreign info = Foreign_Player row) ∧
      self' = set_player_teams self
                (<[player_name := info_team info]> (player_teams self))
  | (None, self') =>
      self' = self ∧
      ∀ team_name team_df row,
        (team_name, team_df) ∈ teams_data self → row ∈ team_df →
        name_matches player_name row = false
  end.
Proof.
  unfold get_player_info_from_csv.
  destruct (find_player_row (teams_data self) player_name) as [[tn row]|] eqn:Hfound.
  - split; [|done].
    destruct (find_player_row_Some _ _ _ _ Hfound)
      as (earlier & df & later & above & below & H1 & H2 & H3 & H4 & H5).
    exists earlier, df, later, above, row, below. by repeat split.
  - split; [done|]. by apply find_player_row_None.
Qed.

(** ** [predict_dream11]: where the team comes from *)

Lemma dict_get_elem (d : list (string * Q)) (k : string) (v : Q) :
  dict_wf d → (k, v) ∈ d → dict_get d k = Some v.
Proof.
  unfold dict_wf. induction d as [|[k' w] d IH]; simpl; intros Hwf Hin.
  - by apply elem_of_nil in Hin.
  - apply NoDup_cons in Hwf as [Hk' Hwf].
    apply elem_of_cons in Hin as [[= -> ->]|Hin].
    + by rewrite String.eqb_refl.
    + destruct (String.eqb_spec k' k) as [->|Hne]; [|by apply IH].
      exfalso. apply Hk'. apply list_elem_of_fmap. by exists (k, v).
Qed.

Lemma select_dream11_team_scores (self : Dream11Predictor) :
  player_scores (select_dream11_team self).2 = player_scores self.
Proof. by rewrite select_dream11_team_self. Qed.

Lemma bare_names_entry_names (l : list string) : bare_name <$> l = entry_name <$> l.
Proof.
  induction l as [|e l IH]; [done|].
  by rewrite !fmap_cons, IH, bare_name_entry_name.
Qed.

Lemma predict_dream11_team_facts (E : Externals) (self self' : Dream11Predictor)
    (team1 team2 venue_name : string) (team1_playing11 team2_playing11 : list string)
    (out : Prediction) :
  predict_dream11 E self team1 team2 venue_name team1_playing11 team2_playing11
    = Ok (out, self') →
  let names := bare_name <$> (team1_playing11 ++ team2_playing11) in
  (∀ player score, (player, score) ∈ team (selection out) →
     player ∈ names ∧ dict_get (player_scores self') player = Some score) ∧
  (∀ player, player ∈ names →
     is_Some (player_credits self' !! player) ∧
     is_Some (player_is_foreign self' !! player)) ∧
  out_team1 out = team1 ∧ out_team2 out = team2 ∧ out_venue out = venue_name.
Proof.
  intros Hrun names. unfold predict_dream11 in Hrun.
  destruct (set_player_roles self (team1_playing11 ++ team2_playing11))
    as [s0|] eqn:Hroles; [|discriminate].
  cbn [bind] in Hrun.
  pose proof (score_players_keys E s0 venue_name (bare_name <$> team1_playing11)
                (bare_name <$> team2_playing11)) as Hkeys.
  pose proof (score_players_wf E s0 venue_name (bare_name <$> team1_playing11)
                (bare_name <$> team2_playing11)) as Hwf.
  pose proof (score_players_registry E s0 venue_name (bare_name <$> team1_playing11)
                (bare_name <$> team2_playing11)) as (_ & _ & _ & _ & Hc0 & Hf0 & _).
  set (s1 := score_players E s0 venue_name (bare_name <$> team1_playing11)
               (bare_name <$> team2_playing11)) in *.
  clearbody s1.
  pose proof (select_team_sublist s1) as Hsub.
  pose proof (select_dream11_team_scores s1) as Hscores.
  pose proof (select_dream11_team_registry s1) as (_ & _ & _ & _ & Hc & Hf & _).
  destruct (select_dream11_team s1) as [sel s2]. injection Hrun as <- <-.
  cbn [fst snd selection out_team1 out_team2 out_venue] in *.
  split; [|split; [|done]].
  - intros player score Hin.
    assert (Hin1 : (player, score) ∈ player_scores s1).
    { rewrite <- (sorted_desc_perm (player_scores s1)). by eapply elem_of_sublist. }
    split.
    + assert (Hk : player ∈ (player_scores s1).*1).
      { apply list_elem_of_fmap. by exists (player, score). }
      rewrite Hkeys in Hk.
      rewrite first_seen_elem in Hk. unfold names. by rewrite fmap_app.
    + rewrite Hscores. by apply dict_get_elem.
  - intros player Hin. rewrite Hc, Hc0, Hf, Hf0. unfold names in Hin.
    rewrite bare_names_entry_names in Hin.
    pose proof (set_player_roles_registered _ _ _ player Hroles Hin) as Hreg.
    destruct (find_player_row (teams_data self) player) as [[tn row]|].
    + destruct Hreg as (-> & -> & _). eauto.
    + destruct Hreg as (-> & -> & _). eauto.
Qed.


(** X17: in a prediction that returns, every player of the team is one of
    the names of the two playing XIs, the score shown for the player is the
    one [player_scores] holds, and every name of the playing XIs has credits
    and a foreign flag in the registry, so the selector's defaults of 7.0
    credits and "not foreign" for unregistered players are never used. *)
Theorem predicted_team_from_playing11 (E : Externals) (self self' : Dream11Predictor)
    (team1 team2 venue_name : string) (team1_playing11 team2_playing11 : list string)
    (out : Prediction) :
  predict_dream11 E self team1 team2 venue_name team1_playing11 team2_playing11
    = Ok (out, self') →
  let names := bare_name <$> (team1_playing11 ++ team2_playing11) in
  (∀ player score, (player, score) ∈ team (selection out) →
     player ∈ names ∧ dict_get (player_scores self') player = Some score) ∧
  (∀ player, player ∈ names →
     is_Some (player_credits self' !! player) ∧
     is_Some (player_is_foreign self' !! player)) ∧
  out_team1 out = team1 ∧ out_team2 out = team2 ∧ out_venue out = venue_name.
Proof.
  intros Hrun names.
  destruct (predict_dream11_team_facts E self self' team1 team2 venue_name
              team1_playing11 team2_playing11 out Hrun) as (Hteam & Hreg & Hout).
  split; [exact Hteam|]. split; [exact Hreg|exact Hout].
Qed.

Lemma predicted_team_from_playing11_witness :
  match predict_dream11 no_externals squad_predictor "MI" "DC" "Wankhede"
          squad_team1 squad_team2 with
  | Ok (out, self') =>
      ∀ player score, (player, score) ∈ team (selection out) →
        player ∈ bare_name <$> (squad_team1 ++ squad_team2)
  | Raise _ => False
  end.
Proof.
  destruct (predict_dream11 no_externals squad_predictor "MI" "DC" "Wankhede"
              squad_team1 squad_team2) as [[out self']|exn] eqn:Hrun.
  - intros player score Hin.
    pose proof (predicted_team_from_playing11 _ _ _ _ _ _ _ _ _ Hrun) as [Hteam _].
    by apply (Hteam player score).
  - vm_compute in Hrun. discriminate Hrun.
Defined.

(** ** [display_team]: the groups *)

Lemma display_group_step_groups (self : Dream11Predictor) (g : DisplayGroups)
    (c : Categorized) (entry : string * Q) :
  groups_of self g c →
  groups_of self (display_group_step self g entry)
    (categorized_append c (category_of self entry.1) entry).
Proof.
  intros (Hwk & Hbat & Har & Hbowl). destruct entry as [player score].
  unfold display_group_step, category_of, groups_of. cbn [fst snd].
  repeat match goal with
         | |- context [if ?b then _ else _] => destruct b
         end;
    cbn [categorized_append wk bat ar bowl wicket_keepers batsmen all_rounders bowlers];
    rewrite ?fmap_app, ?Hwk, ?Hbat, ?Har, ?Hbowl; done.
Qed.

Lemma display_groups_fold (self : Dream11Predictor) (team : list (string * Q))
    (g : DisplayGroups) (c : Categorized) :
  groups_of self g c →
  groups_of self (fold_left (display_group_step self) team g)
    (fold_left (fun acc entry => categorized_append acc (category_of self entry.1) entry)
       team c).
Proof.
  revert g c. induction team as [|e team IH]; intros g c H; simpl; [done|].
  by apply IH, display_group_step_groups.
Qed.

(** X18: [display_team] shows a player under the heading of the category
    [categorize_players] puts the player in: the four groups are the four
    category lists of the team, in the same order, each entry with its
    score, the group's label, and the registered credits and foreign flag
    (7 credits and "not foreign" when the registry has none).  So every
    player of the team is shown once, the groups together holding as many
    lines as the team has players. *)
Theorem display_groups_follow_categories (self : Dream11Predictor)
    (team : list (string * Q)) :
  let g := display_groups self team in
  let c := categorize_players self team in
  wk g = display_line self WK <$> wicket_keepers c ∧
  bat g = display_line self BAT <$> batsmen c ∧
  ar g = display_line self ALL <$> all_rounders c ∧
  bowl g = display_line self BOWL <$> bowlers c ∧
  (length (wk g) + length (bat g) + length (ar g) + length (bowl g) = length team)%nat.
Proof.
  intros g c.
  assert (H : groups_of self g c).
  { unfold g, c, display_groups, categorize_players.
    apply display_groups_fold. by repeat split. }
  destruct H as (Hwk & Hbat & Har & Hbowl).
  repeat split; try done.
  rewrite Hwk, Hbat, Har, Hbowl, !length_fmap.
  pose proof (category_filter_perm self team) as Hperm.
  pose proof (categorize_players_list self team) as Hl.
  rewrite <- (Hl WicketKeepers), <- (Hl Batsmen), <- (Hl AllRounders),
    <- (Hl Bowlers) in Hperm.
  apply Permutation_length in Hperm. rewrite !length_app in Hperm.
  cbn [category_list] in Hperm. unfold c. lia.
Qed.

(** ** [display_team]: the two distributions *)

Lemma display_team_dist_fold (self : Dream11Predictor) (team seen : list (string * Q))
    (team_dist : gmap string nat) :
  (∀ T, team_dist !! T = if (count_team self seen T =? 0)%nat then None
                         else Some (count_team self seen T)) →
  ∀ T, fold_left
         (fun team_dist entry =>
            let team_name := team_of self entry.1 in
            <[team_name := team_count team_dist team_name + 1]> team_dist)
         team team_dist !! T
       = if (count_team self (seen ++ team) T =? 0)%nat then None
         else Some (count_team self (seen ++ team) T).
Proof.
  revert seen team_dist. induction team as [|e team IH]; intros seen m Hm T; simpl.
  - by rewrite app_nil_r.
  - rewrite (IH (seen ++ [e])); [by rewrite <- app_assoc|].
    intros T'. unfold count_team. rewrite filter_length_snoc.
    fold (count_team self seen T').
    destruct (decide (team_of self e.1 = T')) as [<-|Hne].
    + rewrite lookup_insert_eq, bool_decide_eq_true_2 by done.
      unfold team_count. rewrite Hm.
      destruct (count_team self seen (team_of self e.1)) as [|n] eqn:Hn; simpl.
      * done.
      * replace (n + 1 =? 0)%nat with false by (symmetry; apply Nat.eqb_neq; lia).
        done.
    + rewrite lookup_insert_ne, bool_decide_eq_false_2 by done.
      rewrite Nat.add_0_r. apply Hm.
Qed.

Lemma display_role_dist_fold (self : Dream11Predictor) (team seen : list (string * Q))
    (role_dist : gmap string (gmap RoleCategory nat)) :
  (∀ T R, role_team_count role_dist T R = count_team_role self seen T R) →
  ∀ T R, role_team_count
           (fold_left
              (fun role_dist entry =>
                 let team_name := team_of self entry.1 in
                 let role := _simplify_role self entry.1 in
                 role_team_store role_dist team_name role
                   (role_team_count role_dist team_name role + 1))
              team role_dist) T R
         = count_team_role self (seen ++ team) T R.
Proof.
  revert seen role_dist. induction team as [|e team IH]; intros seen m Hm T R; simpl.
  - by rewrite app_nil_r.
  - rewrite (IH (seen ++ [e])); [by rewrite <- app_assoc|].
    intros T' R'. rewrite role_team_count_store.
    unfold count_team_role. rewrite filter_length_snoc.
    fold (count_team_role self seen T' R').
    destruct (decide (team_of self e.1 = T' ∧ _simplify_role self e.1 = R'))
      as [[<- <-]|Hne].
    + rewrite bool_decide_eq_true_2 by done. by rewrite Hm.
    + rewrite bool_decide_eq_false_2 by done. rewrite Nat.add_0_r. apply Hm.
Qed.

Lemma display_team_dist_lookup (self : Dream11Predictor) (team : list (string * Q))
    (T : string) :
  display_team_dist self team !! T
  = if (count_team self team T =? 0)%nat then None else Some (count_team self team T).
Proof.
  unfold display_team_dist.
  apply (display_team_dist_fold self team [] ∅). intros T'. simpl.
  apply lookup_empty.
Qed.

Lemma display_role_dist_count (self : Dream11Predictor) (team : list (string * Q))
    (T : string) (R : RoleCategory) :
  role_team_count (display_role_dist self team) T R = count_team_role self team T R.
Proof.
  unfold display_role_dist.
  apply (display_role_dist_fold self team [] ∅). intros T' R'.
  unfold role_team_count. rewrite lookup_empty. simpl. by rewrite lookup_empty.
Qed.

(** X19: the two distributions [display_team] prints under "Team
    Constraints Verification" count the team it is given: [team_dist] has a
    line for exactly the origin teams that have a player in the team (origin
    team "Unknown" for a player without a recorded team), with their number
    of players, and [role_dist] gives for an origin team and a role the
    number of the team's players of that origin and role. *)
Theorem display_distributions_count_team (self : Dream11Predictor)
    (team : list (string * Q)) :
  (∀ T, display_team_dist self team !! T
        = if (count_team self team T =? 0)%nat then None
          else Some (count_team self team T)) ∧
  (∀ T R, role_team_count (display_role_dist self team) T R
          = count_team_role self team T R).
Proof.
  split.
  - intros T. apply display_team_dist_lookup.
  - intros T R. apply display_role_dist_count.
Qed.

(** ** [display_team] after [select_dream11_team] *)

Lemma count_team_registry (s s' : Dream11Predictor) (team : list (string * Q))
    (T : string) :
  same_registry s s' → count_team s team T = count_team s' team T.
Proof.
  intros (_ & _ & _ & _ & _ & _ & Ht). unfold count_team, team_of. by rewrite Ht.
Qed.

Lemma count_team_role_registry (s s' : Dream11Predictor) (team : list (string * Q))
    (T : string) (R : RoleCategory) :
  same_registry s s' → count_team_role s team T R = count_team_role s' team T R.
Proof.
  intros (_ & _ & _ & Hr & _ & _ & Ht).
  unfold count_team_role, team_of, _simplify_role, role_text. by rewrite Hr, Ht.
Qed.

(** X20: shown with the predictor a selection run leaves behind, the
    selected team passes the printed verification: every line of
    "Players per Team" shows between 1 and 6 players, the number the
    selector counted for that origin team, and every count of "Role
    Distribution per Team" is the selector's count and within the cap of
    its role (2 for WK, 3 for the others). *)
Theorem displayed_counts_within_caps (self : Dream11Predictor) :
  let sel := (select_dream11_team self).1 in
  let self' := (select_dream11_team self).2 in
  (∀ T n, display_team_dist self' (team sel) !! T = Some n →
          n = team_count (team_counts self') T ∧ (1 ≤ n ≤ 6)%nat) ∧
  (∀ T R, role_team_count (display_role_dist self' (team sel)) T R
          = role_team_count (role_team_counts self') T R ∧
          (role_team_count (display_role_dist self' (team sel)) T R
           ≤ MAX_ROLE_PER_TEAM R)%nat).
Proof.
  intros sel self'. unfold sel, self'.
  pose proof (select_dream11_team_registry self) as Hreg.
  destruct (select_loop_inv self (sorted_desc (player_scores self)) sel_init)
    as ([_ _ I3 I4 _ _ I7 I8] & _).
  { apply sel_inv_init. }
  { simpl. lia. }
  destruct (select_dream11_team_result self) as (Hteam & _).
  assert (Htc : team_counts (select_dream11_team self).2
                = sel_team_counts (select_loop self (sorted_desc (player_scores self))
                                     sel_init))
    by (by rewrite select_dream11_team_self).
  assert (Hrc : role_team_counts (select_dream11_team self).2
                = sel_role_team_counts
                    (select_loop self (sorted_desc (player_scores self)) sel_init))
    by (by rewrite select_dream11_team_self).
  split.
  - intros T n Hn. rewrite display_team_dist_lookup in Hn.
    rewrite (count_team_registry _ self _ _ Hreg), Hteam, <- I3 in Hn.
    rewrite Htc. specialize (I7 T). unfold MAX_TEAM_PLAYERS in I7.
    destruct (team_count _ T =? 0)%nat eqn:Hz; [discriminate|].
    injection Hn as <-. apply Nat.eqb_neq in Hz. lia.
  - intros T R. rewrite display_role_dist_count.
    rewrite (count_team_role_registry _ self _ _ _ Hreg), Hteam, <- I4, Hrc.
    split; [done|apply I8].
Qed.

(** ** The export of [main] *)

Lemma display_role_label (self : Dream11Predictor) (player : string) :
  display_role_of (role_text self player) = role_label (_simplify_role self player).
Proof.
  unfold display_role_of, _simplify_role.
  repeat match goal with
         | |- context [if ?b then _ else _] => destruct b
         end; done.
Qed.

Lemma player_team_of_cases (team1 team2 : string)
    (team1_playing11 team2_playing11 : list string) (player : string) :
  player ∈ bare_name <$> (team1_playing11 ++ team2_playing11) →
  (player ∈ bare_name <$> team1_playing11 ∧
   player_team_of team1 team2 team1_playing11 team2_playing11 player = team1) ∨
  ((player ∉ bare_name <$> team1_playing11) ∧
   player ∈ bare_name <$> team2_playing11 ∧
   player_team_of team1 team2 team1_playing11 team2_playing11 player = team2).
Proof.
  rewrite fmap_app, elem_of_app. intros Hin. unfold player_team_of.
  destruct (decide (player ∈ bare_name <$> team1_playing11)) as [H1|H1].
  - left. by rewrite bool_decide_eq_true_2.
  - right. destruct Hin as [?|H2]; [done|].
    by rewrite bool_decide_eq_false_2, bool_decide_eq_true_2.
Qed.

(** X21: the rows [main] exports for a predicted team are the team's
    players in the team's order.  Each row carries the abbreviation of the
    match side whose playing XI names the player (the first side when both
    do; never that of "Unknown"), the label of the role category the
    selector used for the player, and the credits the registry holds for
    the player. *)
Theorem export_rows_describe_team (E : Externals) (self self' : Dream11Predictor)
    (team1 team2 venue_name : string) (team1_playing11 team2_playing11 : list string)
    (out : Prediction) :
  predict_dream11 E self team1 team2 venue_name team1_playing11 team2_playing11
    = Ok (out, self') →
  let rows :=
    main_team_data self' team1 team2 team1_playing11 team2_playing11
      (team (selection out)) in
  (td_name <$> rows) = (team (selection out)).*1 ∧
  ∀ row, row ∈ rows →
    ((td_name row ∈ bare_name <$> team1_playing11 ∧
      td_team row = team_abbr_of team1) ∨
     ((td_name row ∉ bare_name <$> team1_playing11) ∧
      td_name row ∈ bare_name <$> team2_playing11 ∧
      td_team row = team_abbr_of team2)) ∧
    td_role row = role_label (_simplify_role self' (td_name row)) ∧
    player_credits self' !! td_name row = Some (td_credit row).
Proof.
  intros Hrun rows.
  destruct (predict_dream11_team_facts E self self' team1 team2 venue_name
              team1_playing11 team2_playing11 out Hrun) as (Hteam & Hreg & _).
  unfold rows, main_team_data. split.
  - rewrite <- list_fmap_compose. done.
  - intros row Hrow. apply list_elem_of_fmap in Hrow as ([player score] & -> & Hin).
    cbn [td_name td_team td_role td_credit fst].
    destruct (Hteam player score Hin) as [Hname _].
    split; [|split].
    + destruct (player_team_of_cases team1 team2 _ _ player Hname)
        as [[H1 ->]|(H1 & H2 & ->)]; [by left|by right].
    + apply display_role_label.
    + destruct (Hreg player Hname) as [[c Hc] _].
      unfold credits_of. by rewrite Hc.
Qed.

Lemma export_rows_describe_team_witness :
  match predict_dream11 no_externals squad_predictor "Mumbai Indians" "Delhi Capitals"
          "Wankhede" squad_team1 squad_team2 with
  | Ok (out, self') =>
      (td_name <$> main_team_data self' "Mumbai Indians" "Delhi Capitals"
                     squad_team1 squad_team2 (team (selection out)))
      = (team (selection out)).*1
  | Raise _ => False
  end.
Proof.
  destruct (predict_dream11 no_externals squad_predictor "Mumbai Indians"
              "Delhi Capitals" "Wankhede" squad_team1 squad_team2)
    as [[out self']|exn] eqn:Hrun.
  - pose proof (export_rows_describe_team _ _ _ _ _ _ _ _ _ Hrun) as [Hnames _].
    exact Hnames.
  - vm_compute in Hrun. discriminate Hrun.
Defined.

(** ** [predict_dream11]: what a run leaves alone *)

(** X22: a prediction that returns does not touch the loaded data: the two
    statistics caches and the squad files are the same afterwards, the team
    it returns is the one stored in [self.selected_team], and outside the
    names of the playing XIs the registry is as before. *)
Theorem predict_keeps_loaded_data (E : Externals) (self self' : Dream11Predictor)
    (team1 team2 venue_name : string) (team1_playing11 team2_playing11 : list string)
    (out : Prediction) :
  predict_dream11 E self team1 team2 venue_name team1_playing11 team2_playing11
    = Ok (out, self') →
  batter_data self' = batter_data self ∧
  bowler_data self' = bowler_data self ∧
  teams_data self' = teams_data self ∧
  selected_team self' = team (selection out) ∧
  ∀ player, player ∉ bare_name <$> (team1_playing11 ++ team2_playing11) →
    player_roles self' !! player = player_roles self !! player ∧
    player_credits self' !! player = player_credits self !! player ∧
    player_is_foreign self' !! player = player_is_foreign self !! player ∧
    player_teams self' !! player = player_teams self !! player.
Proof.
  intros Hrun. unfold predict_dream11 in Hrun.
  destruct (set_player_roles self (team1_playing11 ++ team2_playing11))
    as [s0|] eqn:Hroles; [|discriminate].
  cbn [bind] in Hrun.
  destruct (set_player_roles_fields _ _ _ Hroles) as (Hb0 & Hw0 & Ht0 & _).
  pose proof (score_players_registry E s0 venue_name (bare_name <$> team1_playing11)
                (bare_name <$> team2_playing11)) as (Hb1 & Hw1 & Ht1 & Hr1 & Hc1 & Hf1 & Hp1).
  set (s1 := score_players E s0 venue_name (bare_name <$> team1_playing11)
               (bare_name <$> team2_playing11)) in *.
  clearbody s1.
  pose proof (select_dream11_team_registry s1) as (Hb2 & Hw2 & Ht2 & Hr2 & Hc2 & Hf2 & Hp2).
  pose proof (select_dream11_team_self s1) as Hself.
  destruct (select_dream11_team_result s1) as (Hteam & _).
  destruct (select_dream11_team s1) as [sel s2]. injection Hrun as <- <-.
  cbn [fst snd selection] in *.
  split; [congruence|]. split; [congruence|]. split; [congruence|].
  split; [by rewrite Hself, Hteam|].
  intros player Hout. rewrite bare_names_entry_names in Hout.
  destruct (set_player_roles_frame _ _ _ player Hroles Hout) as (<- & <- & <- & <-).
  by rewrite Hr2, Hr1, Hc2, Hc1, Hf2, Hf1, Hp2, Hp1.
Qed.

Lemma predict_keeps_loaded_data_witness :
  match predict_dream11 no_externals squad_predictor "MI" "DC" "Wankhede"
          squad_team1 squad_team2 with
  | Ok (out, self') =>
      teams_data self' = teams_data squad_predictor ∧
      selected_team self' = team (selection out)
  | Raise _ => False
  end.
Proof.
  destruct (predict_dream11 no_externals squad_predictor "MI" "DC" "Wankhede"
              squad_team1 squad_team2) as [[out self']|exn] eqn:Hrun.
  - pose proof (predict_keeps_loaded_data _ _ _ _ _ _ _ _ _ Hrun)
      as (_ & _ & Ht & Hs & _).
    by split.
  - vm_compute in Hrun. discriminate Hrun.
Defined.

(** ** [select_dream11_team]: the top scorer *)

Lemma sorted_desc_head_max (scores : list (string * Q)) (p : string) (sc : Q) :
  (p, sc) ∈ scores →
  (∀ e, e ∈ scores → e ≠ (p, sc) → (e.2 < sc)%Q) →
  ∃ rest, sorted_desc scores = (p, sc) :: rest.
Proof.
  intros Hin Hmax.
  pose proof (sorted_desc_descending scores) as Hdesc.
  pose proof (sorted_desc_perm scores) as Hperm.
  rewrite <- Hperm in Hin.
  destruct (sorted_desc scores) as [|h tl]; [by apply elem_of_nil in Hin|].
  assert (Hdec : h = (p, sc) ∨ h ≠ (p, sc)).
  { destruct h as [k [n d]], sc as [n' d'].
    destruct (decide (k = p)) as [->|]; [|right; congruence].
    destruct (decide (n = n')) as [->|]; [|right; congruence].
    destruct (decide (d = d')) as [->|]; [by left | right; congruence]. }
  destruct Hdec as [->|Hne]; [eauto|].
  exfalso. apply elem_of_cons in Hin as [Heq|Hin]; [done|].
  apply descending_cons in Hdesc as [Hh _]. specialize (Hh _ Hin). simpl in Hh.
  assert (Hlt : (h.2 < sc)%Q).
  { apply Hmax; [|done]. rewrite <- Hperm. apply list_elem_of_here. }
  by apply Qlt_not_le in Hlt.
Qed.

Lemma passes_checksb_init (self : Dream11Predictor) (p : string) :
  (credits_of self p <= 100)%Q → passes_checksb self sel_init p = true.
Proof.
  intros Hc. apply passes_checksb_spec. unfold passes_checks, sel_init. simpl.
  unfold team_count, role_team_count. rewrite !lookup_empty. simpl.
  rewrite lookup_empty. simpl.
  unfold MAX_TEAM_PLAYERS, max_credits, max_foreign. repeat split.
  - lia.
  - destruct (_simplify_role self p); simpl; lia.
  - by rewrite Qplus_0_l.
  - intros _. lia.
Qed.

Lemma select_loop_first (self : Dream11Predictor) (p : string) (sc : Q)
    (rest : list (string * Q)) :
  (credits_of self p <= 100)%Q →
  ∃ others,
    sel_players (select_loop self ((p, sc) :: rest) sel_init) = (p, sc) :: others.
Proof.
  intros Hc. apply passes_checksb_init in Hc.
  destruct (select_loop_step self p sc rest sel_init) as (st1 & -> & Hst1).
  rewrite Hc in *. destruct Hst1 as (A1 & _). simpl.
  destruct (select_loop_sublist self rest st1) as (l' & -> & _).
  rewrite A1. simpl. eauto.
Qed.

(** X23: a player who scores strictly above every other entry of
    [player_scores] and costs at most 100 credits is always selected, as
    the first player of the team; with a second player in the team, that
    player is the captain. *)
Theorem top_scorer_leads_team (self : Dream11Predictor) (p : string) (sc : Q) :
  (p, sc) ∈ player_scores self →
  (∀ e, e ∈ player_scores self → e ≠ (p, sc) → (e.2 < sc)%Q) →
  (credits_of self p <= 100)%Q →
  let sel := (select_dream11_team self).1 in
  ∃ others, team sel = (p, sc) :: others ∧
            (others ≠ [] → captain sel = Some p).
Proof.
  intros Hin Hmax Hc sel. unfold sel.
  destruct (sorted_desc_head_max _ p sc Hin Hmax) as [rest Hsorted].
  destruct (select_dream11_team_result self) as (-> & _ & _ & -> & _).
  rewrite Hsorted.
  destruct (select_loop_first self p sc rest Hc) as [others ->].
  exists others. split; [done|]. intros Hne.
  destruct others as [|o others]; [done|]. reflexivity.
Qed.

Lemma top_scorer_leads_team_witness :
  ∃ others, team (select_dream11_team short_predictor).1 = ("MS Dhoni", 4%Q) :: others ∧
            (others ≠ [] → captain (select_dream11_team short_predictor).1
                           = Some "MS Dhoni").
Proof.
  apply (top_scorer_leads_team short_predictor "MS Dhoni" 4%Q).
  - apply list_elem_of_In. vm_compute. tauto.
  - intros e He Hne. apply list_elem_of_In in He. vm_compute in He.
    destruct He as [<-|[<-|[<-|[<-|[]]]]]; [done| | |]; reflexivity.
  - unfold credits_of. simpl. rewrite lookup_empty. simpl. discriminate.
Defined.
